(** * InfinityGamingPOS: session lifecycle, billing and split payments

    A shallow embedding of the parts of the point-of-sale server and client
    that decide how a gaming session is opened, closed and paid:

    - [schema.ts]: the enumerations and table rows;
    - [storage.ts] ([DatabaseStorage]): the statements run against the
      stations, sessions, payments, customers and stats tables, the
      loyalty report and the transaction view;
    - [sessionController.ts], the stations router
      ([handleStationsRequests]), [cashPaymentController.ts] and
      [customerController.ts]: the request handlers;
    - [SplitPaymentModal.tsx]: the split editor of the client;
    - the [PaymentModal] component: the amount it asks for and the
      mobile-money confirmation poll, with [checkMpesaPaymentStatus] of the
      client's payment library;
    - [NewSessionModal.tsx]: the base rate of a new session;
    - [PaymentPage.tsx] ([formatPhoneNumber]), [games.tsx]
      ([togglePlatform]) and [debug.log.ts] ([DebugLogger]).

    Conventions of the embedding.  A JavaScript number that the code keeps
    integral (ids, millisecond timestamps, integer columns) is a [Z]; a
    number that the code divides (hours, split amounts, payment amounts) is
    an IEEE 754 double, [Number.t].  A nullable column is an [option];
    [null] and [undefined] in arithmetic and in [x || d] follow JavaScript
    ([null + 1 = 1]).  The database is a record of tables that each
    statement transforms; every reading of the clock is an argument. *)

From Stdlib Require Import ZArith QArith SpecFloat Lia.
From stdpp Require Import gmap list strings.

Local Open Scope Z_scope.

(** ** JavaScript numbers

    The binary64 format with the Standard Library's executable
    specification of its operations (round to nearest, ties to even). *)

Module Number.

Definition t : Type := spec_float.

Definition ofZ (z : Z) : t := binary_normalize 53 1024 z 0 false.
Definition ofNat (n : nat) : t := ofZ (Z.of_nat n).
Definition zero : t := S754_zero false.

Definition add : t → t → t := SFadd 53 1024.
Definition sub : t → t → t := SFsub 53 1024.
Definition mul : t → t → t := SFmul 53 1024.
Definition div : t → t → t := SFdiv 53 1024.
Definition abs : t → t := SFabs.
Definition ltb : t → t → bool := SFltb.

Definition isNaN (x : t) : bool :=
  match x with
  | S754_nan => true
  | _ => false
  end.

(** [!x]: [0], [-0] and [NaN] are falsy. *)
Definition falsy (x : t) : bool :=
  match x with
  | S754_nan | S754_zero _ => true
  | _ => false
  end.

(** [Math.max(0, x)] *)
Definition max0 (x : t) : t :=
  if isNaN x then x else if ltb zero x then x else zero.

(** The mantissa with its sign. *)
Definition signed (s : bool) (m : positive) : Z :=
  if s then Z.neg m else Z.pos m.

(** [Math.floor] and [Math.ceil] of a finite number, as the integer they
    denote.  The numbers rounded below are quotients and products of
    timestamps, 32-bit columns and amounts, hence finite; on [NaN] and the
    infinities the functions are 0. *)
Definition floor (x : t) : Z :=
  match x with
  | S754_finite s m e =>
      if 0 <=? e then signed s m * 2 ^ e else signed s m / 2 ^ (- e)
  | _ => 0
  end.

Definition ceil (x : t) : Z :=
  match x with
  | S754_finite s m e =>
      if 0 <=? e then signed s m * 2 ^ e else - ((- signed s m) / 2 ^ (- e))
  | _ => 0
  end.

(** The rational that a finite number is, in lowest terms, to display it. *)
Definition toQ (x : t) : Q :=
  match x with
  | S754_finite s m e =>
      Qred (if 0 <=? e then inject_Z (signed s m * 2 ^ e)
            else Qmake (signed s m) (Z.to_pos (2 ^ (- e))))
  | _ => 0%Q
  end.

End Number.

Declare Scope number_scope.
Delimit Scope number_scope with num.
Bind Scope number_scope with Number.t.
Infix "+" := Number.add : number_scope.
Infix "-" := Number.sub : number_scope.
Infix "*" := Number.mul : number_scope.
Infix "/" := Number.div : number_scope.

(** ** schema.ts *)

Inductive StationType := PS5 | XBOX | PC | VR.
Inductive StationStatus := STATION_AVAILABLE | STATION_ACTIVE | STATION_MAINTENANCE.
Inductive SessionStatus := SESSION_ACTIVE | SESSION_COMPLETED | SESSION_CANCELLED.
Inductive SessionType := HOURLY | FIXED.
Inductive PaymentMethod := CASH | MPESA | METHOD_PENDING.
Inductive PaymentStatus := PAYMENT_PENDING | PAYMENT_COMPLETED | PAYMENT_FAILED.

#[global] Instance StationStatus_eq_dec : EqDecision StationStatus.
Proof. solve_decision. Defined.
#[global] Instance SessionStatus_eq_dec : EqDecision SessionStatus.
Proof. solve_decision. Defined.
#[global] Instance SessionType_eq_dec : EqDecision SessionType.
Proof. solve_decision. Defined.

Module Customer.
Record t := mk {
  id : Z;
  fullName : string;
  phoneNumber : option string;
  email : option string;
  loyaltyPoints : option Z
}.
End Customer.

Module Station.
Record t := mk {
  id : Z;
  name : string;
  stationType : StationType;
  status : StationStatus;
  ratePerHour : Z;
  ratePerGame : option Z;
  maintenanceReason : option string;
  maintenanceEta : option string
}.

(** [Partial<Station>] as the routers build it: a field that is absent
    ([None]) is left alone by [UPDATE ... SET]. *)
Record partial := mkPartial {
  p_name : option string;
  p_status : option StationStatus;
  p_ratePerHour : option Z;
  p_ratePerGame : option Z;
  p_maintenanceReason : option string;
  p_maintenanceEta : option string
}.

Definition set (p : partial) (s : t) : t :=
  mk (id s)
     (default (name s) (p_name p))
     (stationType s)
     (default (status s) (p_status p))
     (default (ratePerHour s) (p_ratePerHour p))
     (match p_ratePerGame p with Some r => Some r | None => ratePerGame s end)
     (match p_maintenanceReason p with Some r => Some r | None => maintenanceReason s end)
     (match p_maintenanceEta p with Some r => Some r | None => maintenanceEta s end).

Definition onlyStatus (st : StationStatus) : partial :=
  mkPartial None (Some st) None None None None.
End Station.

Module Session.
Record t := mk {
  id : Z;
  stationId : Z;
  customerId : Z;
  gameId : option Z;
  sessionType : SessionType;
  startTime : Z;
  endTime : option Z;
  duration : option Z;
  status : SessionStatus;
  totalAmount : option Z;
  paymentMethod : option PaymentMethod;
  paymentStatus : option PaymentStatus;
  paymentReference : option string;
  createdBy : option Z
}.
End Session.

(** [InsertSession]: [insertSessionSchema] omits [id], [createdAt],
    [status], [endTime] and [totalAmount]. *)
Module InsertSession.
Record t := mk {
  stationId : Z;
  customerId : Z;
  gameId : option Z;
  sessionType : SessionType;
  startTime : option Z;
  duration : option Z;
  paymentMethod : option PaymentMethod;
  paymentStatus : option PaymentStatus;
  paymentReference : option string;
  createdBy : option Z
}.
End InsertSession.

Module Payment.
Record t := mk {
  id : Z;
  sessionId : option Z;
  customerId : option Z;
  amount : Number.t;
  paymentMethod : PaymentMethod;
  status : PaymentStatus;
  createdBy : option Z
}.
End Payment.

(** What the callers of [createPayment] pass; [status] absent takes the
    column default [PENDING]. *)
Module InsertPayment.
Record t := mk {
  sessionId : option Z;
  customerId : option Z;
  amount : Number.t;
  paymentMethod : PaymentMethod;
  status : option PaymentStatus;
  createdBy : option Z
}.
End InsertPayment.

Module Stat.
Record t := mk {
  id : Z;
  date : Z;
  totalRevenue : option Z;
  totalHours : option Number.t;
  activeStations : option Z;
  activeUsers : option Z;
  updatedAt : Z
}.
End Stat.

(** JavaScript's conversion of a nullable number in arithmetic. *)
Definition toNumber (x : option Z) : Z := default 0 x.
Definition toNumberN (x : option Number.t) : Number.t := default Number.zero x.

(** ** The clock

    [now] is the value of [new Date().getTime()], [today] the same instant
    after [setHours(0, 0, 0, 0)]: local midnight of the current day. *)
Record Clock := mkClock { now : Z; today : Z }.

(** ** The database *)

Record Db := mkDb {
  stations : gmap Z Station.t;
  customers : gmap Z Customer.t;
  sessions : gmap Z Session.t;
  payments : list Payment.t;
  stats : list Stat.t;
  nextSessionId : Z;
  nextPaymentId : Z;
  nextStatId : Z
}.

Definition withStations (f : gmap Z Station.t → gmap Z Station.t) (db : Db) : Db :=
  mkDb (f (stations db)) (customers db) (sessions db) (payments db) (stats db)
       (nextSessionId db) (nextPaymentId db) (nextStatId db).

Definition withStats (f : list Stat.t → list Stat.t) (db : Db) : Db :=
  mkDb (stations db) (customers db) (sessions db) (payments db) (f (stats db))
       (nextSessionId db) (nextPaymentId db) (nextStatId db).

(** ** storage.ts: [DatabaseStorage] *)

Module DatabaseStorage.

(** [select().from(stations).where(eq(stations.id, id))], first row. *)
Definition getStation (db : Db) (id : Z) : option Station.t :=
  stations db !! id.

Definition getSession (db : Db) (id : Z) : option Session.t :=
  sessions db !! id.

Definition getCustomer (db : Db) (id : Z) : option Customer.t :=
  customers db !! id.

(** [update(stations).set(station).where(eq(stations.id, id)).returning()]:
    the row after the update, or nothing when no row has this id. *)
Definition updateStation (db : Db) (id : Z) (station : Station.partial)
  : Db * option Station.t :=
  (withStations (alter (Station.set station) id) db,
   Station.set station <$> stations db !! id).

(** [select().from(stats).where(eq(stats.date, today))], first row. *)
Definition statByDate (day : Z) (rows : list Stat.t) : option Stat.t :=
  find (λ r, Stat.date r =? day) rows.

(** [update(stats).set(values).where(eq(stats.id, id))]: the same values
    are written into every row with this id. *)
Definition updateStatById (id : Z) (values : Stat.t → Stat.t) (rows : list Stat.t)
  : list Stat.t :=
  map (λ r, if Stat.id r =? id then values r else r) rows.

Definition insertSessionRow (db : Db) (session : InsertSession.t) (clk : Clock)
  : Session.t :=
  Session.mk (nextSessionId db)
    (InsertSession.stationId session)
    (InsertSession.customerId session)
    (InsertSession.gameId session)
    (InsertSession.sessionType session)
    (default (now clk) (InsertSession.startTime session))
    None
    (InsertSession.duration session)
    SESSION_ACTIVE
    None
    (InsertSession.paymentMethod session)
    (InsertSession.paymentStatus session)
    (InsertSession.paymentReference session)
    (InsertSession.createdBy session).

(** The stats half of [createSession]: bump today's row, or insert it. *)
Definition statsOnCreate (db : Db) (clk : Clock) : Db :=
  match statByDate (today clk) (stats db) with
  | Some existingStat =>
      withStats (updateStatById (Stat.id existingStat) (λ r,
        Stat.mk (Stat.id r) (Stat.date r) (Stat.totalRevenue r) (Stat.totalHours r)
          (Some (toNumber (Stat.activeStations existingStat) + 1))
          (Some (toNumber (Stat.activeUsers existingStat) + 1))
          (now clk))) db
  | None =>
      mkDb (stations db) (customers db) (sessions db) (payments db)
        (stats db ++ [Stat.mk (nextStatId db) (today clk) (Some 0) (Some Number.zero)
                              (Some 1) (Some 1) (now clk)])
        (nextSessionId db) (nextPaymentId db) (nextStatId db + 1)
  end.

(** [createSession], when each of its statements is carried out: the
    insert, the update of the station and the update or insert of today's
    stats row, in this order and outside any transaction. *)
Definition createSession (db : Db) (session : InsertSession.t) (clk : Clock)
  : Db * Session.t :=
  let newSession := insertSessionRow db session clk in
  let db1 :=
    mkDb (stations db) (customers db)
      (<[Session.id newSession := newSession]> (sessions db))
      (payments db) (stats db)
      (nextSessionId db + 1) (nextPaymentId db) (nextStatId db) in
  let db2 :=
    withStations
      (alter (Station.set (Station.onlyStatus STATION_ACTIVE))
             (InsertSession.stationId session)) db1 in
  (statsOnCreate db2 clk, newSession).

Definition closeSessionRow (session : Session.t) (endTime durationInMinutes totalAmount : Z)
  : Session.t :=
  Session.mk (Session.id session) (Session.stationId session)
    (Session.customerId session) (Session.gameId session)
    (Session.sessionType session) (Session.startTime session)
    (Some endTime) (Some durationInMinutes) SESSION_COMPLETED (Some totalAmount)
    (Session.paymentMethod session) (Session.paymentStatus session)
    (Session.paymentReference session) (Session.createdBy session).

(** The stats half of [endSession]; nothing happens without a row for
    today. *)
Definition statsOnEnd (db : Db) (clk : Clock) (totalAmount durationInMinutes : Z) : Db :=
  match statByDate (today clk) (stats db) with
  | Some existingStat =>
      withStats (updateStatById (Stat.id existingStat) (λ r,
        Stat.mk (Stat.id r) (Stat.date r)
          (Some (toNumber (Stat.totalRevenue existingStat) + totalAmount))
          (Some (toNumberN (Stat.totalHours existingStat)
                 + Number.ofZ durationInMinutes / Number.ofZ 60)%num)
          (Some (Z.max 0 (toNumber (Stat.activeStations existingStat) - 1)))
          (Some (Z.max 0 (toNumber (Stat.activeUsers existingStat) - 1)))
          (now clk))) db
  | None => db
  end.

(** [Math.floor((endTime.getTime() - new Date(session.startTime).getTime()) / 60000)] *)
Definition durationInMinutes (session : Session.t) (endTime : Z) : Z :=
  Number.floor (Number.ofZ (endTime - Session.startTime session) / Number.ofZ 60000)%num.

(** [endSession], when each of its statements is carried out: the session
    row, the station row and today's stats row are written by three
    statements in this order, outside any transaction.  [None] is the
    [undefined] that the method returns for a session that is not there. *)
Definition endSession (db : Db) (id : Z) (totalAmount : Z) (clk : Clock)
  : option (Db * Session.t) :=
  match sessions db !! id with
  | None => None
  | Some session =>
      let endTime := now clk in
      let durationInMinutes := durationInMinutes session endTime in
      let updatedSession := closeSessionRow session endTime durationInMinutes totalAmount in
      let db1 :=
        mkDb (stations db) (customers db)
          (<[id := updatedSession]> (sessions db))
          (payments db) (stats db)
          (nextSessionId db) (nextPaymentId db) (nextStatId db) in
      let db2 :=
        withStations
          (alter (Station.set (Station.onlyStatus STATION_AVAILABLE))
                 (Session.stationId session)) db1 in
      Some (statsOnEnd db2 clk totalAmount durationInMinutes, updatedSession)
  end.

(** [insert(payments).values(payment).returning()].  The [amount] column
    is a [real]: the row holds the amount as a 32-bit float, which is the
    amount given for the integers up to 2^24 ([Column.real] below); the
    properties that name the amount of a row are stated for those. *)
Definition createPayment (db : Db) (payment : InsertPayment.t) : Db * Payment.t :=
  let newPayment :=
    Payment.mk (nextPaymentId db)
      (InsertPayment.sessionId payment) (InsertPayment.customerId payment)
      (InsertPayment.amount payment) (InsertPayment.paymentMethod payment)
      (default PAYMENT_PENDING (InsertPayment.status payment))
      (InsertPayment.createdBy payment) in
  (mkDb (stations db) (customers db) (sessions db)
        (payments db ++ [newPayment]) (stats db)
        (nextSessionId db) (nextPaymentId db + 1) (nextStatId db),
   newPayment).

(** [awardLoyaltyPoints] logs and answers [{ id, pointsAwarded }]; it runs
    no statement, so the database it is given is the database it leaves. *)
Definition awardLoyaltyPoints (db : Db) (userId : Z) (points : Z) : Db * (Z * Z) :=
  (db, (userId, points)).

End DatabaseStorage.

(** ** What a handler answers and broadcasts *)

Inductive Body :=
| Message (message : string)
| SessionJson (session : Session.t)
| StationJson (station : Station.t)
| PaymentJson (payment : Payment.t).

Record Reply := mkReply { code : Z; body : Body }.

Inductive Event :=
| SESSION_CREATED (data : Session.t)
| SESSION_ENDED (data : Session.t)
| STATION_MAINTENANCE_EVENT (data : Station.t).

Record Outcome := mkOutcome {
  db_after : Db;
  broadcasts : list Event;
  reply : Reply
}.

(** A handler that answers before it has run any statement. *)
Definition answer (db : Db) (c : Z) (m : string) : Outcome :=
  mkOutcome db [] (mkReply c (Message m)).

(** ** sessionController.ts: [handleSessionsRequests] *)

Module SessionController.

(** [req.body] of [POST /]: any field may be missing. *)
Record body := mkBody {
  stationId : option Z;
  customerId : option Z;
  gameId : option Z;
  sessionType : option SessionType;
  startTime : option Z;
  duration : option Z;
  paymentMethod : option PaymentMethod;
  paymentStatus : option PaymentStatus;
  paymentReference : option string;
  createdBy : option Z
}.

(** [insertSessionSchema.parse]: the three [notNull] columns without a
    default are required, and [startTime], a timestamp column, must be a
    [Date], which no JSON body carries: a body with a [startTime] field is
    refused whatever the field holds.  [None] stands for the [ZodError]. *)
Definition parse (b : body) : option InsertSession.t :=
  match stationId b, customerId b, sessionType b, startTime b with
  | Some sid, Some cid, Some ty, None =>
      Some (InsertSession.mk sid cid (gameId b) ty None (duration b)
                             (paymentMethod b) (paymentStatus b) (paymentReference b)
                             (createdBy b))
  | _, _, _, _ => None
  end.

(** [router.post('/')].  Without a [stationId] in the body the lookup finds
    no station.  The route also has a [catch] that answers 500 when a
    statement throws (a key beyond 32 bits, a customer, game or user that
    does not exist); that branch is not part of the definition, and what is
    proved about a request that is carried out is stated for a request
    that is answered 201. *)
Definition postSession (db : Db) (b : body) (clk : Clock) : Outcome :=
  match stationId b ≫= DatabaseStorage.getStation db with
  | None => answer db 404 "Station not found"
  | Some station =>
      if decide (Station.status station = STATION_AVAILABLE) then
        match parse b with
        | None => answer db 400 "Invalid session data"
        | Some validatedData =>
            let '(db', session) := DatabaseStorage.createSession db validatedData clk in
            mkOutcome db' [SESSION_CREATED session] (mkReply 201 (SessionJson session))
        end
      else answer db 400 "Station is not available"
  end.

(** Lines 102-114 of [router.post('/:id/end')]: the charge.  [nowMs] is
    [new Date().getTime()] as the controller reads it. *)
Definition computeTotalAmount (session : Session.t) (station : Station.t) (nowMs : Z) : Z :=
  if decide (Session.sessionType session = FIXED) then
    match Station.ratePerGame station with
    | Some r => r
    | None => 0
    end
  else
    let durationInHours :=
      (Number.ofZ (nowMs - Session.startTime session) / Number.ofZ (1000 * 60 * 60))%num in
    Number.ceil (durationInHours * Number.ofZ (Station.ratePerHour station))%num.

(** [x || undefined] on a nullable id. *)
Definition orUndefined (x : option Z) : option Z :=
  match x with
  | Some 0 => None
  | _ => x
  end.

(** [router.post('/:id/end')].  The controller reads the clock once
    ([nowMs]); [storage.endSession] reads it again ([clk]).  The route
    also has a [catch] that answers 500 when a statement throws (a key, an
    amount, a duration or a revenue beyond 32 bits); that branch is not
    part of the definition, and what is proved about an end that is
    carried out is stated for a request that is answered 200 with values
    that fit their columns ([Column.endFits] below). *)
Definition postEnd (db : Db) (id : Z) (nowMs : Z) (clk : Clock) : Outcome :=
  match DatabaseStorage.getSession db id with
  | None => answer db 404 "Session not found"
  | Some session =>
      if decide (Session.status session = SESSION_ACTIVE) then
        match DatabaseStorage.getStation db (Session.stationId session) with
        | None => answer db 500 "Station not found"
        | Some station =>
            let totalAmount := computeTotalAmount session station nowMs in
            match DatabaseStorage.endSession db id totalAmount clk with
            | None => answer db 500 "Failed to end session"
            | Some (db1, updatedSession) =>
                let '(db2, _) :=
                  DatabaseStorage.createPayment db1
                    (InsertPayment.mk (Some id) (Some (Session.customerId session))
                       (Number.ofZ totalAmount) METHOD_PENDING None
                       (orUndefined (Session.createdBy session))) in
                mkOutcome db2 [SESSION_ENDED updatedSession]
                          (mkReply 200 (SessionJson updatedSession))
            end
        end
      else answer db 400 "Session is not active"
  end.

(** The session row that a successful [postEnd] stores and answers. *)
Definition closedRow (session : Session.t) (station : Station.t) (nowMs : Z) (clk : Clock)
  : Session.t :=
  DatabaseStorage.closeSessionRow session (now clk)
    (DatabaseStorage.durationInMinutes session (now clk))
    (computeTotalAmount session station nowMs).

End SessionController.

(** ** The stations router: [handleStationsRequests] *)

Module StationController.

Record maintenanceBody := mkMaintenanceBody {
  reason : option string;
  eta : option string
}.

(** [router.post('/:id/maintenance')]: [reason] is required by the schema.
    The [catch] that answers 500 when the statement throws is not part of
    the definition. *)
Definition postMaintenance (db : Db) (id : Z) (b : maintenanceBody) : Outcome :=
  match reason b with
  | None => answer db 400 "Invalid maintenance data"
  | Some r =>
      let '(db', updatedStation) :=
        DatabaseStorage.updateStation db id
          (Station.mkPartial None (Some STATION_MAINTENANCE) None None (Some r) (eta b)) in
      match updatedStation with
      | None => mkOutcome db' [] (mkReply 404 (Message "Station not found"))
      | Some st => mkOutcome db' [STATION_MAINTENANCE_EVENT st] (mkReply 200 (StationJson st))
      end
  end.

End StationController.

(** ** cashPaymentController.ts *)

Module CashPaymentController.

Record body := mkBody {
  transactionId : option Z;
  amount : option Number.t;
  userId : option Z
}.

(** [!x] on an id and on an amount. *)
Definition missingId (x : option Z) : bool :=
  match x with
  | None | Some 0 => true
  | Some _ => false
  end.

Definition missingAmount (x : option Number.t) : bool :=
  match x with
  | None => true
  | Some a => Number.falsy a
  end.

(** [Math.floor(amount / 100)]: one point per 100 spent. *)
Definition pointsToAward (a : Number.t) : Z := Number.floor (a / Number.ofZ 100)%num.

(** What [processCashPayment] hands back besides the reply: the result of
    [awardLoyaltyPoints], when it was called.  The [catch] of the handler,
    which answers 500 when a statement throws (a transaction id beyond 32
    bits, an amount beyond the range of the [real] column), is not part of
    the definition below. *)
Record result := mkResult {
  outcome : Outcome;
  awarded : option (Z * Z)
}.

Definition processCashPayment (db : Db) (b : body) : result :=
  match transactionId b, amount b with
  | Some tid, Some a =>
      if missingId (Some tid) || missingAmount (Some a) then
        mkResult (answer db 400 "Transaction ID and amount are required") None
      else
        match DatabaseStorage.getSession db tid with
        | None => mkResult (answer db 404 "Session not found") None
        | Some _ =>
            let '(db1, payment) :=
              DatabaseStorage.createPayment db
                (InsertPayment.mk (Some tid) None a CASH (Some PAYMENT_COMPLETED) None) in
            if missingId (userId b) then
              mkResult (mkOutcome db1 [] (mkReply 200 (PaymentJson payment))) None
            else
              let uid := toNumber (userId b) in
              let '(db2, award) :=
                DatabaseStorage.awardLoyaltyPoints db1 uid (pointsToAward a) in
              mkResult (mkOutcome db2 [] (mkReply 200 (PaymentJson payment))) (Some award)
        end
  | _, _ => mkResult (answer db 400 "Transaction ID and amount are required") None
  end.

End CashPaymentController.

(** ** SplitPaymentModal.tsx

    The component state is [splits] and [activeIndex]; [totalAmount] is a
    prop.  Each handler is modelled as one step from the state it was
    rendered with to the state it sets; [handlePreparePayment] is taken at
    the moment its [createTransaction] promise settles.  The handlers that
    assign into the elements of a copied array share those objects only
    with the array that [setSplits] replaces, so [splits] is a list of
    values. *)

Module SplitPaymentModal.

Record split := mkSplit {
  amount : Number.t;
  paid : bool;
  transactionId : option Z
}.

Record state := mkState {
  splits : list split;
  activeIndex : nat;
  completed : bool  (* [onPaymentComplete(); onClose()] has fired *)
}.

(** [useState([{ amount: totalAmount, paid: false }])], [useState(0)] *)
Definition initial (totalAmount : Number.t) : state :=
  mkState [mkSplit totalAmount false None] 0 false.

(** A transaction id as a condition: [undefined] and [0] are falsy. *)
Definition truthy (x : option Z) : bool :=
  match x with
  | None | Some 0 => false
  | Some _ => true
  end.

Definition addSplit (totalAmount : Number.t) (st : state) : state :=
  if decide (5 ≤ length (splits st))%nat then st
  else
    let newAmount := (totalAmount / Number.ofNat (length (splits st) + 1))%num in
    let newSplits :=
      map (λ s, mkSplit newAmount (paid s) (transactionId s)) (splits st) in
    mkState (newSplits ++ [mkSplit newAmount false None]) (activeIndex st) (completed st).

(** [splits.reduce((acc, split) => acc + (split.paid ? split.amount : 0), 0)] *)
Definition paidTotal (l : list split) : Number.t :=
  fold_left (λ acc s, acc + (if paid s then amount s else Number.zero))%num l Number.zero.

(** [None] is the [TypeError] of reading [.paid] of [splits[index]] when
    there is no such element; no state is set then. *)
Definition removeSplit (totalAmount : Number.t) (st : state) (index : nat) : option state :=
  if decide (length (splits st) ≤ 1)%nat then Some st
  else
    match splits st !! index with
    | None => None
    | Some s =>
        if paid s then Some st
        else
          let newSplits := delete index (splits st) in
          let unpaidSplits := List.filter (λ s, negb (paid s)) newSplits in
          let remainingAmount := (totalAmount - paidTotal newSplits)%num in
          let newSplits' :=
            if decide (0 < length unpaidSplits)%nat then
              let amountPerSplit :=
                (remainingAmount / Number.ofNat (length unpaidSplits))%num in
              map (λ s, if paid s then s
                        else mkSplit amountPerSplit (paid s) (transactionId s)) newSplits
            else newSplits in
          Some (mkState newSplits'
                  (if decide (length newSplits' ≤ activeIndex st)%nat
                   then Nat.max 0 (length newSplits' - 1) else activeIndex st)
                  (completed st))
    end.

(** [value] is [parseFloat(e.target.value)], possibly [NaN]; [amount'] is
    [parseFloat(value) || 0]. *)
Definition updateSplitAmount (totalAmount : Number.t) (st : state) (index : nat)
    (value : Number.t) : option state :=
  let amount' := if Number.falsy value then Number.zero else value in
  match splits st !! index with
  | None => None
  | Some s =>
      if paid s then Some st
      else
        let newSplits := <[index := mkSplit amount' (paid s) (transactionId s)]> (splits st) in
        let indexed := imap (λ i s, (i, s)) newSplits in
        let unpaidSplits :=
          List.filter (λ '(i, s), negb (paid s) && negb (i =? index)%nat) indexed in
        let remainingAmount :=
          (totalAmount -
           (amount' + fold_left (λ acc '(i, s),
                        acc + (if (i =? index)%nat || negb (paid s)
                               then Number.zero else amount s))
                        indexed Number.zero))%num in
        let newSplits' :=
          if decide (0 < length unpaidSplits)%nat then
            let amountPerSplit :=
              Number.max0 (remainingAmount / Number.ofNat (length unpaidSplits))%num in
            imap (λ i s, if negb (paid s) && negb (i =? index)%nat
                         then mkSplit amountPerSplit (paid s) (transactionId s)
                         else s) newSplits
          else newSplits in
        Some (mkState newSplits' (activeIndex st) (completed st))
  end.

(** [created] is [result.transactionId] of a successful [createTransaction],
    [None] when it failed or threw. *)
Definition handlePreparePayment (st : state) (index : nat) (created : option Z)
  : state :=
  match splits st !! index with
  | None => st
  | Some s =>
      if truthy created then
        mkState (<[index := mkSplit (amount s) (paid s) created]> (splits st))
                index (completed st)
      else st
  end.

(** [newSplits.findIndex((split, i) => i > index && !split.paid)] *)
Definition nextUnpaidIndex (l : list split) (index : nat) : option nat :=
  fst <$> find (λ '(i, s), (index <? i)%nat && negb (paid s)) (imap (λ i s, (i, s)) l).

Definition handlePaymentSuccess (st : state) (index : nat) : option state :=
  match splits st !! index with
  | None => None
  | Some s =>
      let newSplits := <[index := mkSplit (amount s) true (transactionId s)]> (splits st) in
      match nextUnpaidIndex newSplits index with
      | Some i => Some (mkState newSplits i (completed st))
      | None =>
          Some (mkState newSplits (activeIndex st)
                  (if forallb paid newSplits then true else completed st))
      end
  end.

(** [splits.reduce((acc, split) => acc + split.amount, 0)] *)
Definition totalSplitAmount (st : state) : Number.t :=
  fold_left (λ acc s, acc + amount s)%num (splits st) Number.zero.

(** The literal [0.01]: the double nearest to 1/100. *)
Definition hundredth : Number.t := (Number.ofZ 1 / Number.ofZ 100)%num.

(** [Math.abs(totalSplitAmount - totalAmount) < 0.01] *)
Definition isBalanced (totalAmount : Number.t) (st : state) : bool :=
  Number.ltb (Number.abs (totalSplitAmount st - totalAmount)%num) hundredth.

(** *** What the rendered dialog lets the cashier do *)

(** The "Pay" button of a row: rendered for an unpaid part without a
    transaction, disabled while the parts do not add up. *)
Definition payEnabled (totalAmount : Number.t) (st : state) (index : nat) : bool :=
  match splits st !! index with
  | Some s => negb (paid s) && negb (truthy (transactionId s)) && isBalanced totalAmount st
  | None => false
  end.

(** The "Mark Paid" button of a row. *)
Definition markPaidEnabled (st : state) (index : nat) : bool :=
  match splits st !! index with
  | Some s => negb (paid s) && truthy (transactionId s) && (index =? activeIndex st)%nat
  | None => false
  end.

(** The payment section (cash, M-Pesa, QR) for the active part; its
    [onSuccess] is [handlePaymentSuccess(activeIndex)]. *)
Definition paymentSectionShown (st : state) : bool :=
  match splits st !! activeIndex st with
  | Some s => truthy (transactionId s)
  | None => false
  end.

(** The remove button of a row. *)
Definition removeEnabled (st : state) (index : nat) : bool :=
  match splits st !! index with
  | Some s => negb (paid s) && negb (length (splits st) <=? 1)%nat
  | None => false
  end.

(** The amount field of a row. *)
Definition amountEditable (st : state) (index : nat) : bool :=
  match splits st !! index with
  | Some s => negb (paid s)
  | None => false
  end.

Inductive action :=
| ClickAddSplit
| ClickRemove (index : nat)
| EditAmount (index : nat) (value : Number.t)
| ClickPay (index : nat) (created : option Z)
| ClickMarkPaid (index : nat)
| PaymentSucceeded.

(** One user action on the dialog; an action on a control that is not
    rendered or is disabled, and a handler that throws, leave the state as
    it is.  Each action is handled to its end before the next one: the
    part of [handlePreparePayment] that runs when [createTransaction] has
    settled belongs to the click on "Pay". *)
Definition step (totalAmount : Number.t) (st : state) (a : action) : state :=
  match a with
  | ClickAddSplit => addSplit totalAmount st
  | ClickRemove i =>
      if removeEnabled st i then default st (removeSplit totalAmount st i) else st
  | EditAmount i v =>
      if amountEditable st i then default st (updateSplitAmount totalAmount st i v) else st
  | ClickPay i created =>
      if payEnabled totalAmount st i then handlePreparePayment st i created else st
  | ClickMarkPaid i =>
      if markPaidEnabled st i then default st (handlePaymentSuccess st i) else st
  | PaymentSucceeded =>
      if paymentSectionShown st
      then default st (handlePaymentSuccess st (activeIndex st)) else st
  end.

Definition run (totalAmount : Number.t) (st : state) (l : list action) : state :=
  fold_left (step totalAmount) l st.

(** The number of parts, and the parts as the dialog shows them: the amount
    of each, as the rational it is, and whether it is paid. *)
Definition parts (st : state) : nat := length (splits st).

Definition shown (st : state) : list (Q * bool) :=
  map (λ s, (Number.toQ (amount s), paid s)) (splits st).

End SplitPaymentModal.


(** ** The [PaymentModal] component: the M-Pesa poll

    [handlePayment] starts [setInterval(callback, 5000)] once the payment
    request has been accepted.  The callback is [async]: it counts the tick
    and issues [checkMpesaPaymentStatus] at once, and the rest of it runs
    when that promise settles, which may be after later ticks.  The model
    has one event for a tick of the timer and one for a promise settling. *)

Module PaymentModal.

(** [type PaymentStatus = "idle" | "processing" | "completed" | "failed"] *)
Inductive status := idle | processing | completed | failed.

(** How a call of [checkMpesaPaymentStatus] settles: with a
    [statusResult], or by throwing. *)
Inductive check :=
| Resolved (status : string)
| Rejected.

Inductive toast :=
| PaymentStatusUnknown
| PaymentSuccessful
| PaymentFailed.

Definition maxStatusChecks : nat := 5.
Definition pollIntervalMs : Z := 5000.

Record poll := mkPoll {
  statusChecks : nat;        (* [let statusChecks = 0] *)
  intervalActive : bool;     (* [pollInterval] not yet cleared *)
  mpesaStatus : status;
  isProcessing : bool;
  pending : nat;             (* status checks issued and not yet settled *)
  clock : Z;                 (* time of the latest tick, ms *)
  checkLog : list Z;         (* time of every [checkMpesaPaymentStatus] call *)
  toasts : list toast;
  stationResets : nat;       (* calls of [resetStationStatus("mpesa")] *)
  paymentCompletions : nat   (* calls of [onPaymentComplete] *)
}.

(** The state in which [setInterval] is called at time [t0]:
    [setMpesaStatus("processing")] and [setIsProcessing(true)] came before. *)
Definition start (t0 : Z) : poll :=
  mkPoll 0 true processing true 0 t0 [] [] 0 0.

Inductive event :=
| Tick
| Settle (result : check).

(** The synchronous head of the interval callback. *)
Definition tick (p : poll) : poll :=
  if intervalActive p then
    let statusChecks' := S (statusChecks p) in
    let clock' := clock p + pollIntervalMs in
    if decide (maxStatusChecks < statusChecks')%nat then
      mkPoll statusChecks' false idle false (pending p) clock' (checkLog p)
             (toasts p ++ [PaymentStatusUnknown]) (stationResets p) (paymentCompletions p)
    else
      mkPoll statusChecks' true (mpesaStatus p) (isProcessing p) (S (pending p)) clock'
             (checkLog p ++ [clock']) (toasts p) (stationResets p) (paymentCompletions p)
  else p.

(** The continuation of the callback after [await checkMpesaPaymentStatus]. *)
Definition settle (p : poll) (r : check) : poll :=
  match pending p with
  | O => p
  | S n =>
      match r with
      | Resolved s =>
          if String.eqb s "completed" then
            mkPoll (statusChecks p) false completed (isProcessing p) n (clock p)
                   (checkLog p) (toasts p ++ [PaymentSuccessful])
                   (S (stationResets p)) (S (paymentCompletions p))
          else if String.eqb s "failed" then
            mkPoll (statusChecks p) false failed false n (clock p)
                   (checkLog p) (toasts p ++ [PaymentFailed])
                   (stationResets p) (paymentCompletions p)
          else
            mkPoll (statusChecks p) (intervalActive p) (mpesaStatus p) (isProcessing p) n
                   (clock p) (checkLog p) (toasts p) (stationResets p) (paymentCompletions p)
      | Rejected =>
          mkPoll (statusChecks p) (intervalActive p) (mpesaStatus p) (isProcessing p) n
                 (clock p) (checkLog p) (toasts p) (stationResets p) (paymentCompletions p)
      end
  end.

Definition step (p : poll) (e : event) : poll :=
  match e with
  | Tick => tick p
  | Settle r => settle p r
  end.

Definition run (p : poll) (l : list event) : poll := fold_left step l p.

(** A check that ends the poll: the provider said [completed] or [failed]. *)
Definition terminal (r : check) : bool :=
  match r with
  | Resolved s => String.eqb s "completed" || String.eqb s "failed"
  | Rejected => false
  end.

Definition ticks (l : list event) : nat :=
  length (List.filter (λ e, match e with Tick => true | Settle _ => false end) l).

(** The time of the [k]-th tick of an interval started at [t0]. *)
Definition tickTime (t0 : Z) (k : nat) : Z := t0 + pollIntervalMs * Z.of_nat k.

(** No event of the trace is a check that the provider answered with
    [completed] or [failed]: every check is still pending or threw. *)
Definition undecided (l : list event) : bool :=
  forallb (λ e, match e with Tick => true | Settle r => negb (terminal r) end) l.

End PaymentModal.

(** What [createSession] makes of today's stats row [r] (or of its absence). *)
Definition startedRow (r : option Stat.t) (r' : Stat.t) : Prop :=
  match r with
  | Some r =>
      Stat.activeStations r' = Some (toNumber (Stat.activeStations r) + 1)
      ∧ Stat.activeUsers r' = Some (toNumber (Stat.activeUsers r) + 1)
      ∧ Stat.totalRevenue r' = Stat.totalRevenue r
      ∧ Stat.totalHours r' = Stat.totalHours r
  | None =>
      Stat.activeStations r' = Some 1
      ∧ Stat.activeUsers r' = Some 1
      ∧ Stat.totalRevenue r' = Some 0
      ∧ Stat.totalHours r' = Some Number.zero
  end.

(** ** Sequences of requests to the sessions router *)

Module Ledger.

Inductive request :=
| Start (b : SessionController.body) (clk : Clock)
| End (id nowMs : Z) (clk : Clock).

Definition handle (db : Db) (r : request) : Outcome :=
  match r with
  | Start b clk => SessionController.postSession db b clk
  | End id nowMs clk => SessionController.postEnd db id nowMs clk
  end.

(** The clock reading that the storage layer takes while it serves [r]. *)
Definition clock (r : request) : Clock :=
  match r with
  | Start _ clk => clk
  | End _ _ clk => clk
  end.

(** The database after the requests were served one after the other, each
    to its answer before the next is received. *)
Definition serve (db : Db) (rs : list request) : Db :=
  fold_left (λ d r, db_after (handle d r)) rs db.

(** The running session [id] occupies station [sid]. *)
Definition occupies (db : Db) (id sid : Z) : Prop :=
  ∃ s, sessions db !! id = Some s
       ∧ Session.status s = SESSION_ACTIVE
       ∧ Session.stationId s = sid.

(** What the two handlers keep true of the stations and sessions tables:
    the [serial] key of a session is below the sequence, a running session
    sits on a station that is ACTIVE, an ACTIVE station has a running
    session, and no station has two. *)
Record consistent (db : Db) : Prop := mkConsistent {
  keysBelowSequence :
    ∀ id s, sessions db !! id = Some s → id < nextSessionId db;
  runningOnActive :
    ∀ id sid, occupies db id sid →
      Station.status <$> stations db !! sid = Some STATION_ACTIVE;
  activeHasRunning :
    ∀ sid st, stations db !! sid = Some st →
      Station.status st = STATION_ACTIVE → ∃ id, occupies db id sid;
  oneRunningPerStation :
    ∀ id1 id2 sid, occupies db id1 sid → occupies db id2 sid → id1 = id2
}.

End Ledger.

(** ** The stats table as a table *)

Module StatsTable.

(** One row per date, one row per key, every key below the sequence. *)
Record wellFormed (db : Db) : Prop := mkWellFormed {
  oneRowPerDate : NoDup (map Stat.date (stats db));
  oneRowPerKey : NoDup (map Stat.id (stats db));
  keysBelowSequence : Forall (λ r, Stat.id r < nextStatId db) (stats db)
}.

End StatsTable.

(** ** storage.ts: [getLoyaltyReport]

    The report is computed from the rows that [getAllCustomers] returned,
    which are the argument here. *)

Module LoyaltyReport.

(** An element of [loyaltySegments]; [max = None] is [Infinity]. *)
Record segment := mkSegment {
  name : string;
  min : Z;
  max : option Z;
  count : Z;
  totalPoints : Z;
  avgPoints : Number.t
}.

Record t := mk {
  totalCustomers : nat;
  customersWithPoints : nat;
  totalPointsIssued : Z;
  loyaltySegments : list segment
}.

(** [customer.loyaltyPoints || customer.points || 0]: a customer row has no
    [points] column, so a null or zero balance gives 0. *)
Definition pointsOf (c : Customer.t) : Z :=
  match Customer.loyaltyPoints c with
  | Some p => if p =? 0 then 0 else p
  | None => 0
  end.

Definition initialSegments : list segment :=
  [mkSegment "Bronze" 1 (Some 100) 0 0 Number.zero;
   mkSegment "Silver" 101 (Some 500) 0 0 Number.zero;
   mkSegment "Gold" 501 (Some 1000) 0 0 Number.zero;
   mkSegment "Platinum" 1001 None 0 0 Number.zero].

(** [points >= segment.min && points <= segment.max] *)
Definition inSegment (points : Z) (s : segment) : bool :=
  (min s <=? points)
  && match max s with
     | Some m => points <=? m
     | None => true
     end.

(** The loop over the segments for one customer: the first segment that
    holds the points is counted up, and the loop breaks. *)
Fixpoint countIn (points : Z) (segments : list segment) : list segment :=
  match segments with
  | [] => []
  | s :: rest =>
      if inSegment points s then
        mkSegment (name s) (min s) (max s) (count s + 1) (totalPoints s + points)
                  (avgPoints s) :: rest
      else s :: countIn points rest
  end.

(** [segment.count > 0 ? segment.totalPoints / segment.count : 0] *)
Definition average (s : segment) : segment :=
  mkSegment (name s) (min s) (max s) (count s) (totalPoints s)
    (if 0 <? count s
     then (Number.ofZ (totalPoints s) / Number.ofZ (count s))%num
     else Number.zero).

Definition getLoyaltyReport (customers : list Customer.t) : t :=
  let totalPoints := fold_left (λ sum customer, sum + pointsOf customer) customers 0 in
  let customersWithPoints := List.filter (λ c, 0 <? pointsOf c) customers in
  let loyaltySegments :=
    fold_left (λ segments customer, countIn (pointsOf customer) segments)
              customersWithPoints initialSegments in
  mk (length customers) (length customersWithPoints) totalPoints
     (map average loyaltySegments).

(** What identifies a tier, the sum of a column, and a segment whose total
    is that of [count] balances between [min] and [max]. *)
Definition tier (s : segment) : string * Z * option Z := (name s, min s, max s).

Definition sumOf (l : list Z) : Z := foldr Z.add 0 l.

Definition within (s : segment) : Prop :=
  0 ≤ count s
  ∧ count s * min s ≤ totalPoints s
  ∧ match max s with
    | Some m => totalPoints s ≤ count s * m
    | None => True
    end.

End LoyaltyReport.

(** ** What the columns hold

    The [serial] and [integer] columns of [schema.ts] are 32-bit: a
    statement that binds or computes an integer outside this range is
    refused by the database, the storage method that ran it throws, and the
    route answers 500 from its [catch].  The [real] column of the payments
    table is a 32-bit float, which gives back the integers up to 2^24 as
    they were stored. *)

Module Column.

Definition int4 (n : Z) : bool := (- 2 ^ 31 <=? n) && (n <? 2 ^ 31).

Definition real (n : Z) : bool := Z.abs n <=? 2 ^ 24.

(** A [text] column takes every string without a NUL character. *)
Definition text (s : string) : bool :=
  negb (existsb (Ascii.eqb Ascii.zero) (String.list_ascii_of_string s)).

(** The integers that [endSession] writes when it closes [session] with
    [totalAmount] at [clk] fit their columns: [total_amount] and [duration]
    of the session row, and [total_revenue] of today's stats row when there
    is one. *)
Definition endFits (db : Db) (session : Session.t) (totalAmount : Z) (clk : Clock) : bool :=
  int4 totalAmount
  && int4 (DatabaseStorage.durationInMinutes session (now clk))
  && match DatabaseStorage.statByDate (today clk) (stats db) with
     | Some r => int4 (toNumber (Stat.totalRevenue r) + totalAmount)
     | None => true
     end.

(** The same for the request to end session [id] whose handler reads the
    clock as [nowMs]: the session and its station are there, and what the
    end writes for them fits. *)
Definition endFitsAt (db : Db) (id nowMs : Z) (clk : Clock) : bool :=
  match sessions db !! id with
  | Some session =>
      match stations db !! Session.stationId session with
      | Some station =>
          endFits db session (SessionController.computeTotalAmount session station nowMs) clk
      | None => false
      end
  | None => false
  end.

End Column.

(** ** customerController.ts: deleting a customer *)

Module CustomerController.




Inductive Event := CUSTOMER_DELETED (id : Z).



End CustomerController.

(** ** debug.log.ts: [DebugLogger] *)

Module DebugLogger.

Section Logs.
Context {ErrorLogEntry : Type}.

Definition MAX_LOGS : nat := 1000.

(** [logError], from the entry it has built: [unshift], then [slice] when
    the array has grown beyond the limit. *)
Definition logError (logs : list ErrorLogEntry) (entry : ErrorLogEntry)
  : list ErrorLogEntry :=
  let logs := entry :: logs in
  if decide (MAX_LOGS < length logs)%nat then take MAX_LOGS logs else logs.

Definition clearLogs (logs : list ErrorLogEntry) : list ErrorLogEntry := [].

End Logs.

End DebugLogger.

(** ** PaymentPage.tsx: [formatPhoneNumber] *)

Module PaymentPage.

(** [phone.substring(1)] *)
Definition substring1 (phone : string) : string :=
  match phone with
  | EmptyString => EmptyString
  | String _ rest => rest
  end.

Definition formatPhoneNumber (phone : string) : string :=
  if String.prefix "0" phone then "254" +:+ substring1 phone
  else if String.prefix "+254" phone then substring1 phone
  else phone.

End PaymentPage.

(** ** storage.ts: [getTransaction]

    The transaction view of a session, in the fields that are read from
    the sessions, stations, customers and payments tables ([gameName] and
    [createdAt] are left out).  The payments table is kept in the order of
    insertion and [createdAt] defaults to the time of insertion, so the row
    with the latest [createdAt] is the last one inserted. *)

Module Transactions.

(** A status of the view: one of the column's values, or ['UNKNOWN']. *)
Inductive known (A : Type) :=
| Known (a : A)
| UNKNOWN.
Arguments Known {A} a.
Arguments UNKNOWN {A}.

Record t := mk {
  id : Z;
  customerName : string;
  stationId : option Z;
  stationName : option string;
  amount : Z;
  status : known SessionStatus;
  paymentStatus : known PaymentStatus;
  paymentMethod : known PaymentMethod;
  duration : option Z
}.

(** [select().from(payments).where(eq(payments.sessionId, sessionId))
    .orderBy(desc(payments.createdAt))], first row. *)
Definition getLatestPaymentForSession (db : Db) (sessionId : Z) : option Payment.t :=
  last (List.filter (λ p, bool_decide (Payment.sessionId p = Some sessionId)) (payments db)).

(** [x || null] on a string. *)
Definition nonEmpty (x : string) : option string :=
  if String.eqb x "" then None else Some x.

Definition getTransaction (db : Db) (transactionId : Z) : t :=
  match DatabaseStorage.getSession db transactionId with
  | Some session =>
      let station :=
        if Session.stationId session =? 0 then None
        else DatabaseStorage.getStation db (Session.stationId session) in
      let customer :=
        if Session.customerId session =? 0 then None
        else DatabaseStorage.getCustomer db (Session.customerId session) in
      let latestPayment := getLatestPaymentForSession db (Session.id session) in
      mk (Session.id session)
         (default "Guest" (customer ≫= λ c, nonEmpty (Customer.fullName c)))
         (station ≫= λ st, if Station.id st =? 0 then None else Some (Station.id st))
         (station ≫= λ st, nonEmpty (Station.name st))
         (toNumber (Session.totalAmount session))
         (Known (Session.status session))
         (Known (default PAYMENT_PENDING (Payment.status <$> latestPayment)))
         (Known (default METHOD_PENDING (Payment.paymentMethod <$> latestPayment)))
         (Session.duration session)
  | None =>
      mk transactionId "Customer" None None 0 UNKNOWN UNKNOWN UNKNOWN (Some 0)
  end.

End Transactions.

(** ** The stations router: the active session of a station *)

Module ActiveSession.

(** [storage.getActiveSessionByStationId]: the first row of
    [select().from(sessions).where(and(eq(stationId), eq(status, 'ACTIVE')))].
    The statement has no [orderBy]; the rows are taken by key. *)
Definition getActiveSessionByStationId (db : Db) (stationId : Z) : option Session.t :=
  head (List.filter
          (λ s, bool_decide (Session.stationId s = stationId)
                && bool_decide (Session.status s = SESSION_ACTIVE))
          (snd <$> map_to_list (sessions db))).

(** [router.get('/:id/active-session')] *)
Definition getActiveSession (db : Db) (id : Z) : Reply :=
  match getActiveSessionByStationId db id with
  | None => mkReply 404 (Message "No active session found")
  | Some session => mkReply 200 (SessionJson session)
  end.

End ActiveSession.

(** ** games.tsx: the platforms of a game *)

Module Games.

(** [togglePlatform], from the selection it was rendered with to the one it
    sets (and writes into the form). *)
Definition togglePlatform (selectedPlatforms : list string) (platform : string)
  : list string :=
  if bool_decide (platform ∈ selectedPlatforms) then
    List.filter (λ p, negb (String.eqb p platform)) selectedPlatforms
  else selectedPlatforms ++ [platform].

End Games.

(** ** The [PaymentModal] component: the amount it asks for

    The dialog computes the amount from the station card it was opened on,
    at the time it is rendered. *)

Module PaymentPreview.

Record station := mkStation {
  sessionType : option string;
  sessionStartTime : option Z;   (* [new Date(sessionStartTime).getTime()] *)
  baseRate : option Z;
  hourlyRate : option Z
}.

(** [x || d] on an optional number: [undefined] and [0] give [d]. *)
Definition orElse (x : option Z) (d : Z) : Z :=
  match x with
  | None | Some 0 => d
  | Some v => v
  end.

(** The minutes played, [Math.ceil((Date.now() - start) / (1000 * 60))]. *)
Definition duration (st : station) (nowMs : Z) : Z :=
  match sessionStartTime st with
  | Some start => Number.ceil (Number.ofZ (nowMs - start) / Number.ofZ (1000 * 60))%num
  | None => 0
  end.

(** [Math.ceil(duration / 60) * (station.hourlyRate || 200)], or the flat
    [station.baseRate || 40] of a per-game session. *)
Definition amount (st : station) (nowMs : Z) : Z :=
  if decide (sessionType st = Some "per_game") then orElse (baseRate st) 40
  else
    Number.ceil (Number.ofZ (duration st nowMs) / Number.ofZ 60)%num
    * orElse (hourlyRate st) 200.

End PaymentPreview.

(** ** NewSessionModal.tsx: the base rate of a new session *)

Module NewSessionModal.

(** [values.sessionType === 'FIXED' ? (selectedStation?.ratePerGame || 40)
    : (selectedStation?.ratePerHour || 200)] *)
Definition baseRate (sessionType : SessionType) (selectedStation : option Station.t) : Z :=
  match sessionType with
  | FIXED => PaymentPreview.orElse (selectedStation ≫= Station.ratePerGame) 40
  | HOURLY => PaymentPreview.orElse (Station.ratePerHour <$> selectedStation) 200
  end.

End NewSessionModal.

(** ** The payment library of the client: [checkMpesaPaymentStatus]

    The poll of [PaymentModal] does not see the answer of the status
    endpoint but what this function makes of it.  The function catches
    every error and never rejects. *)

Module MpesaStatus.

(** What [fetch] of the status endpoint comes to. *)
Inductive response :=
| NetworkError                   (* [fetch] rejects *)
| NotOk (httpStatus : Z)         (* [!response.ok] *)
| NotJson                        (* [response.json()] rejects, or gives [null] *)
| Ok (status : option string).   (* [data.status]: [None] when it is missing or
                                    falsy, otherwise the string it is or is
                                    compared as *)

Record result := mkResult { success : bool; status : string }.

(** [data.status || 'completed'] on success, ['failed'] from the [catch]. *)
Definition checkMpesaPaymentStatus (r : response) : result :=
  match r with
  | Ok None => mkResult true "completed"
  | Ok (Some s) => mkResult true (if String.eqb s "" then "completed" else s)
  | NetworkError | NotOk _ | NotJson => mkResult false "failed"
  end.

(** What happens while the poll runs: the timer ticks, or the status
    endpoint answers the oldest pending check. *)
Inductive happening :=
| TimerTick
| Answered (r : response).

Definition event (h : happening) : PaymentModal.event :=
  match h with
  | TimerTick => PaymentModal.Tick
  | Answered r => PaymentModal.Settle (PaymentModal.Resolved (status (checkMpesaPaymentStatus r)))
  end.

(** The poll started at [t0], after the happenings [hs]. *)
Definition poll (t0 : Z) (hs : list happening) : PaymentModal.poll :=
  PaymentModal.run (PaymentModal.start t0) (map event hs).

(** Every answer of the trace leaves the payment pending: the function
    above reports neither [completed] nor [failed] for it. *)
Definition allPending (hs : list happening) : bool :=
  forallb (λ h, match h with
                | TimerTick => true
                | Answered r =>
                    negb (String.eqb (status (checkMpesaPaymentStatus r)) "completed")
                    && negb (String.eqb (status (checkMpesaPaymentStatus r)) "failed")
                end) hs.

Definition timerTicks (hs : list happening) : nat :=
  length (List.filter (λ h, match h with TimerTick => true | Answered _ => false end) hs).

End MpesaStatus.

(** ** Example data *)

Module Examples.

Definition station1 (st : StationStatus) (perGame : option Z) : Station.t :=
  Station.mk 1 "PS5-1" PS5 st 200 perGame None None.

Definition session1 (ty : SessionType) : Session.t :=
  Session.mk 1 1 7 None ty 0 None None SESSION_ACTIVE None None None None None.

Definition customer7 : Customer.t :=
  Customer.mk 7 "Amina" None None (Some 10).

Definition stat1 (day : Z) : Stat.t :=
  Stat.mk 1 day (Some 1000) (Some (Number.ofZ 3)) (Some 2) (Some 2) 0.

(** One station, one customer, one running session on that station. *)
Definition running (ty : SessionType) (perGame : option Z) : Db :=
  mkDb {[ 1 := station1 STATION_ACTIVE perGame ]}
       {[ 7 := customer7 ]}
       {[ 1 := session1 ty ]}
       [] [stat1 0] 2 1 2.

(** The same lounge before the session was opened. *)
Definition idle (st : StationStatus) : Db :=
  mkDb {[ 1 := station1 st (Some 400) ]} {[ 7 := customer7 ]} ∅ [] [] 1 1 1.

Definition minutes (n : Z) : Z := n * 60000.

End Examples.

(** * Properties *)

(** ** Rounding a double to an integer *)

Section NumberRounding.

(** [Number.floor] is the greatest integer not above the number. *)
Lemma floor_spec s m e :
  let x := S754_finite s m e in
  (inject_Z (Number.floor x) <= Number.toQ x
   ∧ Number.toQ x < inject_Z (Number.floor x + 1))%Q.
Proof.
  intros x. unfold x, Number.floor, Number.toQ.
  rewrite !Qred_correct. destruct (0 <=? e) eqn:He.
  - split; [apply Qle_refl|]. rewrite <- Zlt_Qlt. lia.
  - apply Z.leb_gt in He.
    assert (Hd : 0 < 2 ^ (- e)) by (apply Z.pow_pos_nonneg; lia).
    unfold Qle, Qlt. simpl. rewrite !Z2Pos.id by done. rewrite !Z.mul_1_r.
    split.
    + rewrite Z.mul_comm. by apply Z.mul_div_le.
    + rewrite Z.mul_comm. by apply Z.mul_succ_div_gt.
Qed.

(** [Number.ceil] is the least integer not below the number. *)
Lemma ceil_spec s m e :
  let x := S754_finite s m e in
  (inject_Z (Number.ceil x - 1) < Number.toQ x
   ∧ Number.toQ x <= inject_Z (Number.ceil x))%Q.
Proof.
  intros x. unfold x, Number.ceil, Number.toQ.
  rewrite !Qred_correct. destruct (0 <=? e) eqn:He.
  - split; [|apply Qle_refl]. rewrite <- Zlt_Qlt. lia.
  - apply Z.leb_gt in He.
    assert (Hd : 0 < 2 ^ (- e)) by (apply Z.pow_pos_nonneg; lia).
    unfold Qle, Qlt. simpl. rewrite !Z2Pos.id by done. rewrite !Z.mul_1_r.
    pose proof (Z.mul_div_le (- Number.signed s m) _ Hd).
    pose proof (Z.mul_succ_div_gt (- Number.signed s m) _ Hd).
    split; nia.
Qed.

End NumberRounding.

(** ** Frame lemmas of the storage layer *)

Section StorageFrames.
Import DatabaseStorage.

Lemma statsOnEnd_stations db clk a d :
  stations (statsOnEnd db clk a d) = stations db.
Proof. unfold statsOnEnd. by destruct (statByDate _ _). Qed.

Lemma statsOnEnd_sessions db clk a d :
  sessions (statsOnEnd db clk a d) = sessions db.
Proof. unfold statsOnEnd. by destruct (statByDate _ _). Qed.

Lemma statsOnEnd_customers db clk a d :
  customers (statsOnEnd db clk a d) = customers db.
Proof. unfold statsOnEnd. by destruct (statByDate _ _). Qed.

Lemma endSession_Some db id a clk session :
  sessions db !! id = Some session →
  ∃ db', endSession db id a clk =
           Some (db', closeSessionRow session (now clk)
                        (durationInMinutes session (now clk)) a)
         ∧ sessions db' =
             <[id := closeSessionRow session (now clk)
                        (durationInMinutes session (now clk)) a]> (sessions db)
         ∧ stations db' =
             alter (Station.set (Station.onlyStatus STATION_AVAILABLE))
                   (Session.stationId session) (stations db).
Proof.
  intros Hs. unfold endSession. rewrite Hs. eexists. split; [reflexivity|].
  by rewrite statsOnEnd_sessions, statsOnEnd_stations.
Qed.

End StorageFrames.

(** ** The end-of-session handler on a running session *)

Section PostEnd.
Import DatabaseStorage SessionController.

Variables (db : Db) (id nowMs : Z) (clk : Clock).
Variables (session : Session.t) (station : Station.t).
Hypothesis Hsession : getSession db id = Some session.
Hypothesis Hactive : Session.status session = SESSION_ACTIVE.
Hypothesis Hstation : getStation db (Session.stationId session) = Some station.

Lemma postEnd_running :
  let out := postEnd db id nowMs clk in
  reply out = mkReply 200 (SessionJson (closedRow session station nowMs clk))
  ∧ broadcasts out = [SESSION_ENDED (closedRow session station nowMs clk)]
  ∧ sessions (db_after out)
    = <[id := closedRow session station nowMs clk]> (sessions db)
  ∧ stations (db_after out) =
      alter (Station.set (Station.onlyStatus STATION_AVAILABLE))
            (Session.stationId session) (stations db).
Proof.
  unfold postEnd. rewrite Hsession.
  destruct (decide _) as [_|Hn]; [|done].
  rewrite Hstation.
  destruct (endSession_Some db id (computeTotalAmount session station nowMs) clk session)
    as (db' & -> & Hse & Hst); [exact Hsession|].
  simpl. by rewrite Hse, Hst.
Qed.

Lemma postEnd_stored_session :
  sessions (db_after (postEnd db id nowMs clk)) !! id
  = Some (closedRow session station nowMs clk).
Proof.
  destruct postEnd_running as (_ & _ & -> & _). apply lookup_insert_eq.
Qed.

Lemma postEnd_station_row :
  stations (db_after (postEnd db id nowMs clk)) !! Session.stationId session
  = Some (Station.set (Station.onlyStatus STATION_AVAILABLE) station).
Proof.
  destruct postEnd_running as (_ & _ & _ & ->).
  rewrite lookup_alter_eq. unfold getStation in Hstation. by rewrite Hstation.
Qed.

End PostEnd.

(** ** The hourly charge *)

Section HourlyCharge.
Import SessionController.

(** The charge of an HOURLY session is a function of the elapsed
    milliseconds and the hourly rate. *)
Lemma computeTotalAmount_hourly session station nowMs :
  Session.sessionType session = HOURLY →
  computeTotalAmount session station nowMs
  = Number.ceil (Number.ofZ (nowMs - Session.startTime session) / Number.ofZ 3600000
                 * Number.ofZ (Station.ratePerHour station))%num.
Proof.
  intros Hty. unfold computeTotalAmount. rewrite Hty.
  by destruct (decide _).
Qed.

Lemma hourly_61_minutes_at_200 :
  Number.ceil (Number.ofZ (61 * 60000) / Number.ofZ 3600000 * Number.ofZ 200)%num = 204.
Proof. vm_compute. reflexivity. Qed.

Lemma hourly_60_minutes_at_200 :
  Number.ceil (Number.ofZ (60 * 60000) / Number.ofZ 3600000 * Number.ofZ 200)%num = 200.
Proof. vm_compute. reflexivity. Qed.

(** 130 minutes at 200 per hour are charged 434, not three whole hours. *)
Lemma hourly_130_minutes_at_200 :
  Number.ceil (Number.ofZ (130 * 60000) / Number.ofZ 3600000 * Number.ofZ 200)%num = 434.
Proof. vm_compute. reflexivity. Qed.

(** The product is rounded to a double before [Math.ceil] sees it: 33
    minutes at 100 per hour are exactly 55, the double product is just
    above 55, and the charge is 56. *)
Lemma hourly_33_minutes_at_100 :
  33 * 60000 * 100 = 55 * 3600000
  ∧ Number.ceil (Number.ofZ (33 * 60000) / Number.ofZ 3600000 * Number.ofZ 100)%num = 56.
Proof. vm_compute. split; reflexivity. Qed.

End HourlyCharge.

(** ** Ending a session: the charge *)

Section EndCharge.
Import DatabaseStorage SessionController.

(** What the payment dialog asks for, for an hourly session at 200 per
    hour: whole hours. *)
Lemma preview_whole_hours (ty : option string) (start nowMs : Z) (base : option Z) (k : Z) :
  ty ≠ Some "per_game" →
  nowMs - start = k * 60000 →
  PaymentPreview.amount (PaymentPreview.mkStation ty (Some start) base (Some 200)) nowMs
  = Number.ceil (Number.ofZ (Number.ceil (Number.ofZ (k * 60000) / Number.ofZ 60000)%num)
                 / Number.ofZ 60)%num * 200.
Proof.
  intros Hty He. unfold PaymentPreview.amount, PaymentPreview.duration.
  cbn [PaymentPreview.sessionType PaymentPreview.sessionStartTime PaymentPreview.hourlyRate].
  destruct (decide _) as [?|_]; [done|]. rewrite He. reflexivity.
Qed.

(** C1.  Ending a running HOURLY session stores as [totalAmount] the
    pro-rated charge: [Math.ceil] of the elapsed hours, a fraction, times
    [ratePerHour].  The hours are not rounded up to whole hours before they
    are multiplied: an end that is answered 200 after exactly 61 minutes at
    200 per hour stores 204 and not 400, and after 130 minutes 434 and not
    600, while the payment dialog of the client, which does bill whole
    hours, asks 400 and 600 for the same sessions.  After exactly 60
    minutes both are 200. *)
Theorem C1_hourly_charge_is_prorated_not_whole_hours
    (db : Db) (id nowMs : Z) (clk : Clock) (session : Session.t) (station : Station.t) :
  getSession db id = Some session →
  Session.status session = SESSION_ACTIVE →
  Session.sessionType session = HOURLY →
  getStation db (Session.stationId session) = Some station →
  Column.endFits db session (computeTotalAmount session station nowMs) clk = true →
  code (reply (postEnd db id nowMs clk)) = 200 →
  let elapsed := nowMs - Session.startTime session in
  let rate := Station.ratePerHour station in
  let stored := Session.totalAmount <$> sessions (db_after (postEnd db id nowMs clk)) !! id in
  let asked ty :=
    PaymentPreview.amount
      (PaymentPreview.mkStation ty (Some (Session.startTime session)) None (Some rate))
      nowMs in
  stored = Some (Some (Number.ceil (Number.ofZ elapsed / Number.ofZ 3600000
                                    * Number.ofZ rate)%num))
  ∧ (rate = 200 → elapsed = 61 * 60000 →
       stored = Some (Some 204) ∧ ∀ ty, ty ≠ Some "per_game" → asked ty = 400)
  ∧ (rate = 200 → elapsed = 130 * 60000 →
       stored = Some (Some 434) ∧ ∀ ty, ty ≠ Some "per_game" → asked ty = 600)
  ∧ (rate = 200 → elapsed = 60 * 60000 →
       stored = Some (Some 200) ∧ ∀ ty, ty ≠ Some "per_game" → asked ty = 200).
Proof.
  intros Hs Ha Hty Hst _ _ elapsed rate stored asked.
  assert (Hstored : stored = Some (Some (Number.ceil
            (Number.ofZ elapsed / Number.ofZ 3600000 * Number.ofZ rate)%num))).
  { subst stored.
    rewrite (postEnd_stored_session db id nowMs clk session station Hs Ha Hst).
    simpl. by rewrite (computeTotalAmount_hourly session station nowMs Hty). }
  split; [exact Hstored|]. split; [|split].
  - intros Hrate He. split.
    + rewrite Hstored, Hrate, He. by rewrite hourly_61_minutes_at_200.
    + intros ty Hne. subst asked. cbv beta. rewrite Hrate.
      rewrite (preview_whole_hours ty _ nowMs None 61 Hne He). vm_compute. reflexivity.
  - intros Hrate He. split.
    + rewrite Hstored, Hrate, He. by rewrite hourly_130_minutes_at_200.
    + intros ty Hne. subst asked. cbv beta. rewrite Hrate.
      rewrite (preview_whole_hours ty _ nowMs None 130 Hne He). vm_compute. reflexivity.
  - intros Hrate He. split.
    + rewrite Hstored, Hrate, He. by rewrite hourly_60_minutes_at_200.
    + intros ty Hne. subst asked. cbv beta. rewrite Hrate.
      rewrite (preview_whole_hours ty _ nowMs None 60 Hne He). vm_compute. reflexivity.
Qed.

Lemma C1_hourly_charge_witness :
  let out := postEnd (Examples.running HOURLY None) 1 (Examples.minutes 61)
                     (mkClock (Examples.minutes 61) 0) in
  code (reply out) = 200
  ∧ Session.totalAmount <$> sessions (db_after out) !! 1 = Some (Some 204)
  ∧ PaymentPreview.amount (PaymentPreview.mkStation (Some "hourly") (Some 0) None (Some 200))
                          (Examples.minutes 61) = 400.
Proof.
  destruct (C1_hourly_charge_is_prorated_not_whole_hours
              (Examples.running HOURLY None) 1 (Examples.minutes 61)
              (mkClock (Examples.minutes 61) 0)
              (Examples.session1 HOURLY) (Examples.station1 STATION_ACTIVE None)
              eq_refl eq_refl eq_refl eq_refl eq_refl eq_refl)
    as (_ & H61 & _).
  destruct (H61 eq_refl eq_refl) as [Hstored Hasked].
  split; [reflexivity|]. split; [exact Hstored|].
  exact (Hasked (Some "hourly") ltac:(discriminate)).
Defined.

End EndCharge.

Section StartAndEnd.
Import DatabaseStorage SessionController StationController.

(** C2.  A request to open a session on a station whose status is not
    AVAILABLE is answered 400 "Station is not available" and runs no
    statement: the database after the request is the database before it (no
    session row, the station as it was, every stats row as it was), and
    nothing is broadcast. *)
Theorem C2_unavailable_station_is_refused_without_mutation
    (db : Db) (b : body) (clk : Clock) (sid : Z) (station : Station.t) :
  stationId b = Some sid →
  stations db !! sid = Some station →
  Station.status station ≠ STATION_AVAILABLE →
  let out := postSession db b clk in
  reply out = mkReply 400 (Message "Station is not available")
  ∧ db_after out = db
  ∧ sessions (db_after out) = sessions db
  ∧ stations (db_after out) !! sid = Some station
  ∧ stats (db_after out) = stats db
  ∧ broadcasts out = [].
Proof.
  intros Hb Hst Hne out. subst out. unfold postSession.
  rewrite Hb. simpl. unfold getStation. rewrite Hst.
  destruct (decide _) as [He|_]; [done|]. by simpl.
Qed.

Lemma C2_unavailable_station_witness :
  let b := mkBody (Some 1) (Some 7) None (Some HOURLY) None None None None None None in
  let db := Examples.idle STATION_MAINTENANCE in
  let out := postSession db b (mkClock 5 0) in
  reply out = mkReply 400 (Message "Station is not available")
  ∧ db_after out = db
  ∧ sessions (db_after out) = sessions db
  ∧ stations (db_after out) !! 1 = Some (Examples.station1 STATION_MAINTENANCE (Some 400))
  ∧ stats (db_after out) = stats db
  ∧ broadcasts out = [].
Proof.
  apply (C2_unavailable_station_is_refused_without_mutation
           (Examples.idle STATION_MAINTENANCE)
           (mkBody (Some 1) (Some 7) None (Some HOURLY) None None None None None None)
           (mkClock 5 0) 1 (Examples.station1 STATION_MAINTENANCE (Some 400)));
    [reflexivity | reflexivity | discriminate].
Defined.

(** C8.  Ending a running FIXED session stores as [totalAmount] the
    station's [ratePerGame], whatever the time played.  But on a station
    whose [ratePerGame] is null an end that is answered 200 stores 0, where
    the client applies the default per-game rate of 40 to the same station:
    as the base rate of the session when it is opened, and as the amount
    the payment dialog asks for. *)
Theorem C8_fixed_charge_misses_the_default_rate
    (db : Db) (id nowMs : Z) (clk : Clock) (session : Session.t) (station : Station.t) :
  getSession db id = Some session →
  Session.status session = SESSION_ACTIVE →
  Session.sessionType session = FIXED →
  getStation db (Session.stationId session) = Some station →
  Column.endFits db session (computeTotalAmount session station nowMs) clk = true →
  code (reply (postEnd db id nowMs clk)) = 200 →
  let stored := Session.totalAmount <$> sessions (db_after (postEnd db id nowMs clk)) !! id in
  stored = Some (Some (default 0 (Station.ratePerGame station)))
  ∧ (∀ nowMs', computeTotalAmount session station nowMs'
               = computeTotalAmount session station nowMs)
  ∧ (∀ r, Station.ratePerGame station = Some r → stored = Some (Some r))
  ∧ (Station.ratePerGame station = None →
       stored = Some (Some 0)
       ∧ NewSessionModal.baseRate FIXED (Some station) = 40
       ∧ ∀ start hourly t,
           PaymentPreview.amount
             (PaymentPreview.mkStation (Some "per_game") start
                                       (Station.ratePerGame station) hourly) t = 40).
Proof.
  intros Hs Ha Hty Hst _ _ stored.
  assert (Hamt : ∀ n, computeTotalAmount session station n
                      = default 0 (Station.ratePerGame station)).
  { intros n. unfold computeTotalAmount. rewrite Hty.
    destruct (decide _) as [_|?]; [|done]. by destruct (Station.ratePerGame station). }
  assert (Hstored : stored = Some (Some (default 0 (Station.ratePerGame station)))).
  { unfold stored.
    rewrite (postEnd_stored_session db id nowMs clk session station Hs Ha Hst).
    simpl. by rewrite Hamt. }
  split; [exact Hstored|]. split; [|split].
  - intros n. by rewrite !Hamt.
  - intros r Hr. rewrite Hstored. by rewrite Hr.
  - intros Hnone. split; [|split].
    + rewrite Hstored. by rewrite Hnone.
    + unfold NewSessionModal.baseRate. cbn. by rewrite Hnone.
    + intros start hourly t. unfold PaymentPreview.amount.
      cbn [PaymentPreview.sessionType PaymentPreview.baseRate].
      destruct (decide _) as [_|?]; [|done]. by rewrite Hnone.
Qed.

Lemma C8_fixed_charge_witness :
  let db := Examples.running FIXED None in
  let out := postEnd db 1 (Examples.minutes 30) (mkClock (Examples.minutes 30) 0) in
  code (reply out) = 200
  ∧ Station.ratePerGame <$> stations db !! 1 = Some None
  ∧ Session.totalAmount <$> sessions (db_after out) !! 1 = Some (Some 0)
  ∧ NewSessionModal.baseRate FIXED (stations db !! 1) = 40.
Proof.
  destruct (C8_fixed_charge_misses_the_default_rate
              (Examples.running FIXED None) 1 (Examples.minutes 30)
              (mkClock (Examples.minutes 30) 0)
              (Examples.session1 FIXED) (Examples.station1 STATION_ACTIVE None)
              eq_refl eq_refl eq_refl eq_refl eq_refl eq_refl)
    as (_ & _ & _ & Hnull).
  destruct (Hnull eq_refl) as (Hstored & Hbase & _).
  split; [reflexivity|]. split; [reflexivity|]. split; [exact Hstored | exact Hbase].
Defined.

(** C10.  An end of a running session that is carried out (it is answered
    200, the amount and the duration fitting their columns) leaves the
    session's station with status AVAILABLE whatever its status was, its
    other columns untouched; in particular a station that the maintenance
    route put into MAINTENANCE while the session was running is AVAILABLE
    again after the session is ended. *)
Theorem C10_end_session_makes_station_available
    (db : Db) (id nowMs : Z) (clk : Clock) (session : Session.t) (station : Station.t)
    (b : maintenanceBody) (why : string) :
  getSession db id = Some session →
  Session.status session = SESSION_ACTIVE →
  getStation db (Session.stationId session) = Some station →
  Column.endFits db session (computeTotalAmount session station nowMs) clk = true →
  reason b = Some why →
  let sid := Session.stationId session in
  let out := postEnd db id nowMs clk in
  let db_m := db_after (postMaintenance db sid b) in
  let out_m := postEnd db_m id nowMs clk in
  (code (reply out) = 200 →
     stations (db_after out) !! sid
     = Some (Station.set (Station.onlyStatus STATION_AVAILABLE) station)
     ∧ Station.status <$> stations (db_after out) !! sid = Some STATION_AVAILABLE)
  ∧ (code (reply (postMaintenance db sid b)) = 200 →
     code (reply out_m) = 200 →
     Station.status <$> stations db_m !! sid = Some STATION_MAINTENANCE
     ∧ Station.status <$> stations (db_after out_m) !! sid = Some STATION_AVAILABLE).
Proof.
  intros Hs Ha Hst _ Hb sid out db_m out_m. split.
  - intros _. split.
    + apply (postEnd_station_row db id nowMs clk session station Hs Ha Hst).
    + subst out sid.
      by rewrite (postEnd_station_row db id nowMs clk session station Hs Ha Hst).
  - intros _ _.
    set (p := Station.mkPartial None (Some STATION_MAINTENANCE) None None (Some why) (eta b)).
    assert (Hdbm : stations db_m = alter (Station.set p) sid (stations db)
                   ∧ sessions db_m = sessions db).
    { subst db_m. unfold postMaintenance. rewrite Hb. unfold updateStation. simpl.
      by destruct (stations db !! sid). }
    destruct Hdbm as (Hstm & Hsem).
    assert (Hst' : getStation db_m (Session.stationId session) = Some (Station.set p station)).
    { unfold getStation. rewrite Hstm. subst sid. rewrite lookup_alter_eq.
      unfold getStation in Hst. by rewrite Hst. }
    assert (Hs' : getSession db_m id = Some session).
    { unfold getSession. by rewrite Hsem. }
    split.
    + unfold getStation in Hst'. fold sid in Hst'. by rewrite Hst'.
    + subst out_m sid.
      by rewrite (postEnd_station_row db_m id nowMs clk session _ Hs' Ha Hst').
Qed.

Lemma C10_end_session_witness :
  let db := Examples.running HOURLY None in
  let b := mkMaintenanceBody (Some "fan noise") None in
  let out := postEnd db 1 (Examples.minutes 61) (mkClock (Examples.minutes 61) 0) in
  let db_m := db_after (postMaintenance db 1 b) in
  let out_m := postEnd db_m 1 (Examples.minutes 61) (mkClock (Examples.minutes 61) 0) in
  (code (reply out) = 200
   ∧ Station.status <$> stations (db_after out) !! 1 = Some STATION_AVAILABLE)
  ∧ (Station.status <$> stations db_m !! 1 = Some STATION_MAINTENANCE
     ∧ code (reply out_m) = 200
     ∧ Station.status <$> stations (db_after out_m) !! 1 = Some STATION_AVAILABLE).
Proof.
  destruct (C10_end_session_makes_station_available
              (Examples.running HOURLY None) 1 (Examples.minutes 61)
              (mkClock (Examples.minutes 61) 0)
              (Examples.session1 HOURLY) (Examples.station1 STATION_ACTIVE None)
              (mkMaintenanceBody (Some "fan noise") None) "fan noise"
              eq_refl eq_refl eq_refl eq_refl eq_refl)
    as [Hend Hmaint].
  destruct (Hend eq_refl) as [_ Hav].
  destruct (Hmaint eq_refl eq_refl) as (Hm & Hav').
  split; [split; [reflexivity | exact Hav]|].
  split; [exact Hm|]. split; [reflexivity | exact Hav'].
Defined.

End StartAndEnd.

(** ** The daily counters *)

Section DailyStats.
Import DatabaseStorage.

Lemma statByDate_updateStatById day rows e values :
  statByDate day rows = Some e →
  (∀ r, Stat.date (values r) = Stat.date r) →
  statByDate day (updateStatById (Stat.id e) values rows) = Some (values e).
Proof.
  intros Hfind Hdate. unfold statByDate, updateStatById in *.
  induction rows as [|r rows IH]; simpl in *; [done|].
  destruct (Stat.date r =? day) eqn:Hd.
  - injection Hfind as ->. rewrite Z.eqb_refl. by rewrite Hdate, Hd.
  - destruct (Stat.id r =? Stat.id e); [rewrite Hdate|]; rewrite Hd; by apply IH.
Qed.

Lemma statByDate_snoc day rows row :
  statByDate day rows = None →
  Stat.date row = day →
  statByDate day (rows ++ [row]) = Some row.
Proof.
  intros Hnone Hday. unfold statByDate in *.
  induction rows as [|r rows IH]; simpl in *.
  - by rewrite Hday, Z.eqb_refl.
  - destruct (Stat.date r =? day); [done|]. by apply IH.
Qed.

Lemma createSession_stats db session clk :
  stats (createSession db session clk).1
  = stats (statsOnCreate (withStats id db) clk).
Proof. unfold createSession, statsOnCreate. simpl. by destruct (statByDate _ _). Qed.

Lemma createSession_counters db session clk :
  ∃ r', statByDate (today clk) (stats (createSession db session clk).1) = Some r'
        ∧ startedRow (statByDate (today clk) (stats db)) r'.
Proof.
  rewrite createSession_stats. unfold statsOnCreate. simpl.
  destruct (statByDate (today clk) (stats db)) as [e|] eqn:He; simpl.
  - eexists. split; [by apply statByDate_updateStatById|]. done.
  - eexists. split; [by apply statByDate_snoc|]. done.
Qed.

Lemma endSession_counters db db' id totalAmount clk closed r :
  endSession db id totalAmount clk = Some (db', closed) →
  statByDate (today clk) (stats db) = Some r →
  ∃ r' d,
    statByDate (today clk) (stats db') = Some r'
    ∧ Session.totalAmount closed = Some totalAmount
    ∧ Session.duration closed = Some d
    ∧ Stat.activeStations r' = Some (Z.max 0 (toNumber (Stat.activeStations r) - 1))
    ∧ Stat.activeUsers r' = Some (Z.max 0 (toNumber (Stat.activeUsers r) - 1))
    ∧ Stat.totalRevenue r' = Some (toNumber (Stat.totalRevenue r) + totalAmount)
    ∧ Stat.totalHours r'
      = Some (toNumberN (Stat.totalHours r) + Number.ofZ d / Number.ofZ 60)%num.
Proof.
  intros Hend Hrow. unfold endSession in Hend.
  destruct (sessions db !! id) as [session|]; [|done].
  injection Hend as <- <-.
  unfold statsOnEnd. simpl. rewrite Hrow. simpl.
  eexists. eexists.
  split; [by apply statByDate_updateStatById|]. done.
Qed.

(** C3.  [createSession] leaves today's stats row with [activeStations] and
    [activeUsers] each one more than before (a null counter counting as 0)
    and its revenue and hours as they were, and inserts the row with
    counters 1, 1 and zero revenue and hours when there was none.
    [endSession], when it succeeds and today's row exists (as it does after
    a start on the same day), leaves [activeStations] and [activeUsers] at
    [max 0 (old - 1)], so one less and never below 0, adds the session's
    [totalAmount] to [totalRevenue] and the session's [duration / 60] to
    [totalHours]. *)
Theorem C3_daily_counters_follow_start_and_end :
  (∀ (db : Db) (session : InsertSession.t) (clk : Clock),
     let db' := (createSession db session clk).1 in
     match statByDate (today clk) (stats db) with
     | Some r =>
         ∃ r', statByDate (today clk) (stats db') = Some r'
               ∧ Stat.activeStations r' = Some (toNumber (Stat.activeStations r) + 1)
               ∧ Stat.activeUsers r' = Some (toNumber (Stat.activeUsers r) + 1)
               ∧ Stat.totalRevenue r' = Stat.totalRevenue r
               ∧ Stat.totalHours r' = Stat.totalHours r
     | None =>
         ∃ r', statByDate (today clk) (stats db') = Some r'
               ∧ Stat.activeStations r' = Some 1
               ∧ Stat.activeUsers r' = Some 1
               ∧ Stat.totalRevenue r' = Some 0
               ∧ Stat.totalHours r' = Some Number.zero
     end)
  ∧ (∀ (db db' : Db) (id totalAmount : Z) (clk : Clock) (closed : Session.t) (r : Stat.t),
       endSession db id totalAmount clk = Some (db', closed) →
       statByDate (today clk) (stats db) = Some r →
       ∃ r' d,
         statByDate (today clk) (stats db') = Some r'
         ∧ Session.totalAmount closed = Some totalAmount
         ∧ Session.duration closed = Some d
         ∧ Stat.activeStations r' = Some (Z.max 0 (toNumber (Stat.activeStations r) - 1))
         ∧ Stat.activeUsers r' = Some (Z.max 0 (toNumber (Stat.activeUsers r) - 1))
         ∧ (1 ≤ toNumber (Stat.activeStations r) →
            Stat.activeStations r' = Some (toNumber (Stat.activeStations r) - 1))
         ∧ (1 ≤ toNumber (Stat.activeUsers r) →
            Stat.activeUsers r' = Some (toNumber (Stat.activeUsers r) - 1))
         ∧ 0 ≤ toNumber (Stat.activeStations r')
         ∧ 0 ≤ toNumber (Stat.activeUsers r')
         ∧ Stat.totalRevenue r' = Some (toNumber (Stat.totalRevenue r) + totalAmount)
         ∧ Stat.totalHours r'
           = Some (toNumberN (Stat.totalHours r) + Number.ofZ d / Number.ofZ 60)%num).
Proof.
  split.
  - intros db session clk db'. subst db'.
    destruct (createSession_counters db session clk) as (r' & Hr' & Hrow).
    destruct (statByDate (today clk) (stats db)); exists r'; by split.
  - intros db db' id totalAmount clk closed r Hend Hrow.
    destruct (endSession_counters db db' id totalAmount clk closed r Hend Hrow)
      as (r' & d & Hr' & Ha & Hd & Hs & Hu & Hrev & Hh).
    exists r', d. rewrite Hs, Hu. simpl.
    repeat split; try done; try lia; intros; f_equal; lia.
Qed.

Lemma C3_daily_counters_witness :
  let db := Examples.running HOURLY None in
  let clk := mkClock (Examples.minutes 130) 0 in
  ∃ db' closed r',
    endSession db 1 600 clk = Some (db', closed)
    ∧ statByDate (today clk) (stats db) = Some (Examples.stat1 0)
    ∧ statByDate (today clk) (stats db') = Some r'
    ∧ Session.duration closed = Some 130
    ∧ Stat.activeStations r' = Some 1
    ∧ Stat.activeUsers r' = Some 1
    ∧ Stat.totalRevenue r' = Some 1600
    ∧ Stat.totalHours r' = Some (Number.ofZ 3 + Number.ofZ 130 / Number.ofZ 60)%num.
Proof.
  intros db clk.
  destruct (endSession db 1 600 clk) as [[db' closed]|] eqn:Hend; [|discriminate Hend].
  exists db', closed.
  destruct (proj2 C3_daily_counters_follow_start_and_end
              db db' 1 600 clk closed (Examples.stat1 0) Hend eq_refl)
    as (r' & d & Hr' & _ & Hd & _ & _ & Hs & Hu & _ & _ & Hrev & Hh).
  exists r'.
  assert (Hclosed : Session.duration closed = Some 130).
  { injection Hend as _ <-. reflexivity. }
  assert (d = 130) as -> by congruence.
  repeat split; try assumption.
  - exact (Hs ltac:(simpl; lia)).
  - exact (Hu ltac:(simpl; lia)).
Defined.

(** A start followed by an end on the same day, on counters that were not
    negative: the two active counters are back where they were. *)
Lemma start_then_end_restores_active_counters
    (db db1 db2 : Db) (session : InsertSession.t) (opened closed : Session.t)
    (clk1 clk2 : Clock) (id totalAmount : Z) (r : Stat.t) :
  statByDate (today clk1) (stats db) = Some r →
  0 ≤ toNumber (Stat.activeStations r) →
  0 ≤ toNumber (Stat.activeUsers r) →
  createSession db session clk1 = (db1, opened) →
  endSession db1 id totalAmount clk2 = Some (db2, closed) →
  today clk2 = today clk1 →
  ∃ r2, statByDate (today clk1) (stats db2) = Some r2
        ∧ Stat.activeStations r2 = Some (toNumber (Stat.activeStations r))
        ∧ Stat.activeUsers r2 = Some (toNumber (Stat.activeUsers r))
        ∧ Stat.totalRevenue r2 = Some (toNumber (Stat.totalRevenue r) + totalAmount).
Proof.
  intros Hr Hs Hu Hc He Hday.
  destruct (createSession_counters db session clk1) as (r1 & Hr1 & Hrow).
  rewrite Hr, Hc in *. simpl in Hr1. destruct Hrow as (Hs1 & Hu1 & Hrev1 & _).
  rewrite <- Hday in Hr1.
  destruct (endSession_counters db1 db2 id totalAmount clk2 closed r1 He Hr1)
    as (r2 & d & Hr2 & _ & _ & Hs2 & Hu2 & Hrev2 & _).
  exists r2. rewrite <- Hday. split; [done|].
  rewrite Hs2, Hu2, Hrev2, Hs1, Hu1, Hrev1. simpl.
  repeat split; f_equal; lia.
Qed.

End DailyStats.

(** ** Loyalty points *)

Section LoyaltyPoints.
Import DatabaseStorage CashPaymentController.

(** No run of the cash handler writes the customers table. *)
Lemma processCashPayment_customers db b :
  customers (db_after (outcome (processCashPayment db b))) = customers db.
Proof.
  unfold processCashPayment.
  destruct (transactionId b) as [tid|], (amount b) as [a|]; try done.
  destruct (missingId (Some tid) || missingAmount (Some a)); [done|].
  destruct (getSession db tid); [|done]. simpl.
  by destruct (missingId (userId b)).
Qed.

(** C4, on the code.  A completed cash payment of 250 for customer 7, whose
    stored balance is 10, is answered 200 and [awardLoyaltyPoints] is called
    with floor(250 / 100) = 2 points, but the customer's stored balance is
    still 10 afterwards, not 12: [awardLoyaltyPoints] runs no statement.  So
    is it for every payment: the customers table is never written. *)
Theorem C4_cash_payment_computes_points_but_balance_is_unchanged :
  let db := Examples.running HOURLY None in
  let res := processCashPayment db (mkBody (Some 1) (Some (Number.ofZ 250)) (Some 7)) in
  code (reply (outcome res)) = 200
  ∧ awarded res = Some (7, 2)
  ∧ Customer.loyaltyPoints <$> customers db !! 7 = Some (Some 10)
  ∧ Customer.loyaltyPoints <$> customers (db_after (outcome res)) !! 7 = Some (Some 10)
  ∧ pointsToAward (Number.ofZ 99) = 0
  ∧ pointsToAward (Number.ofZ 250) = 2
  ∧ (∀ db' b, customers (db_after (outcome (processCashPayment db' b))) = customers db').
Proof.
  do 6 (split; [vm_compute; reflexivity|]).
  apply processCashPayment_customers.
Qed.

End LoyaltyPoints.

(** ** The M-Pesa confirmation poll *)

Section MpesaPoll.
Import PaymentModal.

Lemma run_snoc p l e : run p (l ++ [e]) = step (run p l) e.
Proof. unfold run. by rewrite fold_left_app. Qed.

Lemma ticks_snoc l e :
  ticks (l ++ [e]) = (ticks l + match e with Tick => 1 | Settle _ => 0 end)%nat.
Proof.
  unfold ticks. rewrite List.filter_app, length_app. by destruct e.
Qed.

Lemma poll_times t0 l :
  let p := run (start t0) l in
  clock p = tickTime t0 (statusChecks p)
  ∧ checkLog p = map (tickTime t0) (seq 1 (statusChecks p `min` maxStatusChecks)).
Proof.
  induction l as [|e l IH] using rev_ind.
  - unfold tickTime, pollIntervalMs. split; [simpl; lia | done].
  - cbv zeta in *. rewrite run_snoc. destruct IH as [Hc Hl].
    generalize dependent (run (start t0) l). intros p Hc Hl.
    unfold maxStatusChecks in *.
    destruct e as [|r]; unfold step.
    + unfold tick. destruct (intervalActive p); [|done].
      unfold maxStatusChecks.
      destruct (decide _) as [Hgt|Hle]; cbn [clock checkLog statusChecks].
      * split; [unfold tickTime, pollIntervalMs in *; lia|].
        rewrite Hl. f_equal. f_equal. lia.
      * split; [unfold tickTime, pollIntervalMs in *; lia|].
        rewrite Hl.
        replace (statusChecks p `min` 5)%nat with (statusChecks p) by lia.
        replace (S (statusChecks p) `min` 5)%nat with (S (statusChecks p)) by lia.
        rewrite seq_S, map_app. cbn [map]. f_equal. f_equal.
        unfold tickTime, pollIntervalMs in *. lia.
    + unfold settle. destruct (pending p); [done|].
      destruct r as [s|]; [|done].
      destruct (String.eqb s "completed"); [done|].
      by destruct (String.eqb s "failed").
Qed.

Lemma poll_completed_only_on_completed t0 l :
  mpesaStatus (run (start t0) l) = completed →
  In (Settle (Resolved "completed")) l.
Proof.
  induction l as [|e l IH] using rev_ind; [done|].
  rewrite run_snoc, in_app_iff. set (p := run (start t0) l) in *.
  destruct e as [|r]; simpl.
  - unfold tick. destruct (intervalActive p); [|by left; apply IH].
    destruct (decide _); simpl; [done | by left; apply IH].
  - unfold settle. destruct (pending p); [by left; apply IH|].
    destruct r as [s|]; [|by left; apply IH].
    destruct (String.eqb s "completed") eqn:Hs.
    + intros _. right. left. apply String.eqb_eq in Hs. by subst.
    + destruct (String.eqb s "failed"); simpl; [done | by left; apply IH].
Qed.

Lemma poll_undecided t0 l :
  undecided l = true →
  let p := run (start t0) l in
  statusChecks p = (ticks l `min` S maxStatusChecks)%nat
  ∧ intervalActive p = (ticks l <=? maxStatusChecks)%nat
  ∧ mpesaStatus p = (if (ticks l <=? maxStatusChecks)%nat then processing else idle)
  ∧ isProcessing p = (ticks l <=? maxStatusChecks)%nat
  ∧ toasts p = (if (ticks l <=? maxStatusChecks)%nat then [] else [PaymentStatusUnknown])
  ∧ stationResets p = 0%nat.
Proof.
  induction l as [|e l IH] using rev_ind; [done|].
  unfold undecided. rewrite forallb_app. simpl. rewrite andb_true_r.
  intros [Hl He]%andb_true_iff. specialize (IH Hl). simpl in IH.
  rewrite run_snoc, ticks_snoc. set (p := run (start t0) l) in *.
  destruct IH as (Hsc & Hact & Hst & Hpr & Hto & Hre).
  unfold maxStatusChecks in *.
  destruct e as [|r]; simpl.
  - unfold tick. rewrite Hact.
    destruct (ticks l <=? 5)%nat eqn:Hle.
    + apply Nat.leb_le in Hle. unfold maxStatusChecks.
      destruct (decide _) as [Hgt|Hngt]; simpl.
      * assert ((ticks l + 1 <=? 5)%nat = false) as -> by (apply Nat.leb_gt; lia).
        rewrite Hto, Hre. repeat split; try done. lia.
      * assert ((ticks l + 1 <=? 5)%nat = true) as -> by (apply Nat.leb_le; lia).
        rewrite Hto, Hre, Hst, Hpr. repeat split; try done. lia.
    + apply Nat.leb_gt in Hle.
      assert ((ticks l + 1 <=? 5)%nat = false) as -> by (apply Nat.leb_gt; lia).
      rewrite Hst, Hpr, Hto, Hre, Hsc. repeat split; try done. lia.
  - rewrite Nat.add_0_r. unfold settle.
    destruct (pending p); [done|].
    destruct r as [s|]; [|done]. simpl in He.
    apply negb_true_iff, orb_false_iff in He. destruct He as [-> ->]. done.
Qed.

Lemma run_app p l l' : run p (l ++ l') = run (run p l) l'.
Proof. unfold run. by rewrite fold_left_app. Qed.

Lemma poll_stopped p l :
  intervalActive p = false →
  intervalActive (run p l) = false
  ∧ checkLog (run p l) = checkLog p
  ∧ statusChecks (run p l) = statusChecks p
  ∧ clock (run p l) = clock p.
Proof.
  intros Hp. induction l as [|e l IH] using rev_ind; [done|].
  rewrite run_snoc. destruct IH as (Ha & Hl & Hs & Hc).
  generalize dependent (run p l). intros q Ha Hl Hs Hc.
  destruct e as [|r]; cbn [step].
  - unfold tick. by rewrite Ha.
  - unfold settle. destruct (pending q); [done|].
    destruct r as [s|]; [|done].
    destruct (String.eqb s "completed"); [done|].
    by destruct (String.eqb s "failed").
Qed.

Lemma event_undecided hs :
  MpesaStatus.allPending hs = true → undecided (map MpesaStatus.event hs) = true.
Proof.
  unfold MpesaStatus.allPending, undecided. induction hs as [|h hs IH]; [done|].
  cbn [forallb map]. intros [Hh Hhs]%andb_true_iff.
  apply andb_true_iff. split; [|by apply IH].
  destruct h as [|r]; [done|]. cbn [MpesaStatus.event terminal].
  apply andb_true_iff in Hh as [H1 H2].
  apply negb_true_iff in H1, H2. by rewrite H1, H2.
Qed.

Lemma event_ticks hs : ticks (map MpesaStatus.event hs) = MpesaStatus.timerTicks hs.
Proof.
  unfold ticks, MpesaStatus.timerTicks. induction hs as [|h hs IH]; [done|].
  destruct h; cbn [map MpesaStatus.event List.filter length]; by rewrite ?IH.
Qed.

(** The answers of the status endpoint that the client reports as
    [completed]. *)
Lemma reported_completed r :
  MpesaStatus.status (MpesaStatus.checkMpesaPaymentStatus r) = "completed"
  ↔ r = MpesaStatus.Ok None ∨ r = MpesaStatus.Ok (Some "")
    ∨ r = MpesaStatus.Ok (Some "completed").
Proof.
  split.
  - destruct r as [| | |[s|]]; cbn; try done; [|by left].
    destruct (String.eqb s "") eqn:He.
    + apply String.eqb_eq in He. subst. by right; left.
    + intros ->. by right; right.
  - by intros [->|[->| ->]].
Qed.

(** C7 (as amended).  However ticks of the timer and answers of the
    status endpoint interleave, the poll calls [checkMpesaPaymentStatus] at
    most 5 times, the [k]-th call at the [k]-th tick, 5000 ms times [k]
    after the poll was started.  While every check is reported pending, the
    poll goes on through the fifth tick and stops at the sixth without a
    sixth check: the interval is cleared, [isProcessing] is false, the
    status is back to [idle] and the "Payment Status Unknown" toast is
    shown.  A check that is reported [failed], which is also what a failed
    request is reported as, stops the poll at once, in status [failed] and
    with the "Payment Failed" toast: no further check is made whatever
    follows.  And the status is [completed] only if some check was reported
    [completed], which is the case when the endpoint answered OK with the
    status [completed] or with no status. *)
Theorem C7_mpesa_poll_is_bounded_and_stops_on_a_failed_check
    (t0 : Z) (hs : list MpesaStatus.happening) :
  let p := MpesaStatus.poll t0 hs in
  (length (checkLog p) ≤ 5)%nat
  ∧ checkLog p = map (λ k, t0 + 5000 * Z.of_nat k) (seq 1 (length (checkLog p)))
  ∧ (MpesaStatus.allPending hs = true →
       length (checkLog p) = (MpesaStatus.timerTicks hs `min` 5)%nat
       ∧ ((MpesaStatus.timerTicks hs ≤ 5)%nat →
            intervalActive p = true ∧ mpesaStatus p = processing ∧ toasts p = [])
       ∧ ((6 ≤ MpesaStatus.timerTicks hs)%nat →
            intervalActive p = false ∧ mpesaStatus p = idle ∧ isProcessing p = false
            ∧ toasts p = [PaymentStatusUnknown] ∧ length (checkLog p) = 5%nat))
  ∧ (∀ r, (0 < pending p)%nat →
          MpesaStatus.status (MpesaStatus.checkMpesaPaymentStatus r) = "failed" →
          let p' := MpesaStatus.poll t0 (hs ++ [MpesaStatus.Answered r]) in
          intervalActive p' = false ∧ mpesaStatus p' = failed ∧ isProcessing p' = false
          ∧ toasts p' = toasts p ++ [PaymentFailed]
          ∧ ∀ hs', checkLog (MpesaStatus.poll t0 (hs ++ MpesaStatus.Answered r :: hs'))
                   = checkLog p)
  ∧ (mpesaStatus p = completed →
       ∃ r, In (MpesaStatus.Answered r) hs
            ∧ (r = MpesaStatus.Ok None ∨ r = MpesaStatus.Ok (Some "")
               ∨ r = MpesaStatus.Ok (Some "completed"))).
Proof.
  intros p. unfold MpesaStatus.poll in *.
  destruct (poll_times t0 (map MpesaStatus.event hs)) as [_ Hlog]. fold p in Hlog.
  assert (Hlen : length (checkLog p) = (statusChecks p `min` maxStatusChecks)%nat).
  { by rewrite Hlog, length_map, length_seq. }
  unfold maxStatusChecks in *.
  split; [lia|]. split; [by rewrite Hlen|]. split; [|split].
  - intros Hund. apply event_undecided in Hund.
    destruct (poll_undecided t0 _ Hund) as (Hsc & Hact & Hst & Hpr & Hto & Hre).
    fold p in Hsc, Hact, Hst, Hpr, Hto, Hre. rewrite event_ticks in *.
    unfold maxStatusChecks in *.
    split; [lia|]. split.
    + intros Hle. apply Nat.leb_le in Hle. by rewrite Hact, Hst, Hto, Hle.
    + intros Hge.
      assert ((MpesaStatus.timerTicks hs <=? 5)%nat = false) as Hgt
        by (apply Nat.leb_gt; lia).
      rewrite Hact, Hst, Hpr, Hto, Hgt. repeat split. lia.
  - intros r Hpend Hfailed.
    assert (Hstep : run (start t0) (map MpesaStatus.event (hs ++ [MpesaStatus.Answered r]))
                    = settle p (Resolved "failed")).
    { rewrite List.map_app. cbn [map MpesaStatus.event]. rewrite run_snoc.
      cbn [step]. by rewrite Hfailed. }
    assert (Hsettled : intervalActive (settle p (Resolved "failed")) = false
                       ∧ mpesaStatus (settle p (Resolved "failed")) = failed
                       ∧ isProcessing (settle p (Resolved "failed")) = false
                       ∧ toasts (settle p (Resolved "failed")) = toasts p ++ [PaymentFailed]
                       ∧ checkLog (settle p (Resolved "failed")) = checkLog p).
    { unfold settle. destruct (pending p); [lia|]. done. }
    destruct Hsettled as (H1 & H2 & H3 & H4 & H5).
    cbv zeta. rewrite Hstep. split; [done|]. split; [done|]. split; [done|]. split; [done|].
    intros hs'.
    replace (hs ++ MpesaStatus.Answered r :: hs')
      with ((hs ++ [MpesaStatus.Answered r]) ++ hs') by (by rewrite <- app_assoc).
    rewrite List.map_app, run_app, Hstep.
    destruct (poll_stopped _ (map MpesaStatus.event hs') H1) as (_ & -> & _). done.
  - intros Hdone. apply poll_completed_only_on_completed in Hdone.
    apply in_map_iff in Hdone as (h & Hh & Hin).
    destruct h as [|r]; [done|]. cbn [MpesaStatus.event] in Hh.
    exists r. split; [done|]. apply reported_completed. congruence.
Qed.

Lemma C7_mpesa_poll_witness :
  let pending := MpesaStatus.Answered (MpesaStatus.Ok (Some "pending")) in
  let hs := [MpesaStatus.TimerTick; pending; MpesaStatus.TimerTick; MpesaStatus.TimerTick;
             pending; pending; MpesaStatus.TimerTick; pending; MpesaStatus.TimerTick;
             pending; MpesaStatus.TimerTick] in
  let hs' := [MpesaStatus.TimerTick; MpesaStatus.TimerTick; pending] in
  (MpesaStatus.allPending hs = true ∧ (6 ≤ MpesaStatus.timerTicks hs)%nat
   ∧ intervalActive (MpesaStatus.poll 1000 hs) = false
   ∧ mpesaStatus (MpesaStatus.poll 1000 hs) = idle
   ∧ toasts (MpesaStatus.poll 1000 hs) = [PaymentStatusUnknown]
   ∧ length (checkLog (MpesaStatus.poll 1000 hs)) = 5%nat)
  ∧ ((0 < PaymentModal.pending (MpesaStatus.poll 1000 hs'))%nat
     ∧ mpesaStatus (MpesaStatus.poll 1000 (hs' ++ [MpesaStatus.Answered (MpesaStatus.NotOk 500)]))
       = failed).
Proof.
  intros pending hs hs'. split.
  - destruct (C7_mpesa_poll_is_bounded_and_stops_on_a_failed_check 1000 hs)
      as (_ & _ & Hund & _).
    destruct (Hund eq_refl) as (_ & _ & Hstop).
    assert (Hsix : (6 ≤ MpesaStatus.timerTicks hs)%nat) by (vm_compute; lia).
    destruct (Hstop Hsix) as (Hact & Hst & _ & Hto & Hlen).
    repeat split; assumption.
  - destruct (C7_mpesa_poll_is_bounded_and_stops_on_a_failed_check 1000 hs')
      as (_ & _ & _ & Hfail & _).
    assert (Hp : (0 < PaymentModal.pending (MpesaStatus.poll 1000 hs'))%nat)
      by (vm_compute; lia).
    destruct (Hfail (MpesaStatus.NotOk 500) Hp eq_refl) as (_ & Hst & _).
    split; [exact Hp | exact Hst].
Defined.

(** C7 as worded fails twice.  One check that is reported failed stops the
    poll after that one check, in status [failed] and not in the unknown
    state; and an OK answer that carries no status at all makes the
    payment [completed]. *)
Lemma C7_counterexample_failed_check_and_missing_status :
  let p1 := MpesaStatus.poll 0 [MpesaStatus.TimerTick;
                                MpesaStatus.Answered (MpesaStatus.NotOk 500);
                                MpesaStatus.TimerTick; MpesaStatus.TimerTick] in
  let hs2 := [MpesaStatus.TimerTick; MpesaStatus.Answered (MpesaStatus.Ok None)] in
  ¬ (length (checkLog p1) = 5%nat ∧ mpesaStatus p1 = idle)
  ∧ (intervalActive p1 = false ∧ length (checkLog p1) = 1%nat ∧ mpesaStatus p1 = failed)
  ∧ (mpesaStatus (MpesaStatus.poll 0 hs2) = completed
     ∧ ¬ In (MpesaStatus.Answered (MpesaStatus.Ok (Some "completed"))) hs2).
Proof.
  cbv zeta. split; [|split].
  - intros [H _]. vm_compute in H. discriminate.
  - vm_compute. done.
  - split; [vm_compute; reflexivity|]. intros [H|[H|[]]]; discriminate.
Qed.

End MpesaPoll.

(** ** The split editor *)

Section SplitEditor.
Import SplitPaymentModal.

Variable totalAmount : Number.t.

Lemma addSplit_parts st :
  parts (addSplit totalAmount st)
  = if decide (5 ≤ parts st)%nat then parts st else S (parts st).
Proof.
  unfold addSplit, parts. destruct (decide _); [done|].
  simpl. rewrite length_app, length_map. simpl. lia.
Qed.

Lemma removeSplit_parts st index st' :
  removeSplit totalAmount st index = Some st' →
  (parts st' = parts st ∨ (1 < parts st ∧ S (parts st') = parts st))%nat.
Proof.
  unfold removeSplit, parts. destruct (decide _) as [|Hgt]; [by intros [= <-]; left|].
  destruct (splits st !! index) as [s|] eqn:Hs; [|done].
  destruct (paid s); [by intros [= <-]; left|].
  intros [= <-]. right. simpl.
  apply lookup_lt_Some in Hs.
  assert (Hdel : S (length (delete index (splits st))) = length (splits st)).
  { rewrite length_delete by eauto using lookup_lt_is_Some_2. lia. }
  destruct (decide _); [rewrite length_map|]; lia.
Qed.

Lemma updateSplitAmount_parts st index value st' :
  updateSplitAmount totalAmount st index value = Some st' → parts st' = parts st.
Proof.
  unfold updateSplitAmount, parts.
  destruct (splits st !! index) as [s|]; [|done].
  destruct (paid s); [by intros [= <-]|].
  intros [= <-]. simpl.
  destruct (decide _); [rewrite length_imap|]; by rewrite length_insert.
Qed.

Lemma handlePreparePayment_parts st index created :
  parts (handlePreparePayment st index created) = parts st.
Proof.
  unfold handlePreparePayment, parts.
  destruct (splits st !! index); [|done].
  destruct (truthy created); [|done]. simpl. by rewrite length_insert.
Qed.

Lemma handlePaymentSuccess_parts st index st' :
  handlePaymentSuccess st index = Some st' → parts st' = parts st.
Proof.
  unfold handlePaymentSuccess, parts.
  destruct (splits st !! index); [|done].
  destruct (nextUnpaidIndex _ _); intros [= <-]; simpl; by rewrite length_insert.
Qed.

Lemma step_parts st a :
  (1 ≤ parts st ≤ 5)%nat → (1 ≤ parts (step totalAmount st a) ≤ 5)%nat.
Proof.
  intros Hb. destruct a as [|i|i v|i c|i|]; simpl.
  - rewrite addSplit_parts. destruct (decide _); lia.
  - destruct (removeEnabled st i); [|done].
    destruct (removeSplit totalAmount st i) as [st'|] eqn:Hr; [|done]. simpl.
    apply removeSplit_parts in Hr. lia.
  - destruct (amountEditable st i); [|done].
    destruct (updateSplitAmount totalAmount st i v) as [st'|] eqn:Hu; [|done]. simpl.
    apply updateSplitAmount_parts in Hu. lia.
  - destruct (payEnabled totalAmount st i); [|done].
    rewrite handlePreparePayment_parts. lia.
  - destruct (markPaidEnabled st i); [|done].
    destruct (handlePaymentSuccess st i) as [st'|] eqn:Hp; [|done]. simpl.
    apply handlePaymentSuccess_parts in Hp. lia.
  - destruct (paymentSectionShown st); [|done].
    destruct (handlePaymentSuccess st (activeIndex st)) as [st'|] eqn:Hp; [|done]. simpl.
    apply handlePaymentSuccess_parts in Hp. lia.
Qed.

Lemma run_parts st l :
  (1 ≤ parts st ≤ 5)%nat → (1 ≤ parts (run totalAmount st l) ≤ 5)%nat.
Proof.
  revert st. induction l as [|a l IH]; intros st Hb; [done|].
  simpl. apply IH. by apply step_parts.
Qed.

(** C9.  The dialog opens with one part, and after any sequence of user
    actions it has between 1 and 5 parts.  [addSplit] on 5 parts changes
    nothing, [removeSplit] on a single part changes nothing, and from a
    state within the bound each of [addSplit], [removeSplit] and
    [updateSplitAmount] leads to a state within the bound
    ([updateSplitAmount] keeps the number of parts). *)
Theorem C9_between_one_and_five_parts :
  parts (initial totalAmount) = 1%nat
  ∧ (∀ l, (1 ≤ parts (run totalAmount (initial totalAmount) l) ≤ 5)%nat)
  ∧ (∀ st, (5 ≤ parts st)%nat → addSplit totalAmount st = st)
  ∧ (∀ st index, (parts st ≤ 1)%nat → removeSplit totalAmount st index = Some st)
  ∧ (∀ st, (1 ≤ parts st ≤ 5)%nat →
       (1 ≤ parts (addSplit totalAmount st) ≤ 5)%nat
       ∧ (∀ index st', removeSplit totalAmount st index = Some st' →
            (1 ≤ parts st' ≤ 5)%nat)
       ∧ (∀ index value st', updateSplitAmount totalAmount st index value = Some st' →
            parts st' = parts st)).
Proof.
  split; [done|]. split; [intros l; apply run_parts; unfold parts; simpl; lia|].
  split; [|split].
  - intros st H5. unfold addSplit. unfold parts in H5. by destruct (decide _).
  - intros st index H1. unfold removeSplit. unfold parts in H1. by destruct (decide _).
  - intros st Hb. split; [|split].
    + rewrite addSplit_parts. destruct (decide _); lia.
    + intros index st' Hr. apply removeSplit_parts in Hr. lia.
    + intros index value st'. apply updateSplitAmount_parts.
Qed.

End SplitEditor.

Section SplitEditorOnExamples.
Import SplitPaymentModal.

Lemma C9_parts_witness :
  let total := Number.ofZ 900 in
  let five := run total (initial total)
                [ClickAddSplit; ClickAddSplit; ClickAddSplit; ClickAddSplit] in
  parts five = 5%nat
  ∧ addSplit total five = five
  ∧ removeSplit total (initial total) 0 = Some (initial total)
  ∧ (∃ st', removeSplit total five 4 = Some st' ∧ (1 ≤ parts st' ≤ 5)%nat).
Proof.
  intros total five.
  destruct (C9_between_one_and_five_parts total) as (_ & _ & Hadd & Hrem & Hkeep).
  assert (Hfive : parts five = 5%nat) by (vm_compute; reflexivity).
  split; [exact Hfive|].
  split; [apply Hadd; rewrite Hfive; lia|].
  split; [apply Hrem; vm_compute; lia|].
  destruct (removeSplit total five 4) as [st'|] eqn:Hr;
    [|vm_compute in Hr; discriminate Hr].
  exists st'. split; [reflexivity|].
  destruct (Hkeep five ltac:(rewrite Hfive; lia)) as (_ & Hrm & _).
  exact (Hrm 4%nat st' Hr).
Defined.

(** The "Pay" button does nothing while the parts do not add up. *)
Lemma pay_is_disabled_when_unbalanced totalAmount st index created :
  isBalanced totalAmount st = false →
  step totalAmount st (ClickPay index created) = st.
Proof.
  intros Hb. simpl. unfold payEnabled. rewrite Hb.
  destruct (splits st !! index); [|done]. by rewrite andb_false_r.
Qed.

Lemma filter_paid_delete (l : list split) i s :
  l !! i = Some s → paid s = false →
  List.filter paid (delete i l) = List.filter paid l.
Proof.
  revert i. induction l as [|x l IH]; intros [|i] Hs Hp; simpl in *; try done.
  - injection Hs as ->. by rewrite Hp.
  - destruct (paid x); [f_equal|]; by eapply IH.
Qed.

Lemma filter_map_keeps_flag (f : split → split) (keep : split → bool) (l : list split) :
  (∀ s, keep (f s) = keep s) →
  List.filter keep (map f l) = map f (List.filter keep l).
Proof.
  intros Hf. induction l as [|x l IH]; simpl; [done|].
  rewrite Hf. destruct (keep x); simpl; by rewrite IH.
Qed.

Lemma map_fixes_paid (f : split → split) (l : list split) :
  (∀ s, paid s = true → f s = s) →
  map f (List.filter paid l) = List.filter paid l.
Proof.
  intros Hf. induction l as [|x l IH]; simpl; [done|].
  destruct (paid x) eqn:E; simpl; [|done]. by rewrite Hf, IH.
Qed.

(** Removing an unpaid part freezes the paid ones: the paid parts are the
    same before and after, and every unpaid part that remains gets the
    total minus the paid amounts, divided by the number of unpaid parts. *)
Lemma removeSplit_freezes_paid_parts totalAmount st index s st' :
  (1 < parts st)%nat →
  splits st !! index = Some s →
  paid s = false →
  removeSplit totalAmount st index = Some st' →
  let unpaid := List.filter (λ u, negb (paid u)) (splits st') in
  List.filter paid (splits st') = List.filter paid (splits st)
  ∧ S (parts st') = parts st
  ∧ ∀ u, In u unpaid →
      amount u = ((totalAmount - paidTotal (delete index (splits st)))
                  / Number.ofNat (length unpaid))%num.
Proof.
  intros Hlen Hs Hp. unfold removeSplit, parts in *.
  destruct (decide _) as [|_]; [lia|]. rewrite Hs, Hp.
  intros [= <-]. cbn [splits].
  set (newSplits := delete index (splits st)).
  set (k := length (List.filter (λ s0, negb (paid s0)) newSplits)).
  set (f := λ s0 : split,
         if paid s0 then s0
         else mkSplit ((totalAmount - paidTotal newSplits) / Number.ofNat k)%num (paid s0)
                      (transactionId s0)).
  assert (Hflag : ∀ x, paid (f x) = paid x) by (intros x; unfold f; by destruct (paid x) eqn:E).
  assert (Hdel : S (length newSplits) = length (splits st)).
  { unfold newSplits. apply lookup_lt_Some in Hs.
    rewrite length_delete by eauto using lookup_lt_is_Some_2. lia. }
  destruct (decide (0 < k)%nat) as [Hk|Hk].
  - split; [|split].
    + rewrite (filter_map_keeps_flag f paid) by exact Hflag.
      rewrite <- (filter_paid_delete (splits st) index s Hs Hp). fold newSplits.
      apply map_fixes_paid. intros x E. unfold f. by rewrite E.
    + by rewrite length_map.
    + rewrite (filter_map_keeps_flag f (λ u, negb (paid u)))
        by (intros x; by rewrite Hflag).
      rewrite length_map. fold k. intros u [x [<- Hx]]%in_map_iff.
      apply filter_In in Hx as [_ Hx]. unfold f.
      by destruct (paid x).
  - split; [|split].
    + by rewrite <- (filter_paid_delete (splits st) index s Hs Hp).
    + done.
    + fold k. assert (k = 0)%nat as Hk0 by lia.
      unfold k in Hk0. apply length_zero_iff_nil in Hk0. fold newSplits.
      rewrite Hk0. by intros u [].
Qed.

(** C6, on the code.  With 900 split three ways and the first part paid,
    the dialog shows 300 (paid), 300, 300.  Removing the third part keeps
    the paid 300 and gives the one unpaid part the remaining 600; adding a
    fourth part instead sets every part to 225, the paid one included, and
    not the unpaid parts to 200 each beside a paid part of 300. *)
Theorem C6_add_split_rewrites_the_paid_part :
  let total := Number.ofZ 900 in
  let st := run total (initial total)
              [ClickAddSplit; ClickAddSplit; ClickPay 0 (Some 7); ClickMarkPaid 0] in
  shown st = [(300 # 1, true); (300 # 1, false); (300 # 1, false)]%Q
  ∧ shown (step total st (ClickRemove 2)) = [(300 # 1, true); (600 # 1, false)]%Q
  ∧ shown (addSplit total st)
    = [(225 # 1, true); (225 # 1, false); (225 # 1, false); (225 # 1, false)]%Q
  ∧ shown (addSplit total st)
    ≠ [(300 # 1, true); (200 # 1, false); (200 # 1, false); (200 # 1, false)]%Q.
Proof. vm_compute. repeat split. discriminate. Qed.

(** C5, on the code.  A bill of 300 in one part: "Pay" is enabled (the
    parts add up) and creates the part's transaction; the amount of the
    part, still unpaid, is then edited to 500.  Now the parts are off by
    200, the imbalance is reported and "Pay" is disabled on every row, but
    the part's "Mark Paid" button and its payment section are both live, and
    either marks the part paid and completes the payment. *)
Theorem C5_prepared_part_is_paid_while_unbalanced :
  let total := Number.ofZ 300 in
  let st0 := initial total in
  let st1 := step total st0 (ClickPay 0 (Some 7)) in
  let st2 := step total st1 (EditAmount 0 (Number.ofZ 500)) in
  payEnabled total st0 0 = true
  ∧ shown st2 = [(500 # 1, false)]%Q
  ∧ isBalanced total st2 = false
  ∧ Number.toQ (Number.abs (totalSplitAmount st2 - total)%num) = (200 # 1)%Q
  ∧ payEnabled total st2 0 = false
  ∧ markPaidEnabled st2 0 = true
  ∧ paymentSectionShown st2 = true
  ∧ shown (step total st2 (ClickMarkPaid 0)) = [(500 # 1, true)]%Q
  ∧ completed (step total st2 (ClickMarkPaid 0)) = true
  ∧ shown (step total st2 PaymentSucceeded) = [(500 # 1, true)]%Q.
Proof. vm_compute. repeat split. Qed.

End SplitEditorOnExamples.

(** * The sessions router, request by request *)

Section SessionRouter.
Import DatabaseStorage SessionController.

Lemma statsOnCreate_frame db clk :
  stations (statsOnCreate db clk) = stations db
  ∧ sessions (statsOnCreate db clk) = sessions db
  ∧ customers (statsOnCreate db clk) = customers db
  ∧ payments (statsOnCreate db clk) = payments db
  ∧ nextSessionId (statsOnCreate db clk) = nextSessionId db
  ∧ nextPaymentId (statsOnCreate db clk) = nextPaymentId db.
Proof. unfold statsOnCreate. by destruct (statByDate _ _). Qed.

Lemma statsOnEnd_frame db clk a d :
  payments (statsOnEnd db clk a d) = payments db
  ∧ nextSessionId (statsOnEnd db clk a d) = nextSessionId db
  ∧ nextPaymentId (statsOnEnd db clk a d) = nextPaymentId db.
Proof. unfold statsOnEnd. by destruct (statByDate _ _). Qed.

(** Everything [createSession] writes outside the stats table. *)
Lemma createSession_writes db v clk :
  let db' := (createSession db v clk).1 in
  (createSession db v clk).2 = insertSessionRow db v clk
  ∧ sessions db' = <[nextSessionId db := insertSessionRow db v clk]> (sessions db)
  ∧ stations db' =
      alter (Station.set (Station.onlyStatus STATION_ACTIVE))
            (InsertSession.stationId v) (stations db)
  ∧ customers db' = customers db
  ∧ payments db' = payments db
  ∧ nextSessionId db' = nextSessionId db + 1
  ∧ nextPaymentId db' = nextPaymentId db.
Proof.
  unfold createSession. cbn [fst snd].
  destruct (statsOnCreate_frame
    (withStations
       (alter (Station.set (Station.onlyStatus STATION_ACTIVE)) (InsertSession.stationId v))
       (mkDb (stations db) (customers db)
          (<[Session.id (insertSessionRow db v clk) := insertSessionRow db v clk]> (sessions db))
          (payments db) (stats db) (nextSessionId db + 1) (nextPaymentId db) (nextStatId db)))
    clk) as (-> & -> & -> & -> & -> & ->).
  done.
Qed.

(** The three ways [postSession] can go. *)
Lemma postSession_cases db b clk :
  let out := postSession db b clk in
  (stationId b ≫= getStation db = None
   ∧ out = answer db 404 "Station not found")
  ∨ (∃ st, stationId b ≫= getStation db = Some st
           ∧ (Station.status st ≠ STATION_AVAILABLE
              ∧ out = answer db 400 "Station is not available"
              ∨ Station.status st = STATION_AVAILABLE
                ∧ parse b = None
                ∧ out = answer db 400 "Invalid session data"))
  ∨ (∃ st v, stationId b ≫= getStation db = Some st
             ∧ Station.status st = STATION_AVAILABLE
             ∧ parse b = Some v
             ∧ out = mkOutcome (createSession db v clk).1
                       [SESSION_CREATED (insertSessionRow db v clk)]
                       (mkReply 201 (SessionJson (insertSessionRow db v clk)))).
Proof.
  unfold postSession.
  destruct (stationId b ≫= getStation db) as [st|]; [|by left].
  destruct (decide _) as [Hav|Hna].
  - destruct (parse b) as [v|] eqn:Hp.
    + right. right. exists st, v. by repeat split.
    + right. left. exists st. split; [done|]. right. done.
  - right. left. exists st. split; [done|]. by left.
Qed.

(** The ways [postEnd] can go without ending the session. *)
Lemma postEnd_cases db id nowMs clk :
  let out := postEnd db id nowMs clk in
  (getSession db id = None ∧ out = answer db 404 "Session not found")
  ∨ (∃ s, getSession db id = Some s
          ∧ Session.status s ≠ SESSION_ACTIVE
          ∧ out = answer db 400 "Session is not active")
  ∨ (∃ s, getSession db id = Some s
          ∧ Session.status s = SESSION_ACTIVE
          ∧ getStation db (Session.stationId s) = None
          ∧ out = answer db 500 "Station not found")
  ∨ (∃ s st, getSession db id = Some s
             ∧ Session.status s = SESSION_ACTIVE
             ∧ getStation db (Session.stationId s) = Some st
             ∧ code (reply out) = 200).
Proof.
  cbv zeta. destruct (getSession db id) as [s|] eqn:Hs.
  - destruct (decide (Session.status s = SESSION_ACTIVE)) as [Ha|Hna].
    + destruct (getStation db (Session.stationId s)) as [st|] eqn:Hst.
      * right. right. right. exists s, st. repeat split; try done.
        destruct (postEnd_running db id nowMs clk s st Hs Ha Hst) as (-> & _). done.
      * right. right. left. exists s. repeat split; try done.
        unfold postEnd. rewrite Hs. destruct (decide _); [|done]. by rewrite Hst.
    + right. left. exists s. repeat split; try done.
      unfold postEnd. rewrite Hs. by destruct (decide _).
  - left. split; [done|]. unfold postEnd. by rewrite Hs.
Qed.

End SessionRouter.

Section SessionRouterProperties.
Import DatabaseStorage SessionController.

Lemma parse_Some b v :
  parse b = Some v →
  stationId b = Some (InsertSession.stationId v)
  ∧ customerId b = Some (InsertSession.customerId v)
  ∧ sessionType b = Some (InsertSession.sessionType v)
  ∧ startTime b = None
  ∧ InsertSession.startTime v = None.
Proof.
  unfold parse.
  destruct (stationId b), (customerId b), (sessionType b), (startTime b); try done.
  by intros [= <-].
Qed.

Lemma parse_None b :
  customerId b = None ∨ sessionType b = None ∨ is_Some (startTime b) →
  parse b = None.
Proof.
  unfold parse. intros [H|[H|[t H]]]; rewrite H;
    by destruct (stationId b), (customerId b), (sessionType b).
Qed.

(** X1.  A request to open a session that is answered 201.  The body
    names an AVAILABLE station, a customer and a session type, refers to
    rows that exist, as the [references] of the sessions table demand (the
    customer is in the customers table, no game and no creating user is
    named), carries no [startTime], and what else it carries fits its
    column.  Then the answer and the broadcast
    carry the new row: it has the next key of the sequence, is ACTIVE, has
    no end time and no amount, and starts now.  The station becomes ACTIVE
    with its other columns as they were; no other session or station row,
    no customer and no payment is touched. *)
Theorem X1_start_on_available_station
    (db : Db) (b : body) (clk : Clock) (sid cid : Z) (ty : SessionType)
    (station : Station.t) :
  stationId b = Some sid →
  customerId b = Some cid →
  sessionType b = Some ty →
  startTime b = None →
  is_Some (customers db !! cid) →
  gameId b = None →
  createdBy b = None →
  from_option Column.int4 true (duration b) = true →
  from_option Column.text true (paymentReference b) = true →
  stations db !! sid = Some station →
  Station.status station = STATION_AVAILABLE →
  code (reply (postSession db b clk)) = 201 →
  let out := postSession db b clk in
  ∃ s,
    reply out = mkReply 201 (SessionJson s)
    ∧ broadcasts out = [SESSION_CREATED s]
    ∧ Session.id s = nextSessionId db
    ∧ Session.status s = SESSION_ACTIVE
    ∧ Session.stationId s = sid
    ∧ Session.customerId s = cid
    ∧ Session.sessionType s = ty
    ∧ Session.startTime s = now clk
    ∧ Session.endTime s = None
    ∧ Session.totalAmount s = None
    ∧ sessions (db_after out) !! nextSessionId db = Some s
    ∧ (∀ id, id ≠ nextSessionId db → sessions (db_after out) !! id = sessions db !! id)
    ∧ stations (db_after out) !! sid
      = Some (Station.set (Station.onlyStatus STATION_ACTIVE) station)
    ∧ (∀ sid', sid' ≠ sid → stations (db_after out) !! sid' = stations db !! sid')
    ∧ customers (db_after out) = customers db
    ∧ payments (db_after out) = payments db
    ∧ nextSessionId (db_after out) = nextSessionId db + 1.
Proof.
  intros Hsid Hcid Hty Hstart _ _ _ _ _ Hst Hav _ out.
  assert (Hparse : parse b = Some (InsertSession.mk sid cid (gameId b) ty None
            (duration b) (paymentMethod b) (paymentStatus b) (paymentReference b)
            (createdBy b))).
  { unfold parse. by rewrite Hsid, Hcid, Hty, Hstart. }
  set (v := InsertSession.mk sid cid (gameId b) ty None (duration b)
              (paymentMethod b) (paymentStatus b) (paymentReference b) (createdBy b)) in *.
  assert (Hout : out = mkOutcome (createSession db v clk).1
                    [SESSION_CREATED (insertSessionRow db v clk)]
                    (mkReply 201 (SessionJson (insertSessionRow db v clk)))).
  { subst out. unfold postSession. rewrite Hsid. cbn [mbind option_bind].
    unfold getStation. rewrite Hst. destruct (decide _); [|done].
    rewrite Hparse. unfold createSession. done. }
  destruct (createSession_writes db v clk) as (_ & Hse & Hsta & Hcu & Hpa & Hn & _).
  exists (insertSessionRow db v clk). rewrite Hout. cbn [reply broadcasts db_after].
  rewrite Hse, Hsta, Hcu, Hpa, Hn.
  repeat split; try done.
  - apply lookup_insert_eq.
  - intros id Hne. by rewrite lookup_insert_ne.
  - cbn. rewrite lookup_alter_eq. by rewrite Hst.
  - intros sid' Hne. cbn. by rewrite lookup_alter_ne.
Qed.

Lemma X1_start_witness :
  let b := mkBody (Some 1) (Some 7) None (Some HOURLY) None None None None None None in
  let out := postSession (Examples.idle STATION_AVAILABLE) b (mkClock 5 0) in
  ∃ s, reply out = mkReply 201 (SessionJson s)
       ∧ Session.id s = 1
       ∧ Session.status s = SESSION_ACTIVE
       ∧ Session.startTime s = 5
       ∧ sessions (db_after out) !! 1 = Some s
       ∧ Station.status <$> stations (db_after out) !! 1 = Some STATION_ACTIVE.
Proof.
  intros b out.
  destruct (X1_start_on_available_station (Examples.idle STATION_AVAILABLE) b (mkClock 5 0)
              1 7 HOURLY (Examples.station1 STATION_AVAILABLE (Some 400))
              eq_refl eq_refl eq_refl eq_refl (ex_intro _ Examples.customer7 eq_refl)
              eq_refl eq_refl eq_refl eq_refl eq_refl eq_refl eq_refl)
    as (s & Hr & _ & Hid & Hstat & _ & _ & _ & Hstart & _ & _ & Hrow & _ & Hstation & _).
  exists s. split; [exact Hr|]. split; [exact Hid|]. split; [exact Hstat|].
  split; [exact Hstart|]. split; [exact Hrow|].
  change (Station.status <$>
            stations (db_after (postSession (Examples.idle STATION_AVAILABLE) b (mkClock 5 0)))
              !! 1 = Some STATION_ACTIVE).
  rewrite Hstation. reflexivity.
Defined.

(** X2.  A request to open a session that names a station by a 32-bit id
    and is answered 404 or 400 runs no statement and broadcasts nothing.
    It is answered 404 exactly when the stations table has no row with this
    id.  On an AVAILABLE station a body that lacks the customer or the
    session type, or that carries a [startTime], is answered 400 "Invalid
    session data". *)
Theorem X2_refused_start_changes_nothing
    (db : Db) (b : body) (clk : Clock) (sid : Z) :
  stationId b = Some sid →
  Column.int4 sid = true →
  let out := postSession db b clk in
  (code (reply out) = 404 ↔ stations db !! sid = None)
  ∧ (code (reply out) = 404 ∨ code (reply out) = 400 →
       db_after out = db ∧ broadcasts out = [])
  ∧ (∀ st, stations db !! sid = Some st →
           Station.status st = STATION_AVAILABLE →
           customerId b = None ∨ sessionType b = None ∨ is_Some (startTime b) →
           reply out = mkReply 400 (Message "Invalid session data")).
Proof.
  intros Hsid _ out.
  assert (Hget : stationId b ≫= getStation db = stations db !! sid) by (by rewrite Hsid).
  destruct (postSession_cases db b clk)
    as [[Hno Hout]|[(st & Hst & [[Hna Hout]|(Hav & Hp & Hout)])|(st & v & Hst & Hav & Hp & Hout)]];
    fold out in Hout; rewrite Hout; cbn [answer reply code db_after broadcasts];
    rewrite Hget in *.
  - split; [done|]. split; [done|]. intros st Hst. congruence.
  - split; [split; [done|congruence]|]. split; [done|].
    intros st' Hst' Hav'. congruence.
  - split; [split; [done|congruence]|]. split; [done|]. done.
  - split; [split; [done|congruence]|]. split; [by intros [|]|].
    intros st' _ _ Hmiss. apply parse_None in Hmiss. congruence.
Qed.

Lemma X2_refused_start_witness :
  let b := mkBody (Some 1) (Some 7) None (Some HOURLY) (Some 5) None None None None None in
  let db := Examples.idle STATION_AVAILABLE in
  let out := postSession db b (mkClock 5 0) in
  reply out = mkReply 400 (Message "Invalid session data")
  ∧ db_after out = db
  ∧ broadcasts out = [].
Proof.
  intros b db out.
  destruct (X2_refused_start_changes_nothing db b (mkClock 5 0) 1 eq_refl eq_refl)
    as (_ & Hsame & Hbad).
  pose proof (Hbad (Examples.station1 STATION_AVAILABLE (Some 400)) eq_refl eq_refl
                (or_intror (or_intror (ex_intro _ 5 eq_refl)))) as Hr.
  split; [exact Hr|].
  apply Hsame. right. change (code (reply out) = 400). subst out. rewrite Hr. reflexivity.
Defined.

(** X3.  A request to end the session with a 32-bit id that is answered
    404 or 400 runs no statement and broadcasts nothing.  It is answered
    404 exactly when there is no such session, and 400 exactly when the
    session exists and is not ACTIVE (COMPLETED or CANCELLED). *)
Theorem X3_refused_end_changes_nothing (db : Db) (id nowMs : Z) (clk : Clock) :
  Column.int4 id = true →
  let out := postEnd db id nowMs clk in
  (code (reply out) = 404 ↔ getSession db id = None)
  ∧ (code (reply out) = 400 ↔
       ∃ s, getSession db id = Some s ∧ Session.status s ≠ SESSION_ACTIVE)
  ∧ (code (reply out) = 404 ∨ code (reply out) = 400 →
       db_after out = db ∧ broadcasts out = []).
Proof.
  intros _ out.
  destruct (postEnd_cases db id nowMs clk)
    as [[Hno Hout]|[(s & Hs & Hna & Hout)|[(s & Hs & Ha & Hst & Hout)|(s & st & Hs & Ha & Hst & Hout)]]];
    fold out in Hout; rewrite ?Hout; cbn [answer reply code db_after broadcasts].
  - split; [done|]. split; [|done].
    split; [done|]. intros (s & Hs & _). congruence.
  - split; [split; [done|congruence]|]. split; [|done].
    split; [eauto|done].
  - split; [split; [done|congruence]|]. split; [|by intros [|]].
    split; [done|]. intros (s' & Hs' & Hna'). congruence.
  - split; [split; [congruence|congruence]|].
    split; [|intros [|]; congruence].
    split; [congruence|]. intros (s' & Hs' & Hna'). congruence.
Qed.

Lemma X3_refused_end_witness :
  let db := Examples.running HOURLY None in
  let out := postEnd db 5 (Examples.minutes 61) (mkClock (Examples.minutes 61) 0) in
  code (reply out) = 404 ∧ db_after out = db ∧ broadcasts out = [].
Proof.
  intros db out.
  destruct (X3_refused_end_changes_nothing db 5 (Examples.minutes 61)
              (mkClock (Examples.minutes 61) 0) eq_refl)
    as (H404 & _ & Hsame).
  assert (Hcode : code (reply out) = 404) by (apply H404; reflexivity).
  split; [exact Hcode|]. apply Hsame. left. exact Hcode.
Defined.

(** Everything a successful [postEnd] writes outside the stats table. *)
Lemma postEnd_writes db id nowMs clk session station :
  getSession db id = Some session →
  Session.status session = SESSION_ACTIVE →
  getStation db (Session.stationId session) = Some station →
  let out := postEnd db id nowMs clk in
  let total := computeTotalAmount session station nowMs in
  payments (db_after out)
  = payments db ++
      [Payment.mk (nextPaymentId db) (Some id) (Some (Session.customerId session))
                  (Number.ofZ total) METHOD_PENDING PAYMENT_PENDING
                  (orUndefined (Session.createdBy session))]
  ∧ customers (db_after out) = customers db
  ∧ nextSessionId (db_after out) = nextSessionId db
  ∧ nextPaymentId (db_after out) = nextPaymentId db + 1.
Proof.
  intros Hs Ha Hst. cbv zeta. unfold postEnd. rewrite Hs.
  destruct (decide _) as [_|?]; [|done]. rewrite Hst.
  unfold endSession. unfold getSession in Hs. rewrite Hs.
  cbn [createPayment db_after payments customers nextSessionId nextPaymentId].
  rewrite statsOnEnd_customers.
  destruct (statsOnEnd_frame
    (withStations
       (alter (Station.set (Station.onlyStatus STATION_AVAILABLE)) (Session.stationId session))
       (mkDb (stations db) (customers db)
          (<[id := closeSessionRow session (now clk) (durationInMinutes session (now clk))
                     (computeTotalAmount session station nowMs)]> (sessions db))
          (payments db) (stats db) (nextSessionId db) (nextPaymentId db) (nextStatId db)))
    clk (computeTotalAmount session station nowMs) (durationInMinutes session (now clk)))
    as (-> & -> & ->).
  done.
Qed.

(** X4.  Ending a session a second time is refused: after an end that was
    carried out (answered 200, the amount and the duration fitting their
    columns), a further request to end the same session, at any later
    reading of the clock, is answered 400 "Session is not active" and
    leaves the database as the first end left it, so the stored [endTime],
    [duration] and [totalAmount] are not revised and no second payment row
    is created. *)
Theorem X4_second_end_is_refused
    (db : Db) (id nowMs nowMs' : Z) (clk clk' : Clock)
    (session : Session.t) (station : Station.t) :
  getSession db id = Some session →
  Session.status session = SESSION_ACTIVE →
  getStation db (Session.stationId session) = Some station →
  Column.endFits db session (computeTotalAmount session station nowMs) clk = true →
  code (reply (postEnd db id nowMs clk)) = 200 →
  let db1 := db_after (postEnd db id nowMs clk) in
  let out := postEnd db1 id nowMs' clk' in
  reply out = mkReply 400 (Message "Session is not active")
  ∧ db_after out = db1
  ∧ broadcasts out = []
  ∧ sessions (db_after out) !! id = Some (closedRow session station nowMs clk)
  ∧ length (payments (db_after out)) = S (length (payments db)).
Proof.
  intros Hs Ha Hst _ _ db1 out.
  pose proof (postEnd_stored_session db id nowMs clk session station Hs Ha Hst) as Hrow.
  fold db1 in Hrow.
  destruct (postEnd_writes db id nowMs clk session station Hs Ha Hst) as (Hpay & _).
  fold db1 in Hpay.
  assert (Hout : out = answer db1 400 "Session is not active").
  { subst out. unfold postEnd, getSession. rewrite Hrow. by destruct (decide _). }
  rewrite Hout. cbn [answer reply db_after broadcasts].
  repeat split; try done. rewrite Hpay, length_app. simpl. lia.
Qed.

Lemma X4_second_end_witness :
  let db := Examples.running HOURLY None in
  let db1 := db_after (postEnd db 1 (Examples.minutes 61) (mkClock (Examples.minutes 61) 0)) in
  let out := postEnd db1 1 (Examples.minutes 90) (mkClock (Examples.minutes 90) 0) in
  reply out = mkReply 400 (Message "Session is not active")
  ∧ db_after out = db1
  ∧ Session.totalAmount <$> sessions (db_after out) !! 1 = Some (Some 204)
  ∧ length (payments (db_after out)) = 1%nat.
Proof.
  intros db db1 out.
  destruct (X4_second_end_is_refused db 1 (Examples.minutes 61) (Examples.minutes 90)
              (mkClock (Examples.minutes 61) 0) (mkClock (Examples.minutes 90) 0)
              (Examples.session1 HOURLY) (Examples.station1 STATION_ACTIVE None)
              eq_refl eq_refl eq_refl eq_refl eq_refl)
    as (Hr & Hdb & _ & Hrow & Hlen).
  split; [exact Hr|]. split; [exact Hdb|]. split; [|exact Hlen].
  change (Session.totalAmount <$> sessions (db_after out) !! 1 = Some (Some 204)).
  subst out db1 db. rewrite Hrow. vm_compute. reflexivity.
Defined.

(** X5.  An end that is carried out (answered 200, the amount and the
    duration fitting their columns) creates exactly one payment row,
    appended to the payments table: it points to the session and its
    customer, carries the amount stored in the session as [totalAmount],
    has method PENDING and status PENDING, and takes the next key of the
    payments sequence.  No customer row is touched.  The amount is at most
    2^24, which the [real] column of the payments table holds exactly. *)
Theorem X5_end_creates_one_pending_payment
    (db : Db) (id nowMs : Z) (clk : Clock) (session : Session.t) (station : Station.t) :
  getSession db id = Some session →
  Session.status session = SESSION_ACTIVE →
  getStation db (Session.stationId session) = Some station →
  Column.endFits db session (computeTotalAmount session station nowMs) clk = true →
  Column.real (computeTotalAmount session station nowMs) = true →
  code (reply (postEnd db id nowMs clk)) = 200 →
  let out := postEnd db id nowMs clk in
  ∃ p total,
    payments (db_after out) = payments db ++ [p]
    ∧ Session.totalAmount <$> sessions (db_after out) !! id = Some (Some total)
    ∧ Payment.amount p = Number.ofZ total
    ∧ Payment.sessionId p = Some id
    ∧ Payment.customerId p = Some (Session.customerId session)
    ∧ Payment.paymentMethod p = METHOD_PENDING
    ∧ Payment.status p = PAYMENT_PENDING
    ∧ Payment.id p = nextPaymentId db
    ∧ nextPaymentId (db_after out) = nextPaymentId db + 1
    ∧ customers (db_after out) = customers db.
Proof.
  intros Hs Ha Hst _ _ _ out.
  destruct (postEnd_writes db id nowMs clk session station Hs Ha Hst)
    as (Hpay & Hcu & _ & Hnp).
  eexists _, (computeTotalAmount session station nowMs).
  split; [exact Hpay|].
  split; [subst out; by rewrite (postEnd_stored_session db id nowMs clk session station Hs Ha Hst)|].
  by repeat split.
Qed.

Lemma X5_end_payment_witness :
  let db := Examples.running FIXED (Some 400) in
  let out := postEnd db 1 (Examples.minutes 30) (mkClock (Examples.minutes 30) 0) in
  ∃ p, payments (db_after out) = [p]
       ∧ Payment.amount p = Number.ofZ 400
       ∧ Payment.sessionId p = Some 1
       ∧ Payment.customerId p = Some 7
       ∧ Payment.status p = PAYMENT_PENDING.
Proof.
  intros db out.
  destruct (X5_end_creates_one_pending_payment db 1 (Examples.minutes 30)
              (mkClock (Examples.minutes 30) 0)
              (Examples.session1 FIXED) (Examples.station1 STATION_ACTIVE (Some 400))
              eq_refl eq_refl eq_refl eq_refl eq_refl eq_refl)
    as (p & total & Hpay & Htot & Hamt & Hsid & Hcid & _ & Hstat & _).
  exists p. split; [exact Hpay|].
  assert (total = 400) as ->.
  { assert (Some (Some total) = Some (Some 400)) as [= ->]; [|reflexivity].
    rewrite <- Htot. vm_compute. reflexivity. }
  repeat split; assumption.
Defined.

(** X6.  An end that is carried out (answered 200, the amount and the
    duration fitting their columns) writes one session row and the status of
    one station: every other session row and every other station row is
    what it was, and the ended session's station keeps its name, type,
    rates and maintenance notes. *)
Theorem X6_end_touches_one_session_and_one_station
    (db : Db) (id nowMs : Z) (clk : Clock) (session : Session.t) (station : Station.t) :
  getSession db id = Some session →
  Session.status session = SESSION_ACTIVE →
  getStation db (Session.stationId session) = Some station →
  Column.endFits db session (computeTotalAmount session station nowMs) clk = true →
  code (reply (postEnd db id nowMs clk)) = 200 →
  let out := postEnd db id nowMs clk in
  (∀ id', id' ≠ id → sessions (db_after out) !! id' = sessions db !! id')
  ∧ (∀ sid, sid ≠ Session.stationId session →
            stations (db_after out) !! sid = stations db !! sid)
  ∧ (∃ st', stations (db_after out) !! Session.stationId session = Some st'
            ∧ Station.status st' = STATION_AVAILABLE
            ∧ Station.id st' = Station.id station
            ∧ Station.name st' = Station.name station
            ∧ Station.stationType st' = Station.stationType station
            ∧ Station.ratePerHour st' = Station.ratePerHour station
            ∧ Station.ratePerGame st' = Station.ratePerGame station
            ∧ Station.maintenanceReason st' = Station.maintenanceReason station
            ∧ Station.maintenanceEta st' = Station.maintenanceEta station)
  ∧ (∃ s', sessions (db_after out) !! id = Some s'
           ∧ Session.status s' = SESSION_COMPLETED
           ∧ Session.endTime s' = Some (now clk)
           ∧ Session.startTime s' = Session.startTime session
           ∧ Session.stationId s' = Session.stationId session
           ∧ Session.customerId s' = Session.customerId session
           ∧ Session.sessionType s' = Session.sessionType session).
Proof.
  intros Hs Ha Hst _ _ out.
  destruct (postEnd_running db id nowMs clk session station Hs Ha Hst)
    as (_ & _ & Hse & Hsta).
  fold out in Hse, Hsta. rewrite Hse, Hsta. split; [|split; [|split]].
  - intros id' Hne. by rewrite lookup_insert_ne.
  - intros sid Hne. by rewrite lookup_alter_ne.
  - eexists. split; [rewrite lookup_alter_eq; unfold getStation in Hst; by rewrite Hst|].
    by destruct station.
  - eexists. split; [apply lookup_insert_eq|]. done.
Qed.

Lemma X6_end_frame_witness :
  let db := Examples.running HOURLY None in
  let out := postEnd db 1 (Examples.minutes 61) (mkClock (Examples.minutes 61) 0) in
  ∃ st', stations (db_after out) !! 1 = Some st'
         ∧ Station.status st' = STATION_AVAILABLE
         ∧ Station.ratePerHour st' = 200.
Proof.
  intros db out.
  destruct (X6_end_touches_one_session_and_one_station db 1 (Examples.minutes 61)
              (mkClock (Examples.minutes 61) 0)
              (Examples.session1 HOURLY) (Examples.station1 STATION_ACTIVE None)
              eq_refl eq_refl eq_refl eq_refl eq_refl)
    as (_ & _ & (st' & Hst' & Hav & _ & _ & _ & Hrate & _) & _).
  exists st'. split; [exact Hst'|]. split; [exact Hav | exact Hrate].
Defined.

End SessionRouterProperties.

(** ** Sequences of start and end requests *)

Section RequestSequences.
Import DatabaseStorage SessionController.

Lemma parse_stationId b v :
  parse b = Some v → stationId b = Some (InsertSession.stationId v).
Proof. intros Hp. by destruct (parse_Some b v Hp) as (-> & _). Qed.

(** A successful [postSession], as a database. *)
Lemma postSession_started db b clk v st :
  stationId b ≫= getStation db = Some st →
  Station.status st = STATION_AVAILABLE →
  parse b = Some v →
  let db' := db_after (postSession db b clk) in
  stations db !! InsertSession.stationId v = Some st
  ∧ code (reply (postSession db b clk)) = 201
  ∧ sessions db' = <[nextSessionId db := insertSessionRow db v clk]> (sessions db)
  ∧ stations db' =
      alter (Station.set (Station.onlyStatus STATION_ACTIVE))
            (InsertSession.stationId v) (stations db)
  ∧ customers db' = customers db
  ∧ payments db' = payments db
  ∧ nextSessionId db' = nextSessionId db + 1
  ∧ nextPaymentId db' = nextPaymentId db.
Proof.
  intros Hst Hav Hp. cbv zeta.
  split; [by rewrite (parse_stationId b v Hp) in Hst|].
  unfold postSession. rewrite Hst. destruct (decide _); [|done]. rewrite Hp.
  destruct (createSession_writes db v clk) as (_ & Hse & Hsta & Hcu & Hpa & Hn & Hnp).
  destruct (createSession db v clk) as [db' s]. by cbn in *.
Qed.

Lemma alter_status_back (m : gmap Z Station.t) sid st :
  m !! sid = Some st →
  Station.status st = STATION_AVAILABLE →
  alter (Station.set (Station.onlyStatus STATION_AVAILABLE)) sid
    (alter (Station.set (Station.onlyStatus STATION_ACTIVE)) sid m) = m.
Proof.
  intros Hst Hav. apply map_eq. intros i.
  destruct (decide (i = sid)) as [->|Hne].
  - rewrite !lookup_alter_eq, Hst. destruct st. cbn in *. by subst.
  - by rewrite !lookup_alter_ne.
Qed.

(** X7.  Opening a session on an AVAILABLE station and then ending it gives
    the station back.  When the start is answered 201 and the end of the
    new session is answered 200 (the body refers to rows that exist,
    carries no [startTime] and fits the columns, as do the amount and the
    duration),
    the stations table and the customers table are exactly what they were
    before the session was opened.  What remains of the visit is one
    COMPLETED session row, with the key the sequence had, and one payment
    row; every other session row is untouched. *)
Theorem X7_start_then_end_gives_the_station_back
    (db : Db) (b : body) (clk1 clk2 : Clock) (nowMs sid cid : Z) (station : Station.t) :
  stationId b = Some sid →
  customerId b = Some cid →
  is_Some (customers db !! cid) →
  gameId b = None →
  createdBy b = None →
  startTime b = None →
  from_option Column.int4 true (duration b) = true →
  from_option Column.text true (paymentReference b) = true →
  is_Some (sessionType b) →
  stations db !! sid = Some station →
  Station.status station = STATION_AVAILABLE →
  code (reply (postSession db b clk1)) = 201 →
  let db1 := db_after (postSession db b clk1) in
  let out := postEnd db1 (nextSessionId db) nowMs clk2 in
  Column.endFitsAt db1 (nextSessionId db) nowMs clk2 = true →
  code (reply out) = 200 →
  stations (db_after out) = stations db
  ∧ customers (db_after out) = customers db
  ∧ (∃ s, sessions (db_after out) !! nextSessionId db = Some s
          ∧ Session.status s = SESSION_COMPLETED
          ∧ Session.stationId s = sid
          ∧ Session.endTime s = Some (now clk2))
  ∧ (∀ id, id ≠ nextSessionId db → sessions (db_after out) !! id = sessions db !! id)
  ∧ length (payments (db_after out)) = S (length (payments db)).
Proof.
  intros Hsid Hcid _ _ _ Hstart _ _ [ty Hty] Hst Hav _ db1 out _ _.
  assert (Hp : ∃ v, parse b = Some v ∧ InsertSession.stationId v = sid).
  { unfold parse. rewrite Hsid, Hcid, Hty, Hstart. by eexists. }
  destruct Hp as (v & Hp & Hv).
  assert (Hb : stationId b ≫= getStation db = Some station).
  { rewrite Hsid. exact Hst. }
  destruct (postSession_started db b clk1 v station Hb Hav Hp)
    as (_ & _ & Hse & Hsta & Hcu & Hpa & _).
  fold db1 in Hse, Hsta, Hcu, Hpa. rewrite Hv in Hsta.
  assert (Hs1 : getSession db1 (nextSessionId db) = Some (insertSessionRow db v clk1)).
  { unfold getSession. rewrite Hse. apply lookup_insert_eq. }
  assert (Hst1 : getStation db1 (Session.stationId (insertSessionRow db v clk1))
                 = Some (Station.set (Station.onlyStatus STATION_ACTIVE) station)).
  { unfold getStation. cbn [insertSessionRow Session.stationId].
    rewrite Hv, Hsta, lookup_alter_eq, Hst. done. }
  destruct (postEnd_running db1 (nextSessionId db) nowMs clk2 _ _ Hs1 eq_refl Hst1)
    as (Hr & _ & Hse2 & Hsta2).
  destruct (postEnd_writes db1 (nextSessionId db) nowMs clk2 _ _ Hs1 eq_refl Hst1)
    as (Hpa2 & Hcu2 & _).
  fold out in Hr, Hse2, Hsta2, Hpa2, Hcu2.
  split.
  { rewrite Hsta2, Hsta. cbn [insertSessionRow Session.stationId]. rewrite Hv.
    by apply (alter_status_back _ _ station). }
  split; [by rewrite Hcu2, Hcu|].
  split.
  { eexists. split; [rewrite Hse2; apply lookup_insert_eq|].
    cbn. by rewrite Hv. }
  split.
  { intros id Hne. by rewrite Hse2, Hse, !lookup_insert_ne. }
  rewrite Hpa2, Hpa, length_app. simpl. lia.
Qed.

Lemma X7_start_then_end_witness :
  let b := mkBody (Some 1) (Some 7) None (Some HOURLY) None None None None None None in
  let db := Examples.idle STATION_AVAILABLE in
  let db1 := db_after (postSession db b (mkClock 0 0)) in
  let out := postEnd db1 1 (Examples.minutes 61) (mkClock (Examples.minutes 61) 0) in
  code (reply out) = 200
  ∧ stations (db_after out) = stations db
  ∧ length (payments (db_after out)) = 1%nat.
Proof.
  intros b db db1 out.
  destruct (X7_start_then_end_gives_the_station_back db b (mkClock 0 0)
              (mkClock (Examples.minutes 61) 0) (Examples.minutes 61) 1 7
              (Examples.station1 STATION_AVAILABLE (Some 400))
              eq_refl eq_refl (ex_intro _ Examples.customer7 eq_refl) eq_refl eq_refl
              eq_refl eq_refl eq_refl (ex_intro _ HOURLY eq_refl) eq_refl eq_refl eq_refl
              eq_refl eq_refl)
    as (Hsta & _ & _ & _ & Hlen).
  split; [reflexivity|]. split; [exact Hsta|exact Hlen].
Defined.

(** What occupies a station after a successful start: the new session on
    its station, and what occupied the other stations before. *)
Lemma occupies_after_start db b clk v st id sid :
  Ledger.consistent db →
  stationId b ≫= getStation db = Some st →
  Station.status st = STATION_AVAILABLE →
  parse b = Some v →
  Ledger.occupies (db_after (postSession db b clk)) id sid →
  id = nextSessionId db ∧ sid = InsertSession.stationId v
  ∨ id ≠ nextSessionId db ∧ sid ≠ InsertSession.stationId v ∧ Ledger.occupies db id sid.
Proof.
  intros [Hk Hra _ _] Hst Hav Hp (s & Hs & Ha & Hsid).
  destruct (postSession_started db b clk v st Hst Hav Hp) as (Hrow & _ & Hse & _).
  rewrite Hse in Hs.
  destruct (decide (id = nextSessionId db)) as [->|Hne].
  - left. rewrite lookup_insert_eq in Hs. injection Hs as <-. by split.
  - right. rewrite lookup_insert_ne in Hs by done.
    assert (Hocc : Ledger.occupies db id sid) by (by exists s).
    split; [done|]. split; [|done].
    intros ->. specialize (Hra _ _ Hocc). rewrite Hrow in Hra.
    cbn in Hra. congruence.
Qed.

Lemma postSession_consistent db b clk :
  Ledger.consistent db → Ledger.consistent (db_after (postSession db b clk)).
Proof.
  intros Hc.
  destruct (postSession_cases db b clk)
    as [[_ Hout]|[(st & _ & [[_ Hout]|(_ & _ & Hout)])|(st & v & Hst & Hav & Hp & _)]];
    [by rewrite Hout..|].
  pose proof (λ id sid, occupies_after_start db b clk v st id sid Hc Hst Hav Hp) as Hocc.
  destruct (postSession_started db b clk v st Hst Hav Hp)
    as (Hrow & _ & Hse & Hsta & _ & _ & Hn & _).
  destruct Hc as [Hk Hra Har Hone].
  assert (Hnew : Ledger.occupies (db_after (postSession db b clk))
                   (nextSessionId db) (InsertSession.stationId v)).
  { exists (insertSessionRow db v clk). rewrite Hse, lookup_insert_eq. done. }
  split.
  - intros id s. rewrite Hse, Hn. intros Hs.
    destruct (decide (id = nextSessionId db)) as [->|Hne]; [lia|].
    rewrite lookup_insert_ne in Hs by done. apply Hk in Hs. lia.
  - intros id sid H. rewrite Hsta.
    destruct (Hocc id sid H) as [[_ ->]|(_ & Hne & Hold)].
    + rewrite lookup_alter_eq, Hrow. done.
    + rewrite lookup_alter_ne by done. by apply (Hra id).
  - intros sid st'. rewrite Hsta. intros Hst' Hact.
    destruct (decide (sid = InsertSession.stationId v)) as [->|Hne];
      [by exists (nextSessionId db)|].
    rewrite lookup_alter_ne in Hst' by done.
    destruct (Har sid st' Hst' Hact) as (id & s & Hs & Ha & Hsid).
    exists id, s. rewrite Hse, lookup_insert_ne; [done|].
    apply Hk in Hs. lia.
  - intros id1 id2 sid H1 H2.
    destruct (Hocc id1 sid H1) as [[E1 S1]|(_ & Hne1 & Hold1)],
             (Hocc id2 sid H2) as [[E2 S2]|(_ & Hne2 & Hold2)]; try congruence.
    by apply (Hone id1 id2 sid).
Qed.

(** What occupies a station after a successful end: what occupied the other
    stations before. *)
Lemma occupies_after_end db id nowMs clk session station id' sid :
  Ledger.consistent db →
  getSession db id = Some session →
  Session.status session = SESSION_ACTIVE →
  getStation db (Session.stationId session) = Some station →
  Ledger.occupies (db_after (postEnd db id nowMs clk)) id' sid →
  id' ≠ id ∧ sid ≠ Session.stationId session ∧ Ledger.occupies db id' sid.
Proof.
  intros [_ _ _ Hone] Hs Ha Hst (s & Hs' & Ha' & Hsid).
  destruct (postEnd_running db id nowMs clk session station Hs Ha Hst) as (_ & _ & Hse & _).
  rewrite Hse in Hs'.
  destruct (decide (id' = id)) as [->|Hne].
  - rewrite lookup_insert_eq in Hs'. injection Hs' as <-. done.
  - rewrite lookup_insert_ne in Hs' by done.
    assert (Hocc : Ledger.occupies db id' sid) by (by exists s).
    split; [done|]. split; [|done].
    intros ->. apply Hne. apply (Hone id' id (Session.stationId session)); [done|].
    by exists session.
Qed.

Lemma postEnd_consistent db id nowMs clk :
  Ledger.consistent db → Ledger.consistent (db_after (postEnd db id nowMs clk)).
Proof.
  intros Hc.
  destruct (postEnd_cases db id nowMs clk)
    as [[_ Hout]|[(s & _ & _ & Hout)|[(s & _ & _ & _ & Hout)|(s & st & Hs & Ha & Hst & _)]]];
    [by rewrite Hout..|].
  pose proof (λ id' sid, occupies_after_end db id nowMs clk s st id' sid Hc Hs Ha Hst) as Hocc.
  destruct (postEnd_running db id nowMs clk s st Hs Ha Hst) as (_ & _ & Hse & Hsta).
  destruct (postEnd_writes db id nowMs clk s st Hs Ha Hst) as (_ & _ & Hn & _).
  destruct Hc as [Hk Hra Har Hone].
  split.
  - intros id' s'. rewrite Hse, Hn. intros Hs'.
    destruct (decide (id' = id)) as [->|Hne]; [by apply (Hk id s)|].
    rewrite lookup_insert_ne in Hs' by done. by apply (Hk id' s').
  - intros id' sid H. rewrite Hsta.
    destruct (Hocc id' sid H) as (_ & Hne & Hold).
    rewrite lookup_alter_ne by done. by apply (Hra id').
  - intros sid st'. rewrite Hsta. intros Hst' Hact.
    destruct (decide (sid = Session.stationId s)) as [->|Hne].
    { rewrite lookup_alter_eq in Hst'. unfold getStation in Hst. rewrite Hst in Hst'.
      injection Hst' as <-. done. }
    rewrite lookup_alter_ne in Hst' by done.
    destruct (Har sid st' Hst' Hact) as (id' & s' & Hs' & Ha' & Hsid).
    exists id', s'. rewrite Hse, lookup_insert_ne; [done|].
    intros <-. unfold getSession in Hs. congruence.
  - intros id1 id2 sid H1 H2.
    destruct (Hocc id1 sid H1) as (_ & _ & Hold1), (Hocc id2 sid H2) as (_ & _ & Hold2).
    by apply (Hone id1 id2 sid).
Qed.

Lemma serve_snoc db rs r :
  Ledger.serve db (rs ++ [r]) = db_after (Ledger.handle (Ledger.serve db rs) r).
Proof. unfold Ledger.serve. by rewrite fold_left_app. Qed.

Lemma idle_consistent : Ledger.consistent (Examples.idle STATION_AVAILABLE).
Proof.
  split.
  - intros id s Hs. cbn [Examples.idle sessions] in Hs. by rewrite lookup_empty in Hs.
  - intros id sid (s & Hs & _). cbn [Examples.idle sessions] in Hs.
    by rewrite lookup_empty in Hs.
  - intros sid st Hst Hact. cbn [Examples.idle stations] in Hst.
    apply lookup_singleton_Some in Hst as [_ <-]. done.
  - intros id1 id2 sid (s & Hs & _). cbn [Examples.idle sessions] in Hs.
    by rewrite lookup_empty in Hs.
Qed.

(** X8.  No double booking, for requests that are handled one after the
    other, each to completion before the next is received.  In a lounge
    where every running session sits on an ACTIVE station, every ACTIVE
    station has a running session, no station has two and the keys of the
    sessions are below the sequence, the same holds after any such sequence
    of requests to open and to end sessions, whatever their bodies, session
    ids and clock readings, and whether they are accepted or refused.  In
    particular two running sessions are never on the same station.  (Two
    requests to open a session that are handled at the same time are
    outside this statement: both can read the station as AVAILABLE.) *)
Theorem X8_no_double_booking (db : Db) (rs : list Ledger.request) :
  Ledger.consistent db →
  Ledger.consistent (Ledger.serve db rs)
  ∧ ∀ id1 id2 s1 s2,
      sessions (Ledger.serve db rs) !! id1 = Some s1 →
      sessions (Ledger.serve db rs) !! id2 = Some s2 →
      Session.status s1 = SESSION_ACTIVE →
      Session.status s2 = SESSION_ACTIVE →
      Session.stationId s1 = Session.stationId s2 →
      id1 = id2.
Proof.
  intros Hc.
  assert (H : Ledger.consistent (Ledger.serve db rs)).
  { induction rs as [|r rs IH] using rev_ind; [done|].
    rewrite serve_snoc. destruct r; cbn [Ledger.handle].
    - by apply postSession_consistent.
    - by apply postEnd_consistent. }
  split; [done|].
  intros id1 id2 s1 s2 H1 H2 Ha1 Ha2 Hsid.
  apply (Ledger.oneRunningPerStation _ H id1 id2 (Session.stationId s1)).
  - by exists s1.
  - by exists s2.
Qed.

Lemma X8_no_double_booking_witness :
  let b := mkBody (Some 1) (Some 7) None (Some HOURLY) None None None None None None in
  let rs := [Ledger.Start b (mkClock 0 0); Ledger.Start b (mkClock 1 0);
             Ledger.End 1 (Examples.minutes 61) (mkClock (Examples.minutes 61) 0);
             Ledger.Start b (mkClock (Examples.minutes 62) 0)] in
  Ledger.consistent (Examples.idle STATION_AVAILABLE)
  ∧ Ledger.consistent (Ledger.serve (Examples.idle STATION_AVAILABLE) rs).
Proof.
  intros b rs. split; [exact idle_consistent|].
  exact (proj1 (X8_no_double_booking (Examples.idle STATION_AVAILABLE) rs idle_consistent)).
Defined.

End RequestSequences.

(** ** The stats table under the sessions router *)

Section StatsRows.
Import DatabaseStorage SessionController.

Lemma statByDate_Some day rows e :
  statByDate day rows = Some e → In e rows ∧ Stat.date e = day.
Proof.
  unfold statByDate. intros [Hin Hd]%List.find_some. split; [done|]. lia.
Qed.

Lemma statByDate_None day rows r :
  statByDate day rows = None → In r rows → Stat.date r ≠ day.
Proof.
  unfold statByDate. intros Hnone Hin.
  pose proof (List.find_none _ _ Hnone r Hin) as H. cbn in H. lia.
Qed.

Lemma updateStatById_keeps {A} (f : Stat.t → A) id values rows :
  (∀ r, f (values r) = f r) →
  map f (updateStatById id values rows) = map f rows.
Proof.
  intros Hf. unfold updateStatById. rewrite List.map_map. apply List.map_ext.
  intros r. by destruct (Stat.id r =? id).
Qed.

Lemma updateStatById_lookup id values rows i r :
  rows !! i = Some r → Stat.id r ≠ id →
  updateStatById id values rows !! i = Some r.
Proof.
  unfold updateStatById. revert i.
  induction rows as [|x rows IH]; intros [|i] Hr Hne; simpl in *; try done.
  - injection Hr as ->. by destruct (Z.eqb_spec (Stat.id r) id).
  - by apply IH.
Qed.

Lemma updateStatById_keys id values rows n :
  (∀ r, Stat.id (values r) = Stat.id r) →
  Forall (λ r, Stat.id r < n) rows →
  Forall (λ r, Stat.id r < n) (updateStatById id values rows).
Proof.
  intros Hv H. unfold updateStatById. apply List.Forall_map.
  eapply List.Forall_impl; [|exact H]. cbn. intros r Hr.
  destruct (Stat.id r =? id); by rewrite ?Hv.
Qed.

Lemma NoDup_map_inj {A B} (f : A → B) (l : list A) x y :
  NoDup (map f l) → In x l → In y l → f x = f y → x = y.
Proof.
  induction l as [|a l IH]; simpl; [done|].
  intros [Hnin Hnd]%NoDup_cons [->|Hx] [->|Hy] Hf; try done.
  - destruct Hnin. rewrite Hf. apply list_elem_of_In. by apply List.in_map.
  - destruct Hnin. rewrite <- Hf. apply list_elem_of_In. by apply List.in_map.
  - by apply IH.
Qed.

Lemma NoDup_map_snoc {A B} (f : A → B) (l : list A) x :
  NoDup (map f l) → ¬ In (f x) (map f l) → NoDup (map f (l ++ [x])).
Proof.
  induction l as [|a l IH]; simpl.
  - intros _ _. apply NoDup_singleton.
  - intros [Hnin Hnd]%NoDup_cons Hx. apply NoDup_cons. split.
    + rewrite list_elem_of_In, List.map_app, List.in_app_iff. intros [H|[H|[]]].
      * apply Hnin. by apply list_elem_of_In.
      * apply Hx. by left.
    + apply IH; [done|]. intros H. apply Hx. by right.
Qed.

Lemma statsOnCreate_wellFormed db clk :
  StatsTable.wellFormed db → StatsTable.wellFormed (statsOnCreate db clk).
Proof.
  intros [Hd Hi Hk]. unfold statsOnCreate.
  destruct (statByDate (today clk) (stats db)) as [e|] eqn:He.
  - split; cbn [withStats stats nextStatId].
    + by rewrite updateStatById_keeps.
    + by rewrite updateStatById_keeps.
    + by apply updateStatById_keys.
  - split; cbn [stats nextStatId].
    + apply NoDup_map_snoc; [done|]. cbn [Stat.date].
      intros (r & Hr & Hin)%List.in_map_iff.
      by apply (statByDate_None _ _ r He).
    + apply NoDup_map_snoc; [done|]. cbn [Stat.id].
      intros (r & Hr & Hin)%List.in_map_iff.
      rewrite List.Forall_forall in Hk. specialize (Hk r Hin). cbn in Hk. lia.
    + apply List.Forall_app. split.
      * eapply List.Forall_impl; [|exact Hk]. cbn. intros. lia.
      * apply List.Forall_cons; [cbn; lia|apply List.Forall_nil].
Qed.

Lemma statsOnEnd_wellFormed db clk a d :
  StatsTable.wellFormed db → StatsTable.wellFormed (statsOnEnd db clk a d).
Proof.
  intros [Hd Hi Hk]. unfold statsOnEnd.
  destruct (statByDate (today clk) (stats db)) as [e|] eqn:He; [|done].
  split; cbn [withStats stats nextStatId].
  - by rewrite updateStatById_keeps.
  - by rewrite updateStatById_keeps.
  - by apply updateStatById_keys.
Qed.

Lemma wellFormed_ext db db' :
  stats db' = stats db → nextStatId db' = nextStatId db →
  StatsTable.wellFormed db → StatsTable.wellFormed db'.
Proof. intros Hs Hn [Hd Hi Hk]. split; by rewrite ?Hs, ?Hn. Qed.

(** The stats table after a successful start and after a successful end. *)
Lemma postSession_stats db b clk v st :
  stationId b ≫= getStation db = Some st →
  Station.status st = STATION_AVAILABLE →
  parse b = Some v →
  stats (db_after (postSession db b clk)) = stats (statsOnCreate db clk)
  ∧ nextStatId (db_after (postSession db b clk)) = nextStatId (statsOnCreate db clk).
Proof.
  intros Hst Hav Hp. unfold postSession. rewrite Hst.
  destruct (decide _); [|done]. rewrite Hp.
  unfold createSession, statsOnCreate. cbn [stats withStations].
  destruct (statByDate (today clk) (stats db)); split; reflexivity.
Qed.

Lemma postEnd_stats db id nowMs clk session station :
  getSession db id = Some session →
  Session.status session = SESSION_ACTIVE →
  getStation db (Session.stationId session) = Some station →
  let out := postEnd db id nowMs clk in
  let db' := statsOnEnd db clk (computeTotalAmount session station nowMs)
               (durationInMinutes session (now clk)) in
  stats (db_after out) = stats db' ∧ nextStatId (db_after out) = nextStatId db'.
Proof.
  intros Hs Ha Hst. cbv zeta. unfold postEnd. rewrite Hs.
  destruct (decide _); [|done]. rewrite Hst.
  unfold endSession. unfold getSession in Hs. rewrite Hs.
  unfold statsOnEnd. cbn [stats withStations].
  destruct (statByDate (today clk) (stats db)); split; reflexivity.
Qed.

Lemma handle_wellFormed db r :
  StatsTable.wellFormed db → StatsTable.wellFormed (db_after (Ledger.handle db r)).
Proof.
  intros Hw. destruct r as [b clk|id nowMs clk]; cbn [Ledger.handle].
  - destruct (postSession_cases db b clk)
      as [[_ Hout]|[(st & _ & [[_ Hout]|(_ & _ & Hout)])|(st & v & Hst & Hav & Hp & _)]];
      [by rewrite Hout..|].
    destruct (postSession_stats db b clk v st Hst Hav Hp) as [Hs Hn].
    eapply wellFormed_ext; [exact Hs|exact Hn|]. by apply statsOnCreate_wellFormed.
  - destruct (postEnd_cases db id nowMs clk)
      as [[_ Hout]|[(s & _ & _ & Hout)|[(s & _ & _ & _ & Hout)|(s & st & Hs & Ha & Hst & _)]]];
      [by rewrite Hout..|].
    destruct (postEnd_stats db id nowMs clk s st Hs Ha Hst) as [Hs' Hn].
    eapply wellFormed_ext; [exact Hs'|exact Hn|]. by apply statsOnEnd_wellFormed.
Qed.

Lemma running_wellFormed ty perGame : StatsTable.wellFormed (Examples.running ty perGame).
Proof.
  split; cbn.
  - apply NoDup_singleton.
  - apply NoDup_singleton.
  - apply List.Forall_cons; [cbn; lia|apply List.Forall_nil].
Qed.

(** X9.  The stats table stays a table with one row per day.  If it has at
    most one row for each date, no two rows with the same key and every key
    below the sequence, then so it has after any sequence of requests to
    open and to end sessions: a start inserts a row only for a day that has
    none, and neither handler changes the date or the key of a row. *)
Theorem X9_one_stats_row_per_day (db : Db) (rs : list Ledger.request) :
  StatsTable.wellFormed db →
  StatsTable.wellFormed (Ledger.serve db rs)
  ∧ ∀ i j r1 r2,
      stats (Ledger.serve db rs) !! i = Some r1 →
      stats (Ledger.serve db rs) !! j = Some r2 →
      Stat.date r1 = Stat.date r2 →
      i = j.
Proof.
  intros Hw.
  assert (H : StatsTable.wellFormed (Ledger.serve db rs)).
  { induction rs as [|r rs IH] using rev_ind; [done|].
    rewrite serve_snoc. by apply handle_wellFormed. }
  split; [done|].
  intros i j r1 r2 H1 H2 Hd.
  destruct H as [Hdates _ _].
  change (map Stat.date (stats (Ledger.serve db rs)))
    with (Stat.date <$> stats (Ledger.serve db rs)) in Hdates.
  apply (NoDup_lookup _ i j (Stat.date r1) Hdates).
  - by rewrite list_lookup_fmap, H1.
  - by rewrite list_lookup_fmap, H2, Hd.
Qed.

Lemma X9_one_stats_row_per_day_witness :
  let b := mkBody (Some 1) (Some 7) None (Some HOURLY) None None None None None None in
  let rs := [Ledger.End 1 (Examples.minutes 61) (mkClock (Examples.minutes 61) 0);
             Ledger.Start b (mkClock (Examples.minutes 62) 0);
             Ledger.End 2 (Examples.minutes 1500) (mkClock (Examples.minutes 1500) 86400000)] in
  StatsTable.wellFormed (Examples.running HOURLY None)
  ∧ StatsTable.wellFormed (Ledger.serve (Examples.running HOURLY None) rs).
Proof.
  intros b rs. split; [apply running_wellFormed|].
  exact (proj1 (X9_one_stats_row_per_day (Examples.running HOURLY None) rs
                  (running_wellFormed HOURLY None))).
Defined.

(** X10.  A request touches today's row of the stats table and no other:
    every row of another date is, after the request, the row it was, at the
    place it was, and at most one row is added.  An end on a day that has no
    row yet leaves the whole table as it was, so the session's amount and
    hours are in no row of the table. *)
Theorem X10_only_todays_stats_row_is_touched (db : Db) (r : Ledger.request) :
  StatsTable.wellFormed db →
  let db' := db_after (Ledger.handle db r) in
  (∀ i row, stats db !! i = Some row →
            Stat.date row ≠ today (Ledger.clock r) →
            stats db' !! i = Some row)
  ∧ (length (stats db) ≤ length (stats db') ≤ S (length (stats db)))%nat
  ∧ (∀ id nowMs clk, r = Ledger.End id nowMs clk →
       statByDate (today clk) (stats db) = None → stats db' = stats db).
Proof.
  intros [Hd Hi Hk] db'. subst db'.
  assert (Hother : ∀ e i row day,
            statByDate day (stats db) = Some e →
            stats db !! i = Some row → Stat.date row ≠ day →
            Stat.id row ≠ Stat.id e).
  { intros e i row day [Hin He]%statByDate_Some Hrow Hne Hid.
    apply Hne. rewrite <- He. f_equal.
    apply (NoDup_map_inj Stat.id (stats db)); try done.
    apply list_elem_of_In. by eapply list_elem_of_lookup_2. }
  destruct r as [b clk|id nowMs clk]; cbn [Ledger.handle Ledger.clock].
  - destruct (postSession_cases db b clk)
      as [[_ Hout]|[(st & _ & [[_ Hout]|(_ & _ & Hout)])|(st & v & Hst & Hav & Hp & _)]];
      [rewrite Hout; cbn [answer db_after]; split; [done|split; [lia|done]]..|].
    destruct (postSession_stats db b clk v st Hst Hav Hp) as [-> _].
    unfold statsOnCreate.
    destruct (statByDate (today clk) (stats db)) as [e|] eqn:He;
      cbn [withStats stats]; (split; [|split; [|done]]).
    + intros i row Hrow Hne. apply updateStatById_lookup; [done|]. by eapply Hother.
    + unfold updateStatById. rewrite length_map. lia.
    + intros i row Hrow _. by apply lookup_app_l_Some.
    + rewrite length_app. simpl. lia.
  - destruct (postEnd_cases db id nowMs clk)
      as [[_ Hout]|[(s & _ & _ & Hout)|[(s & _ & _ & _ & Hout)|(s & st & Hs & Ha & Hst & _)]]];
      [rewrite Hout; cbn [answer db_after]; split; [done|split; [lia|done]]..|].
    destruct (postEnd_stats db id nowMs clk s st Hs Ha Hst) as [-> _].
    unfold statsOnEnd.
    destruct (statByDate (today clk) (stats db)) as [e|] eqn:He;
      cbn [withStats stats]; (split; [|split]).
    + intros i row Hrow Hne. apply updateStatById_lookup; [done|]. by eapply Hother.
    + unfold updateStatById. rewrite length_map. lia.
    + intros id' nowMs' clk' [= _ _ <-] Hnone. congruence.
    + done.
    + lia.
    + done.
Qed.

Lemma X10_only_todays_row_witness :
  let db := Examples.running HOURLY None in
  let tomorrow := mkClock (Examples.minutes 1500) 86400000 in
  let db' := db_after (Ledger.handle db (Ledger.End 1 (Examples.minutes 1500) tomorrow)) in
  StatsTable.wellFormed db
  ∧ stats db' = stats db
  ∧ Session.totalAmount <$> sessions db' !! 1 = Some (Some 5000).
Proof.
  intros db tomorrow db'.
  split; [apply running_wellFormed|].
  destruct (X10_only_todays_stats_row_is_touched db
              (Ledger.End 1 (Examples.minutes 1500) tomorrow)
              (running_wellFormed HOURLY None)) as (_ & _ & Hnone).
  split; [exact (Hnone 1 (Examples.minutes 1500) tomorrow eq_refl eq_refl)|].
  vm_compute. reflexivity.
Defined.

End StatsRows.

(** ** The maintenance route of the stations router *)

Section Maintenance.
Import DatabaseStorage StationController.







End Maintenance.

(** ** The cash payment route *)

Section CashPayments.
Import DatabaseStorage CashPaymentController.

(** The row that the cash handler inserts. *)
Lemma processCashPayment_cases db b :
  let res := processCashPayment db b in
  (missingId (transactionId b) || missingAmount (amount b) = true
   ∧ res = mkResult (answer db 400 "Transaction ID and amount are required") None)
  ∨ (∃ tid a, transactionId b = Some tid ∧ amount b = Some a
              ∧ tid ≠ 0 ∧ Number.falsy a = false
              ∧ getSession db tid = None
              ∧ res = mkResult (answer db 404 "Session not found") None)
  ∨ (∃ tid a s, transactionId b = Some tid ∧ amount b = Some a
                ∧ tid ≠ 0 ∧ Number.falsy a = false
                ∧ getSession db tid = Some s
                ∧ outcome res
                  = mkOutcome
                      (mkDb (stations db) (customers db) (sessions db)
                         (payments db ++
                            [Payment.mk (nextPaymentId db) (Some tid) None a CASH
                                        PAYMENT_COMPLETED None])
                         (stats db) (nextSessionId db) (nextPaymentId db + 1)
                         (nextStatId db))
                      []
                      (mkReply 200
                         (PaymentJson (Payment.mk (nextPaymentId db) (Some tid) None a CASH
                                                  PAYMENT_COMPLETED None)))
                ∧ awarded res
                  = if missingId (userId b) then None
                    else Some (toNumber (userId b), pointsToAward a)).
Proof.
  cbv zeta. unfold processCashPayment.
  destruct (transactionId b) as [tid|]; [|by left].
  destruct (amount b) as [a|]; [|left; split; [by destruct tid|done]].
  destruct (missingId (Some tid) || missingAmount (Some a)) eqn:Hm; [by left|].
  apply orb_false_elim in Hm as [Hid Ha]. right.
  assert (tid ≠ 0) by (intros ->; done).
  destruct (getSession db tid) as [s|] eqn:Hs.
  - right. exists tid, a, s. do 5 (split; [done|]).
    cbn. by destruct (missingId (userId b)).
  - left. by exists tid, a.
Qed.

(** X13.  The cash payment route.  A request is answered 400 exactly when
    its transaction id is missing or 0 or its amount is missing, 0 or NaN.
    A request with a 32-bit transaction id is answered 404 exactly when
    both are given and no session has that id.  A request answered 400 or
    404 writes nothing and awards no points.  A request answered 200 has
    appended exactly one row to the payments table: method CASH, status
    COMPLETED, the session of the request and no customer, under the next
    key of the sequence.  No route of the handler writes a session,
    station, customer or stats row or broadcasts anything: the session
    keeps the payment status it had. *)
Theorem X13_cash_payment_route (db : Db) (b : body) :
  let res := processCashPayment db b in
  let out := outcome res in
  (code (reply out) = 400 ↔ missingId (transactionId b) || missingAmount (amount b) = true)
  ∧ (∀ tid, transactionId b = Some tid →
            Column.int4 tid = true →
            (code (reply out) = 404 ↔
               missingId (transactionId b) || missingAmount (amount b) = false
               ∧ getSession db tid = None))
  ∧ (code (reply out) = 400 ∨ code (reply out) = 404 →
       db_after out = db ∧ awarded res = None)
  ∧ (code (reply out) = 200 →
       ∃ p tid,
         transactionId b = Some tid
         ∧ reply out = mkReply 200 (PaymentJson p)
         ∧ payments (db_after out) = payments db ++ [p]
         ∧ Payment.id p = nextPaymentId db
         ∧ Payment.sessionId p = Some tid
         ∧ Payment.customerId p = None
         ∧ Payment.paymentMethod p = CASH
         ∧ Payment.status p = PAYMENT_COMPLETED
         ∧ nextPaymentId (db_after out) = nextPaymentId db + 1)
  ∧ sessions (db_after out) = sessions db
  ∧ stations (db_after out) = stations db
  ∧ customers (db_after out) = customers db
  ∧ stats (db_after out) = stats db
  ∧ broadcasts out = [].
Proof.
  intros res out.
  assert (Hgiven : ∀ tid a, transactionId b = Some tid → amount b = Some a →
            tid ≠ 0 → Number.falsy a = false →
            missingId (transactionId b) || missingAmount (amount b) = false).
  { intros tid a -> -> Hne Hf. cbn. rewrite Hf. by destruct tid. }
  destruct (processCashPayment_cases db b)
    as [[Hm Hres]|[(tid & a & Ht & Ha & Hne & Hf & Hs & Hres)
                  |(tid & a & s & Ht & Ha & Hne & Hf & Hs & Hout & Haw)]];
    fold res in Hres || fold res in Hout, Haw; subst out; rewrite ?Hres, ?Hout;
    cbn [outcome answer reply code db_after broadcasts awarded
         sessions stations customers stats payments nextPaymentId].
  - split; [done|]. split; [|split; [done|split; [done|by repeat split]]].
    intros tid _ _. split; [done|]. intros [Hm' _]. congruence.
  - pose proof (Hgiven tid a Ht Ha Hne Hf) as Hm.
    split; [split; [done|congruence]|].
    split; [|split; [done|split; [done|by repeat split]]].
    intros tid' Ht' _. split; [|done]. intros _. split; [done|]. congruence.
  - pose proof (Hgiven tid a Ht Ha Hne Hf) as Hm.
    split; [split; [done|congruence]|].
    split; [|split; [by intros [|]|split; [|by repeat split]]].
    + intros tid' Ht' _. split; [done|]. intros [_ Hs']. congruence.
    + intros _. by eexists _, tid.
Qed.

(** X14.  Paying in cash does not settle the payment row that the end of
    the session created.  When a session was ended (the end answered 200,
    the amount and the duration fitting their columns) and a cash payment
    for it is then accepted (answered 200), the payments table has a second
    row for the session, CASH and COMPLETED, behind the first, which stays
    PENDING; the session row is not written, and the amount paid is not
    compared with the session's [totalAmount]. *)
Theorem X14_cash_payment_leaves_the_pending_row
    (db : Db) (id nowMs : Z) (clk : Clock) (session : Session.t) (station : Station.t)
    (a : Number.t) (uid : option Z) :
  getSession db id = Some session →
  Session.status session = SESSION_ACTIVE →
  getStation db (Session.stationId session) = Some station →
  Column.endFits db session (SessionController.computeTotalAmount session station nowMs) clk
  = true →
  code (reply (SessionController.postEnd db id nowMs clk)) = 200 →
  let db1 := db_after (SessionController.postEnd db id nowMs clk) in
  let out := outcome (processCashPayment db1 (mkBody (Some id) (Some a) uid)) in
  code (reply out) = 200 →
  (∃ p1 p2,
     payments (db_after out) = payments db ++ [p1; p2]
     ∧ Payment.sessionId p1 = Some id
     ∧ Payment.paymentMethod p1 = METHOD_PENDING
     ∧ Payment.status p1 = PAYMENT_PENDING
     ∧ Payment.sessionId p2 = Some id
     ∧ Payment.paymentMethod p2 = CASH
     ∧ Payment.status p2 = PAYMENT_COMPLETED)
  ∧ sessions (db_after out) = sessions db1.
Proof.
  intros Hs Ha Hst _ _ db1 out Hc.
  destruct (postEnd_writes db id nowMs clk session station Hs Ha Hst) as (Hpay & _).
  fold db1 in Hpay.
  destruct (processCashPayment_cases db1 (mkBody (Some id) (Some a) uid))
    as [[_ Hres]|[(tid & a' & _ & _ & _ & _ & _ & Hres)
                 |(tid & a' & s & Ht & Ha' & _ & _ & _ & Hout & _)]].
  - subst out. rewrite Hres in Hc. done.
  - subst out. rewrite Hres in Hc. done.
  - injection Ht as <-. injection Ha' as <-. subst out. rewrite Hout.
    cbn [reply code db_after payments sessions]. split; [|done].
    eexists _, _. rewrite Hpay, <- app_assoc. by repeat split.
Qed.

Lemma X14_cash_payment_witness :
  let db := Examples.running HOURLY None in
  let db1 := db_after (SessionController.postEnd db 1 (Examples.minutes 61)
                         (mkClock (Examples.minutes 61) 0)) in
  let out := outcome (processCashPayment db1
                        (mkBody (Some 1) (Some (Number.ofZ 50)) (Some 7))) in
  code (reply out) = 200
  ∧ map Payment.status (payments (db_after out)) = [PAYMENT_PENDING; PAYMENT_COMPLETED].
Proof.
  intros db db1 out.
  destruct (X14_cash_payment_leaves_the_pending_row db 1 (Examples.minutes 61)
              (mkClock (Examples.minutes 61) 0)
              (Examples.session1 HOURLY) (Examples.station1 STATION_ACTIVE None)
              (Number.ofZ 50) (Some 7) eq_refl eq_refl eq_refl eq_refl eq_refl eq_refl)
    as ((p1 & p2 & Hpay & _ & _ & H1 & _ & _ & H2) & _).
  split; [reflexivity|].
  etransitivity; [exact (f_equal (map Payment.status) Hpay)|].
  rewrite List.map_app. cbn [map]. rewrite H1, H2. reflexivity.
Defined.

End CashPayments.

(** ** The loyalty report *)

Section LoyaltyTiers.
Import LoyaltyReport.

Lemma countIn_tier p segs : map tier (countIn p segs) = map tier segs.
Proof.
  induction segs as [|s segs IH]; simpl; [done|].
  destruct (inSegment p s); simpl; [done|]. by rewrite IH.
Qed.

Lemma countIn_sums p segs :
  existsb (inSegment p) segs = true →
  sumOf (map count (countIn p segs)) = sumOf (map count segs) + 1
  ∧ sumOf (map totalPoints (countIn p segs)) = sumOf (map totalPoints segs) + p.
Proof.
  induction segs as [|s segs IH]; simpl; [done|].
  destruct (inSegment p s); simpl.
  - intros _. unfold sumOf. simpl. lia.
  - intros H. destruct (IH H) as [Hc Ht]. unfold sumOf in *. simpl. lia.
Qed.

Lemma countIn_within p segs : Forall within segs → Forall within (countIn p segs).
Proof.
  induction 1 as [|s segs Hs Hsegs IH]; simpl; [done|].
  destruct (inSegment p s) eqn:Hin; constructor; try done.
  unfold inSegment in Hin. apply andb_prop in Hin as [Hmin Hmax].
  destruct Hs as (Hc & Hlo & Hhi). unfold within. cbn [count min max totalPoints].
  split; [lia|]. split; [nia|].
  destruct (max s) as [m|]; [nia|done].
Qed.

(** The four tiers leave no gap from 1 upwards. *)
Lemma tiers_cover p segs :
  map tier segs = map tier initialSegments →
  0 < p → existsb (inSegment p) segs = true.
Proof.
  intros Ht Hp.
  destruct segs as [|s1 [|s2 [|s3 [|s4 [|]]]]]; try discriminate Ht.
  unfold tier in Ht. cbn in Ht.
  injection Ht as _ Hmin1 Hmax1 _ Hmin2 Hmax2 _ Hmin3 Hmax3 _ Hmin4 Hmax4.
  cbn [existsb]. unfold inSegment.
  rewrite Hmin1, Hmax1, Hmin2, Hmax2, Hmin3, Hmax3, Hmin4, Hmax4.
  destruct (Z.leb_spec 1 p), (Z.leb_spec p 100), (Z.leb_spec 101 p), (Z.leb_spec p 500),
    (Z.leb_spec 501 p), (Z.leb_spec p 1000), (Z.leb_spec 1001 p); cbn; try done; lia.
Qed.

Lemma count_all cs segs :
  map tier segs = map tier initialSegments →
  Forall within segs →
  Forall (λ c, 0 < pointsOf c) cs →
  let segs' := fold_left (λ segments c, countIn (pointsOf c) segments) cs segs in
  map tier segs' = map tier initialSegments
  ∧ Forall within segs'
  ∧ sumOf (map count segs') = sumOf (map count segs) + Z.of_nat (length cs)
  ∧ sumOf (map totalPoints segs')
    = sumOf (map totalPoints segs) + sumOf (map pointsOf cs).
Proof.
  revert segs. induction cs as [|c cs IH]; intros segs Ht Hw Hpos; cbn [fold_left].
  - repeat split; try done; unfold sumOf; simpl; lia.
  - apply Forall_cons in Hpos as [Hc Hpos].
    destruct (countIn_sums (pointsOf c) segs (tiers_cover _ _ Ht Hc)) as [Hcount Htotal].
    destruct (IH (countIn (pointsOf c) segs)) as (Ht' & Hw' & Hc' & Htot');
      [by rewrite countIn_tier|by apply countIn_within|done|].
    split; [done|]. split; [done|].
    rewrite Hc', Htot', Hcount, Htotal. unfold sumOf. cbn [map foldr length].
    split; lia.
Qed.

Lemma fold_left_points cs a :
  fold_left (λ sum c, sum + pointsOf c) cs a = a + sumOf (map pointsOf cs).
Proof.
  revert a. induction cs as [|c cs IH]; intros a; simpl.
  - unfold sumOf. simpl. lia.
  - rewrite IH. unfold sumOf. simpl. lia.
Qed.

Lemma points_with_and_without cs :
  sumOf (map pointsOf cs)
  ≤ sumOf (map pointsOf (List.filter (λ c, 0 <? pointsOf c) cs))
  ∧ (Forall (λ c, 0 ≤ pointsOf c) cs →
     sumOf (map pointsOf cs)
     = sumOf (map pointsOf (List.filter (λ c, 0 <? pointsOf c) cs))).
Proof.
  induction cs as [|c cs [IHle IHeq]]; simpl; [done|].
  destruct (Z.ltb_spec 0 (pointsOf c)); unfold sumOf in *; simpl.
  - split; [lia|]. intros [_ H']%Forall_cons. specialize (IHeq H'). lia.
  - split; [lia|]. intros [? H']%Forall_cons. specialize (IHeq H'). lia.
Qed.

(** X15.  The tiers of the loyalty report partition the customers who have
    points.  The report lists Bronze (1-100), Silver (101-500), Gold
    (501-1000) and Platinum (from 1001), in this order; every customer with
    a positive balance is counted in exactly one of them, so the counts add
    up to [customersWithPoints] and the tier totals add up to the sum of the
    positive balances.  [totalPointsIssued] is the sum of all balances: it
    equals the sum of the tier totals when no balance is negative, and is
    never more.  The total of each tier lies between [count * min] and
    [count * max]. *)
Theorem X15_loyalty_tiers_partition (customers : list Customer.t) :
  let r := getLoyaltyReport customers in
  let segs := loyaltySegments r in
  let withPoints := List.filter (λ c, 0 <? pointsOf c) customers in
  map tier segs
  = [("Bronze", 1, Some 100); ("Silver", 101, Some 500);
     ("Gold", 501, Some 1000); ("Platinum", 1001, None)]
  ∧ totalCustomers r = length customers
  ∧ customersWithPoints r = length withPoints
  ∧ sumOf (map count segs) = Z.of_nat (customersWithPoints r)
  ∧ sumOf (map totalPoints segs) = sumOf (map pointsOf withPoints)
  ∧ totalPointsIssued r = sumOf (map pointsOf customers)
  ∧ totalPointsIssued r ≤ sumOf (map totalPoints segs)
  ∧ (Forall (λ c, 0 ≤ pointsOf c) customers →
     sumOf (map totalPoints segs) = totalPointsIssued r)
  ∧ Forall within segs.
Proof.
  intros r segs withPoints.
  assert (Hpos : Forall (λ c, 0 < pointsOf c) withPoints).
  { apply List.Forall_forall. intros c [_ Hc]%List.filter_In. lia. }
  assert (Hw0 : Forall within initialSegments).
  { unfold initialSegments, within. repeat constructor; cbn; lia. }
  destruct (count_all withPoints initialSegments eq_refl Hw0 Hpos)
    as (Ht & Hw & Hc & Htot).
  set (counted := fold_left (λ segments c, countIn (pointsOf c) segments)
                    withPoints initialSegments) in *.
  assert (Hsegs : segs = map average counted) by reflexivity.
  assert (Htier : map tier segs = map tier counted).
  { rewrite Hsegs, List.map_map. by apply List.map_ext. }
  assert (Hcount : map count segs = map count counted).
  { rewrite Hsegs, List.map_map. by apply List.map_ext. }
  assert (Htotal : map totalPoints segs = map totalPoints counted).
  { rewrite Hsegs, List.map_map. by apply List.map_ext. }
  assert (Hissued : totalPointsIssued r = sumOf (map pointsOf customers)).
  { subst r. unfold getLoyaltyReport. cbn [totalPointsIssued].
    rewrite fold_left_points. lia. }
  destruct (points_with_and_without customers) as [Hle Heq].
  fold withPoints in Hle, Heq.
  assert (Hsum : sumOf (map totalPoints segs) = sumOf (map pointsOf withPoints)).
  { rewrite Htotal, Htot.
    change (sumOf (map totalPoints initialSegments)) with 0.
    generalize (sumOf (map pointsOf withPoints)). intros n. lia. }
  split; [by rewrite Htier, Ht|].
  split; [done|]. split; [done|].
  split.
  { rewrite Hcount, Hc.
    change (customersWithPoints r) with (length withPoints).
    change (sumOf (map count initialSegments)) with 0.
    generalize (length withPoints). intros n. lia. }
  split; [done|]. split; [done|].
  split; [rewrite Hissued, Hsum; exact Hle|].
  split; [intros Hnn; rewrite Hissued, Hsum; symmetry; by apply Heq|].
  rewrite Hsegs. apply List.Forall_map.
  eapply List.Forall_impl; [|exact Hw]. by intros s.
Qed.

End LoyaltyTiers.

(** ** The split dialog over sequences of actions, each handled before the next *)

Section SplitDialog.
Import SplitPaymentModal.

Variable totalAmount : Number.t.

Lemma split_run_snoc st l a :
  run totalAmount st (l ++ [a]) = step totalAmount (run totalAmount st l) a.
Proof. unfold run. by rewrite fold_left_app. Qed.

Lemma nextUnpaidIndex_Some l index i :
  nextUnpaidIndex l index = Some i →
  (index < i)%nat ∧ ∃ s, l !! i = Some s ∧ paid s = false.
Proof.
  unfold nextUnpaidIndex.
  destruct (find _ _) as [[j s]|] eqn:Hf; [|done].
  cbn. intros [= <-].
  apply List.find_some in Hf as [Hin Hp].
  apply list_elem_of_In, elem_of_lookup_imap_1 in Hin as (k & y & [= -> ->] & Hy).
  apply andb_prop in Hp as [Hlt Hunpaid].
  split; [by apply Nat.ltb_lt|]. exists y. split; [done|]. by destruct (paid y).
Qed.

Lemma removeSplit_activeIndex st index st' :
  removeSplit totalAmount st index = Some st' →
  st' = st
  ∨ activeIndex st'
    = if decide (parts st' ≤ activeIndex st)%nat
      then Nat.max 0 (parts st' - 1) else activeIndex st.
Proof.
  unfold removeSplit. destruct (decide _); [by intros [= <-]; left|].
  destruct (splits st !! index) as [s|]; [|done].
  destruct (paid s); [by intros [= <-]; left|].
  intros [= <-]. by right.
Qed.

Lemma updateSplitAmount_activeIndex st index value st' :
  updateSplitAmount totalAmount st index value = Some st' →
  activeIndex st' = activeIndex st ∧ completed st' = completed st.
Proof.
  unfold updateSplitAmount. destruct (splits st !! index) as [s|]; [|done].
  destruct (paid s); by intros [= <-].
Qed.

Lemma handlePaymentSuccess_active st index st' :
  handlePaymentSuccess st index = Some st' →
  (activeIndex st < parts st)%nat → (activeIndex st' < parts st')%nat.
Proof.
  unfold handlePaymentSuccess, parts. destruct (splits st !! index) as [s|]; [|done].
  destruct (nextUnpaidIndex _ _) as [i|] eqn:Hn; intros [= <-] Hlt; cbn [splits activeIndex].
  - apply nextUnpaidIndex_Some in Hn as (_ & y & Hy & _). by apply lookup_lt_Some in Hy.
  - by rewrite length_insert.
Qed.

Lemma step_active st a :
  (activeIndex st < parts st)%nat →
  (activeIndex (step totalAmount st a) < parts (step totalAmount st a))%nat.
Proof.
  intros Hlt. destruct a as [|i|i v|i c|i|]; cbn [step].
  - unfold addSplit, parts in *. destruct (decide _); [done|].
    cbn [splits activeIndex]. rewrite length_app, length_map. lia.
  - destruct (removeEnabled st i); [|done].
    destruct (removeSplit totalAmount st i) as [st'|] eqn:Hr; [|done]. cbn [from_option id].
    pose proof (removeSplit_parts totalAmount st i st' Hr) as Hparts.
    destruct (removeSplit_activeIndex st i st' Hr) as [->|Hai]; [done|].
    rewrite Hai. destruct (decide _); lia.
  - destruct (amountEditable st i); [|done].
    destruct (updateSplitAmount totalAmount st i v) as [st'|] eqn:Hu; [|done]. cbn [from_option id].
    destruct (updateSplitAmount_activeIndex st i v st' Hu) as [-> _].
    by rewrite (updateSplitAmount_parts totalAmount st i v st' Hu).
  - destruct (payEnabled totalAmount st i); [|done].
    unfold handlePreparePayment, parts.
    destruct (splits st !! i) as [s|] eqn:Hs; [|done].
    destruct (truthy c); [|done]. cbn [splits activeIndex].
    rewrite length_insert. by apply lookup_lt_Some in Hs.
  - destruct (markPaidEnabled st i); [|done].
    destruct (handlePaymentSuccess st i) as [st'|] eqn:Hp; [|done]. cbn [from_option id].
    by apply (handlePaymentSuccess_active st i).
  - destruct (paymentSectionShown st); [|done].
    destruct (handlePaymentSuccess st (activeIndex st)) as [st'|] eqn:Hp; [|done].
    cbn [from_option id]. by apply (handlePaymentSuccess_active st (activeIndex st)).
Qed.

(** X16.  The active part always exists.  The dialog opens with part 0
    active, and after any sequence of actions, each handled before the
    next, [activeIndex] is the index of one of the parts: removing parts
    moves it back into range, and paying a part moves it to a later unpaid
    part, if there is one.  So the payment section, which reads
    [splits[activeIndex]], always finds a part. *)
Theorem X16_active_part_exists (l : list action) :
  let st := run totalAmount (initial totalAmount) l in
  (activeIndex st < parts st)%nat
  ∧ is_Some (splits st !! activeIndex st)
  ∧ (∀ i st', handlePaymentSuccess st i = Some st' →
       activeIndex st' = activeIndex st
       ∨ (i < activeIndex st')%nat
         ∧ paid <$> splits st' !! activeIndex st' = Some false).
Proof.
  intros st.
  assert (Hlt : (activeIndex st < parts st)%nat).
  { subst st. induction l as [|a l IH] using rev_ind; [cbn; lia|].
    rewrite split_run_snoc. by apply step_active. }
  split; [done|]. split; [by apply lookup_lt_is_Some_2|].
  intros i st'. unfold handlePaymentSuccess.
  destruct (splits st !! i) as [s|]; [|done].
  destruct (nextUnpaidIndex _ _) as [j|] eqn:Hn; intros [= <-]; cbn [splits activeIndex].
  - right. apply nextUnpaidIndex_Some in Hn as (Hij & y & Hy & Hp).
    split; [done|]. by rewrite Hy, <- Hp.
  - by left.
Qed.

Lemma filter_paid_insert_unpaid (l : list split) i s s' :
  l !! i = Some s → paid s = false → paid s' = false →
  List.filter paid (<[i := s']> l) = List.filter paid l.
Proof.
  revert i. induction l as [|x l IH]; intros [|i] Hs Hp Hp'; simpl in *; try done.
  - injection Hs as ->. by rewrite Hp, Hp'.
  - destruct (paid x); [f_equal|]; by eapply IH.
Qed.

Lemma filter_paid_imap (h : nat → split → split) (l : list split) :
  (∀ i s, paid (h i s) = paid s) →
  (∀ i s, paid s = true → h i s = s) →
  List.filter paid (imap h l) = List.filter paid l.
Proof.
  revert h. induction l as [|x l IH]; intros h Hflag Hfix; simpl; [done|].
  rewrite Hflag. destruct (paid x) eqn:E.
  - rewrite (Hfix 0%nat x E). f_equal. apply IH; intros; [apply Hflag|by apply Hfix].
  - apply IH; intros; [apply Hflag|by apply Hfix].
Qed.

Lemma filter_paid_insert_paid (l : list split) i s :
  l !! i = Some s →
  sublist (List.filter paid l)
          (List.filter paid (<[i := mkSplit (amount s) true (transactionId s)]> l)).
Proof.
  revert i. induction l as [|x l IH]; intros [|i] Hs; simpl in *; try done.
  - injection Hs as ->. destruct s as [a [] t]; cbn.
    + done.
    + by apply sublist_cons.
  - destruct (paid x); [apply sublist_skip|]; by apply IH.
Qed.

Lemma sublist_map {A B} (f : A → B) (l k : list A) :
  sublist l k → sublist (map f l) (map f k).
Proof. induction 1; simpl; by constructor. Qed.

Lemma updateSplitAmount_paid st index value st' :
  updateSplitAmount totalAmount st index value = Some st' →
  List.filter paid (splits st') = List.filter paid (splits st).
Proof.
  unfold updateSplitAmount. destruct (splits st !! index) as [s|] eqn:Hs; [|done].
  destruct (paid s) eqn:Hp; [by intros [= <-]|].
  intros [= <-]. cbn [splits].
  destruct (decide _).
  - rewrite filter_paid_imap.
    + by apply (filter_paid_insert_unpaid _ _ s).
    + intros i x. by destruct (negb (paid x) && negb (i =? index)%nat).
    + intros i x E. by rewrite E.
  - by apply (filter_paid_insert_unpaid _ _ s).
Qed.

Lemma handlePaymentSuccess_paid st index st' :
  handlePaymentSuccess st index = Some st' →
  sublist (List.filter paid (splits st)) (List.filter paid (splits st')).
Proof.
  unfold handlePaymentSuccess. destruct (splits st !! index) as [s|] eqn:Hs; [|done].
  destruct (nextUnpaidIndex _ _); intros [= <-]; cbn [splits];
    by apply filter_paid_insert_paid.
Qed.

Lemma step_keeps_paid_parts st a :
  a ≠ ClickAddSplit →
  sublist (List.filter paid (splits st))
          (List.filter paid (splits (step totalAmount st a))).
Proof.
  intros Ha. destruct a as [|i|i v|i c|i|]; cbn [step]; [done|..].
  - unfold removeEnabled.
    destruct (splits st !! i) as [s|] eqn:Hs; [|done].
    destruct (paid s) eqn:Hp; [done|]. cbn [negb andb].
    destruct (Nat.leb_spec (length (splits st)) 1); [done|]. cbn [negb].
    destruct (removeSplit totalAmount st i) as [st'|] eqn:Hr; [|done]. cbn [from_option id].
    destruct (removeSplit_freezes_paid_parts totalAmount st i s st') as [-> _]; done.
  - destruct (amountEditable st i); [|done].
    destruct (updateSplitAmount totalAmount st i v) as [st'|] eqn:Hu; [|done]. cbn [from_option id].
    by rewrite (updateSplitAmount_paid st i v st' Hu).
  - unfold payEnabled, handlePreparePayment.
    destruct (splits st !! i) as [s|] eqn:Hs; [|done].
    destruct (paid s) eqn:Hp; [done|]. cbn [negb andb].
    destruct (negb (truthy (transactionId s)) && isBalanced totalAmount st); [|done].
    destruct (truthy c); [|done]. cbn [splits].
    by rewrite (filter_paid_insert_unpaid _ _ s).
  - destruct (markPaidEnabled st i); [|done].
    destruct (handlePaymentSuccess st i) as [st'|] eqn:Hp; [|done]. cbn [from_option id].
    by apply (handlePaymentSuccess_paid st i).
  - destruct (paymentSectionShown st); [|done].
    destruct (handlePaymentSuccess st (activeIndex st)) as [st'|] eqn:Hp; [|done].
    cbn [from_option id]. by apply (handlePaymentSuccess_paid st (activeIndex st)).
Qed.

Lemma addSplit_paid_transactions st :
  map transactionId (List.filter paid (splits (addSplit totalAmount st)))
  = map transactionId (List.filter paid (splits st)).
Proof.
  unfold addSplit. destruct (decide _); [done|]. cbn [splits].
  rewrite List.filter_app. cbn [List.filter paid]. rewrite app_nil_r.
  rewrite filter_map_keeps_flag by done. by rewrite List.map_map.
Qed.

Lemma step_paid_transactions st a :
  sublist (map transactionId (List.filter paid (splits st)))
          (map transactionId (List.filter paid (splits (step totalAmount st a)))).
Proof.
  assert (a = ClickAddSplit ∨ a ≠ ClickAddSplit) as [->|Hne]
    by (destruct a; [by left|by right..]).
  - cbn [step]. by rewrite addSplit_paid_transactions.
  - by apply sublist_map, step_keeps_paid_parts.
Qed.

(** X17.  What has been paid stays paid, as long as each action is handled
    to its end before the next one is taken: in particular nothing is done
    to the dialog between a click on "Pay" and the moment its
    [createTransaction] settles.  Then no handler removes a paid part or
    changes its transaction: over any such sequence of actions the
    transactions of the paid parts, in order, contain those before it, and
    the number of paid parts never goes down.  Every action other than "Add
    Split" also leaves the amount of each paid part as it was.  (An action
    taken while [createTransaction] is pending is outside this statement:
    the handler then goes on with the parts as they were at the click.) *)
Theorem X17_paid_parts_are_kept (st : state) (l : list action) :
  sublist (map transactionId (List.filter paid (splits st)))
          (map transactionId (List.filter paid (splits (run totalAmount st l))))
  ∧ (length (List.filter paid (splits st))
     ≤ length (List.filter paid (splits (run totalAmount st l))))%nat
  ∧ (∀ a, a ≠ ClickAddSplit →
       sublist (List.filter paid (splits st))
               (List.filter paid (splits (step totalAmount st a)))).
Proof.
  assert (H : sublist (map transactionId (List.filter paid (splits st)))
                (map transactionId (List.filter paid (splits (run totalAmount st l))))).
  { induction l as [|a l IH] using rev_ind; [done|].
    rewrite split_run_snoc. etransitivity; [exact IH|]. apply step_paid_transactions. }
  split; [done|]. split; [|intros a; apply step_keeps_paid_parts].
  apply sublist_length in H. by rewrite !length_map in H.
Qed.

Lemma step_completed st a :
  completed st = false →
  completed (step totalAmount st a) = true →
  forallb paid (splits (step totalAmount st a)) = true
  ∧ (a = PaymentSucceeded ∨ ∃ i, a = ClickMarkPaid i).
Proof.
  assert (Hpaid : ∀ i st', handlePaymentSuccess st i = Some st' →
            completed st = false → completed st' = true →
            forallb paid (splits st') = true).
  { intros i st'. unfold handlePaymentSuccess.
    destruct (splits st !! i) as [s|]; [|done].
    destruct (nextUnpaidIndex _ _); intros [= <-]; cbn [splits completed]; [congruence|].
    destruct (forallb paid _); [done|congruence]. }
  intros Hc. destruct a as [|i|i v|i c|i|]; cbn [step].
  - unfold addSplit. destruct (decide _); cbn [completed]; congruence.
  - destruct (removeEnabled st i); [|congruence].
    unfold removeSplit. destruct (decide _); [cbn [from_option id]; congruence|].
    destruct (splits st !! i) as [s|]; [|cbn [from_option id]; congruence].
    destruct (paid s); cbn [from_option id completed]; congruence.
  - destruct (amountEditable st i); [|congruence].
    destruct (updateSplitAmount totalAmount st i v) as [st'|] eqn:Hu; cbn [from_option id];
      [|congruence].
    destruct (updateSplitAmount_activeIndex st i v st' Hu) as [_ ->]. congruence.
  - destruct (payEnabled totalAmount st i); [|congruence].
    unfold handlePreparePayment. destruct (splits st !! i); [|congruence].
    destruct (truthy c); cbn [completed]; congruence.
  - destruct (markPaidEnabled st i); [|congruence].
    destruct (handlePaymentSuccess st i) as [st'|] eqn:Hp; cbn [from_option id]; [|congruence].
    intros Hc'. split; [by apply (Hpaid i)|]. right. by exists i.
  - destruct (paymentSectionShown st); [|congruence].
    destruct (handlePaymentSuccess st (activeIndex st)) as [st'|] eqn:Hp; cbn [from_option id];
      [|congruence].
    intros Hc'. split; [by apply (Hpaid (activeIndex st))|]. by left.
Qed.

(** X18.  The payment is reported complete only when every part is paid.
    If, after a sequence of actions, [onPaymentComplete] has fired, then it
    fired at one action of the sequence, a "Mark Paid" click or a payment
    that succeeded, and right after that action every part of the dialog
    was paid. *)
Theorem X18_completion_needs_every_part_paid (l : list action) :
  completed (run totalAmount (initial totalAmount) l) = true →
  ∃ l1 a l2,
    l = l1 ++ a :: l2
    ∧ completed (run totalAmount (initial totalAmount) l1) = false
    ∧ completed (run totalAmount (initial totalAmount) (l1 ++ [a])) = true
    ∧ forallb paid (splits (run totalAmount (initial totalAmount) (l1 ++ [a]))) = true
    ∧ (a = PaymentSucceeded ∨ ∃ i, a = ClickMarkPaid i).
Proof.
  induction l as [|a l IH] using rev_ind; [done|].
  intros Hc.
  destruct (completed (run totalAmount (initial totalAmount) l)) eqn:Hprev.
  - destruct (IH eq_refl) as (l1 & a' & l2 & -> & H1 & H2 & H3 & H4).
    exists l1, a', (l2 ++ [a]). by rewrite <- app_assoc.
  - exists l, a, []. split; [done|]. split; [done|]. split; [done|].
    rewrite split_run_snoc in *. by apply step_completed.
Qed.

End SplitDialog.

Section SplitDialogOnExamples.
Import SplitPaymentModal.

Lemma X18_completion_witness :
  let total := Number.ofZ 300 in
  let l := [ClickPay 0 (Some 7); ClickMarkPaid 0; ClickAddSplit] in
  completed (run total (initial total) l) = true
  ∧ ∃ l1 a l2,
      l = l1 ++ a :: l2
      ∧ forallb paid (splits (run total (initial total) (l1 ++ [a]))) = true.
Proof.
  intros total l. split; [vm_compute; reflexivity|].
  destruct (X18_completion_needs_every_part_paid total l ltac:(vm_compute; reflexivity))
    as (l1 & a & l2 & Hl & _ & _ & Hpaid & _).
  by exists l1, a, l2.
Defined.

End SplitDialogOnExamples.

(** ** The M-Pesa poll after it has stopped, and what it reports *)

Section MpesaPollAccounts.
Import PaymentModal.

Lemma poll_while_active t0 l :
  let p := run (start t0) l in
  intervalActive p = true →
  mpesaStatus p = processing ∧ isProcessing p = true ∧ toasts p = []
  ∧ paymentCompletions p = 0%nat ∧ stationResets p = 0%nat.
Proof.
  induction l as [|e l IH] using rev_ind; [done|].
  cbv zeta in *. rewrite run_snoc.
  generalize dependent (run (start t0) l). intros p IH.
  destruct e as [|r]; cbn [step].
  - unfold tick. destruct (intervalActive p) eqn:Ha; [|congruence].
    destruct (decide _); cbn [intervalActive]; [done|].
    intros _. by apply IH.
  - unfold settle. destruct (pending p); [done|].
    destruct r as [s|]; [|done].
    destruct (String.eqb s "completed"); [done|].
    by destruct (String.eqb s "failed").
Qed.

(** X19.  The poll shows "processing" until it stops, and stops for good.
    While the interval has not been cleared the status is [processing],
    [isProcessing] is true, no toast has been shown and
    [onPaymentComplete] has not been called.  Once the interval has been
    cleared, by the sixth tick or by a check that came back [completed] or
    [failed], it stays cleared whatever follows: later ticks issue no
    status check and count nothing. *)
Theorem X19_poll_stops_for_good (t0 : Z) (l : list event) :
  let p := run (start t0) l in
  (intervalActive p = true →
     mpesaStatus p = processing ∧ isProcessing p = true ∧ toasts p = []
     ∧ paymentCompletions p = 0%nat)
  ∧ (intervalActive p = false →
     ∀ l', let p' := run (start t0) (l ++ l') in
           intervalActive p' = false
           ∧ checkLog p' = checkLog p
           ∧ statusChecks p' = statusChecks p).
Proof.
  intros p. split.
  - intros Ha. destruct (poll_while_active t0 l Ha) as (H1 & H2 & H3 & H4 & _). done.
  - intros Ha l'. cbv zeta. rewrite run_app.
    destruct (poll_stopped p l' Ha) as (H1 & H2 & H3 & _). done.
Qed.

Lemma poll_accounts t0 l :
  let p := run (start t0) l in
  (paymentCompletions p + pending p ≤ length (checkLog p))%nat
  ∧ stationResets p = paymentCompletions p
  ∧ length (List.filter (λ t, match t with PaymentSuccessful => true | _ => false end)
                        (toasts p)) = paymentCompletions p
  ∧ (paymentCompletions p
     ≤ length (List.filter (λ e, match e with
                                 | Settle (Resolved s) => String.eqb s "completed"
                                 | _ => false
                                 end) l))%nat.
Proof.
  induction l as [|e l IH] using rev_ind; [cbn; lia|].
  cbv zeta in *. rewrite run_snoc, List.filter_app, length_app.
  generalize dependent (run (start t0) l). intros p (Hcp & Hres & Hto & Hcount).
  destruct e as [|r]; cbn [step].
  - unfold tick. destruct (intervalActive p); [|cbn; lia].
    destruct (decide _);
      cbn [paymentCompletions pending checkLog stationResets toasts List.filter length].
    + rewrite List.filter_app, length_app. cbn. lia.
    + rewrite length_app. cbn. lia.
  - unfold settle. destruct (pending p) as [|n] eqn:Hn.
    { cbn [List.filter]. destruct r as [s|]; [destruct (String.eqb s "completed")|];
        cbn [length]; lia. }
    destruct r as [s|]; [|cbn; lia].
    cbn [List.filter].
    destruct (String.eqb s "completed");
      [|destruct (String.eqb s "failed")];
      cbn [paymentCompletions pending checkLog stationResets toasts length];
      rewrite ?List.filter_app, ?length_app; cbn [List.filter length]; lia.
Qed.

(** X20.  What the poll reports, counted.  [onPaymentComplete] is called
    once for each status check that comes back [completed], so at most as
    often as checks were issued, hence at most 5 times; the station is
    reset and the "Payment Successful" toast shown exactly as often.  It
    can be more than once: a check that is still pending when the next tick
    issues another one is not cancelled, and when both come back
    [completed] the payment is reported complete twice. *)
Theorem X20_poll_reports_each_completed_check (t0 : Z) (l : list event) :
  let p := run (start t0) l in
  (paymentCompletions p + pending p ≤ length (checkLog p))%nat
  ∧ (paymentCompletions p ≤ 5)%nat
  ∧ (paymentCompletions p
     ≤ length (List.filter (λ e, match e with
                                 | Settle (Resolved s) => String.eqb s "completed"
                                 | _ => false
                                 end) l))%nat
  ∧ stationResets p = paymentCompletions p
  ∧ length (List.filter (λ t, match t with PaymentSuccessful => true | _ => false end)
                        (toasts p)) = paymentCompletions p
  ∧ paymentCompletions
      (run (start t0) [Tick; Tick; Settle (Resolved "completed");
                       Settle (Resolved "completed")]) = 2%nat.
Proof.
  intros p.
  destruct (poll_accounts t0 l) as (Hcp & Hres & Hto & Hcount).
  destruct (poll_times t0 l) as [_ Hlog].
  fold p in Hcp, Hres, Hto, Hcount, Hlog.
  assert (Hlen : (length (checkLog p) ≤ 5)%nat).
  { rewrite Hlog, length_map, length_seq. unfold maxStatusChecks. lia. }
  split; [done|]. split; [lia|]. split; [done|]. split; [done|]. split; [done|].
  reflexivity.
Qed.

End MpesaPollAccounts.

(** ** Deleting a customer *)

Section CustomerDeletion.
Import CustomerController.





End CustomerDeletion.

(** ** The error log *)

Section ErrorLog.
Import DebugLogger.
Context {ErrorLogEntry : Type}.
Implicit Types (logs entries : list ErrorLogEntry) (entry : ErrorLogEntry).

Lemma logError_take logs entry :
  logError (take MAX_LOGS logs) entry = take MAX_LOGS (entry :: logs).
Proof.
  unfold logError. assert (0 < MAX_LOGS)%nat as Hpos by (unfold MAX_LOGS; lia).
  destruct MAX_LOGS as [|m]; [lia|]. cbn [length take].
  rewrite length_take. destruct (decide _) as [Hgt|Hle].
  - cbn [take]. rewrite take_take. f_equal. f_equal. lia.
  - rewrite !take_ge by lia. done.
Qed.

(** X21.  The error log keeps the newest 1000 entries, newest first.
    Starting from a log within the limit (it starts empty), after any
    number of [logError] calls the log is the entries logged, latest first,
    followed by the old log, cut off after 1000 entries: the oldest are
    dropped, the length never exceeds 1000, and the head is the entry
    logged last. *)
Theorem X21_error_log_keeps_the_newest_entries logs entries :
  (length logs ≤ MAX_LOGS)%nat →
  let logs' := fold_left logError entries logs in
  logs' = take MAX_LOGS (rev entries ++ logs)
  ∧ (length logs' ≤ MAX_LOGS)%nat
  ∧ (entries ≠ [] → head logs' = last entries).
Proof.
  intros Hlen logs'.
  assert (H : logs' = take MAX_LOGS (rev entries ++ logs)).
  { subst logs'. induction entries as [|e entries IH] using rev_ind.
    - cbn. by rewrite take_ge.
    - rewrite fold_left_app. cbn [fold_left]. rewrite IH, logError_take.
      by rewrite rev_app_distr. }
  split; [done|]. split; [rewrite H, length_take; lia|].
  intros Hne. rewrite H.
  destruct entries as [|e entries] using rev_ind; [done|].
  rewrite rev_app_distr, last_snoc. cbn [rev app].
  assert (0 < MAX_LOGS)%nat as Hpos by (unfold MAX_LOGS; lia).
  destruct MAX_LOGS; [lia|done].
Qed.

End ErrorLog.

Section ErrorLogOnExamples.
Import DebugLogger.

Lemma X21_error_log_witness :
  fold_left logError ["c"; "d"] ["b"; "a"] = ["d"; "c"; "b"; "a"]
  ∧ head (fold_left logError ["c"; "d"] ["b"; "a"]) = Some "d".
Proof.
  destruct (X21_error_log_keeps_the_newest_entries ["b"; "a"] ["c"; "d"]
              ltac:(unfold MAX_LOGS; cbn; lia)) as (Heq & _ & Hhead).
  split; [exact Heq|]. exact (Hhead ltac:(discriminate)).
Defined.

End ErrorLogOnExamples.

(** ** Phone numbers on the payment page *)

Section PhoneNumbers.
Import PaymentPage.

Lemma prefix_zero phone :
  String.prefix "0" phone = true ↔ ∃ rest, phone = "0" +:+ rest.
Proof.
  split.
  - intros H. apply String.prefix_correct in H. cbn [String.length] in H.
    destruct phone as [|a rest]; cbn in H; [discriminate H|].
    exists rest. injection H as -> _. done.
  - intros [rest ->]. by destruct rest.
Qed.

Lemma prefix_plus254 phone :
  String.prefix "+254" phone = true ↔ ∃ rest, phone = "+254" +:+ rest.
Proof.
  split.
  - intros H. apply String.prefix_correct in H. cbn [String.length] in H.
    destruct phone as [|a1 [|a2 [|a3 [|a4 rest]]]]; cbn in H; try discriminate H.
    exists rest. injection H as -> -> -> -> _. done.
  - intros [rest ->]. by destruct rest.
Qed.

(** X23.  Phone numbers for M-Pesa are normalised once.  A number written
    locally, with a leading 0, and the same number written with +254 give
    the same string, starting with 254; the result never starts with 0 or
    +254, so formatting it again changes nothing; and a number that starts
    with neither is sent as it was typed. *)
Theorem X23_phone_number_is_normalised_once (phone : string) :
  formatPhoneNumber (formatPhoneNumber phone) = formatPhoneNumber phone
  ∧ String.prefix "0" (formatPhoneNumber phone) = false
  ∧ String.prefix "+254" (formatPhoneNumber phone) = false
  ∧ (∀ rest, formatPhoneNumber ("0" +:+ rest) = "254" +:+ rest
             ∧ formatPhoneNumber ("+254" +:+ rest) = "254" +:+ rest)
  ∧ (String.prefix "0" phone = false → String.prefix "+254" phone = false →
     formatPhoneNumber phone = phone).
Proof.
  assert (Hfix : ∀ p, String.prefix "0" p = false → String.prefix "+254" p = false →
            formatPhoneNumber p = p).
  { intros p H0 H1. unfold formatPhoneNumber. by rewrite H0, H1. }
  assert (Hout : String.prefix "0" (formatPhoneNumber phone) = false
                 ∧ String.prefix "+254" (formatPhoneNumber phone) = false).
  { unfold formatPhoneNumber.
    destruct (String.prefix "0" phone) eqn:H0; [done|].
    destruct (String.prefix "+254" phone) eqn:H1; [|done].
    apply prefix_plus254 in H1 as [rest ->]. split; reflexivity. }
  destruct Hout as [H0 H1].
  split; [by apply Hfix|]. split; [done|]. split; [done|]. split; [|apply Hfix].
  intros rest. unfold formatPhoneNumber. by destruct rest.
Qed.

End PhoneNumbers.

(** ** The transaction view of a session *)

Section TransactionView.
Import DatabaseStorage Transactions.

Lemma latest_of_appended db' rows id p :
  payments db' = rows ++ [p] →
  Payment.sessionId p = Some id →
  getLatestPaymentForSession db' id = Some p.
Proof.
  intros Hrows Hp. unfold getLatestPaymentForSession.
  rewrite Hrows, List.filter_app. cbn [List.filter].
  rewrite bool_decide_eq_true_2 by done. apply last_snoc.
Qed.

(** X24.  The transaction view follows the latest payment row.  For a
    session that has been ended (the end answered 200, the amount and the
    duration fitting their columns), the view shows the session's
    [totalAmount], status COMPLETED, and payment status and method
    PENDING.  After a cash payment for the session that is accepted
    (answered 200), of whatever amount, it shows payment status COMPLETED
    and method CASH, and still the session's [totalAmount] as the amount.
    For a 32-bit id that is no session the view is the default one, with
    every status UNKNOWN and amount 0. *)
Theorem X24_transaction_view_follows_the_latest_payment
    (db : Db) (id nowMs : Z) (clk : Clock) (session : Session.t) (station : Station.t)
    (a : Number.t) (uid : option Z) :
  getSession db id = Some session →
  Session.id session = id →
  Session.status session = SESSION_ACTIVE →
  getStation db (Session.stationId session) = Some station →
  Column.endFits db session (SessionController.computeTotalAmount session station nowMs) clk
  = true →
  code (reply (SessionController.postEnd db id nowMs clk)) = 200 →
  let db1 := db_after (SessionController.postEnd db id nowMs clk) in
  let cash :=
    CashPaymentController.outcome
      (CashPaymentController.processCashPayment db1
         (CashPaymentController.mkBody (Some id) (Some a) uid)) in
  let db2 := db_after cash in
  let total := SessionController.computeTotalAmount session station nowMs in
  let t1 := getTransaction db1 id in
  let t2 := getTransaction db2 id in
  (Transactions.id t1 = id
   ∧ amount t1 = total
   ∧ status t1 = Known SESSION_COMPLETED
   ∧ paymentStatus t1 = Known PAYMENT_PENDING
   ∧ paymentMethod t1 = Known METHOD_PENDING)
  ∧ (code (reply cash) = 200 →
     Transactions.id t2 = id
     ∧ amount t2 = total
     ∧ status t2 = Known SESSION_COMPLETED
     ∧ paymentStatus t2 = Known PAYMENT_COMPLETED
     ∧ paymentMethod t2 = Known CASH)
  ∧ (∀ db' id', Column.int4 id' = true → getSession db' id' = None →
       getTransaction db' id'
       = Transactions.mk id' "Customer" None None 0 UNKNOWN UNKNOWN UNKNOWN (Some 0)).
Proof.
  intros Hs Hid Ha Hst _ _ db1 cash db2 total t1 t2.
  destruct (postEnd_writes db id nowMs clk session station Hs Ha Hst) as (Hpay & _).
  pose proof (postEnd_stored_session db id nowMs clk session station Hs Ha Hst) as Hrow.
  fold db1 in Hpay, Hrow.
  split; [|split].
  - subst t1. unfold getTransaction, getSession. rewrite Hrow.
    cbn [SessionController.closedRow closeSessionRow Session.id Session.totalAmount
         Session.status Transactions.id amount status paymentStatus paymentMethod].
    rewrite Hid. erewrite latest_of_appended; [|exact Hpay|done]. by cbn.
  - intros Hc.
    assert (Hrow2 : sessions db2 !! id
                    = Some (SessionController.closedRow session station nowMs clk)
                    ∧ ∃ p, payments db2 = (payments db1) ++ [p]
                           ∧ Payment.sessionId p = Some id
                           ∧ Payment.status p = PAYMENT_COMPLETED
                           ∧ Payment.paymentMethod p = CASH).
    { subst db2 cash.
      destruct (processCashPayment_cases db1
                  (CashPaymentController.mkBody (Some id) (Some a) uid))
        as [[_ Hres]|[(tid & a' & _ & _ & _ & _ & _ & Hres)
                     |(tid & a' & s & Ht & Ha' & _ & _ & _ & Hout & _)]].
      - rewrite Hres in Hc. done.
      - rewrite Hres in Hc. done.
      - injection Ht as <-. rewrite Hout. cbn [db_after sessions payments].
        split; [done|]. by eexists. }
    destruct Hrow2 as (Hrow2 & p & Hpay2 & Hp1 & Hp2 & Hp3).
    subst t2. unfold getTransaction, getSession. rewrite Hrow2.
    cbn [SessionController.closedRow closeSessionRow Session.id Session.totalAmount
         Session.status Transactions.id amount status paymentStatus paymentMethod].
    rewrite Hid. erewrite latest_of_appended; [|exact Hpay2|done].
    cbn. by rewrite Hp2, Hp3.
  - intros db' id' _ Hnone. unfold getTransaction. by rewrite Hnone.
Qed.

Lemma X24_transaction_view_witness :
  let db := Examples.running HOURLY None in
  let db1 := db_after (SessionController.postEnd db 1 (Examples.minutes 61)
                         (mkClock (Examples.minutes 61) 0)) in
  let db2 :=
    db_after (CashPaymentController.outcome
                (CashPaymentController.processCashPayment db1
                   (CashPaymentController.mkBody (Some 1) (Some (Number.ofZ 50)) None))) in
  (amount (getTransaction db1 1) = 204
   ∧ paymentStatus (getTransaction db1 1) = Known PAYMENT_PENDING)
  ∧ (amount (getTransaction db2 1) = 204
     ∧ paymentStatus (getTransaction db2 1) = Known PAYMENT_COMPLETED
     ∧ paymentMethod (getTransaction db2 1) = Known CASH).
Proof.
  intros db db1 db2.
  destruct (X24_transaction_view_follows_the_latest_payment db 1 (Examples.minutes 61)
              (mkClock (Examples.minutes 61) 0)
              (Examples.session1 HOURLY) (Examples.station1 STATION_ACTIVE None)
              (Number.ofZ 50) None eq_refl eq_refl eq_refl eq_refl eq_refl eq_refl)
    as ((_ & Ha1 & _ & Hp1 & _) & Hcash & _).
  destruct (Hcash eq_refl) as (_ & Ha2 & _ & Hp2 & Hm2).
  split; [split; [|exact Hp1]|split; [|split; [exact Hp2|exact Hm2]]].
  - etransitivity; [exact Ha1|]. vm_compute. reflexivity.
  - etransitivity; [exact Ha2|]. vm_compute. reflexivity.
Defined.

End TransactionView.

(** ** The active session of a station *)

Section ActiveSessionOfStation.
Import ActiveSession.

Lemma getActiveSessionByStationId_Some db sid s :
  getActiveSessionByStationId db sid = Some s →
  ∃ id, Ledger.occupies db id sid ∧ sessions db !! id = Some s.
Proof.
  unfold getActiveSessionByStationId. intros H.
  apply head_Some_elem_of, list_elem_of_In, List.filter_In in H as [Hin Hs].
  apply list_elem_of_In, list_elem_of_fmap in Hin as ([id s'] & -> & Hin).
  apply elem_of_map_to_list in Hin.
  apply andb_prop in Hs as [Hsid Hact].
  apply bool_decide_eq_true in Hsid, Hact.
  exists id. split; [by exists s'|done].
Qed.

Lemma getActiveSessionByStationId_is_Some db id sid :
  Ledger.occupies db id sid → is_Some (getActiveSessionByStationId db sid).
Proof.
  intros (s & Hs & Hact & Hsid). unfold getActiveSessionByStationId.
  destruct (List.filter _ _) as [|x l] eqn:Hf; [|by eexists].
  assert (Hin : In s (List.filter
            (λ s, bool_decide (Session.stationId s = sid)
                  && bool_decide (Session.status s = SESSION_ACTIVE))
            (snd <$> map_to_list (sessions db)))).
  { apply List.filter_In. split.
    - apply list_elem_of_In, list_elem_of_fmap. exists (id, s). split; [done|].
      by apply elem_of_map_to_list.
    - by rewrite !bool_decide_eq_true_2. }
  rewrite Hf in Hin. by destruct Hin.
Qed.

Lemma running_consistent ty perGame : Ledger.consistent (Examples.running ty perGame).
Proof.
  assert (Hocc : ∀ id sid, Ledger.occupies (Examples.running ty perGame) id sid →
                           id = 1 ∧ sid = 1).
  { intros id sid (s & Hs & _ & Hsid). cbn [Examples.running sessions] in Hs.
    apply lookup_singleton_Some in Hs as [<- <-]. by subst. }
  split.
  - intros id s Hs. cbn [Examples.running sessions nextSessionId] in *.
    apply lookup_singleton_Some in Hs as [<- _]. lia.
  - intros id sid H. destruct (Hocc id sid H) as [-> ->]. done.
  - intros sid st Hst _. cbn [Examples.running stations] in Hst.
    apply lookup_singleton_Some in Hst as [<- _].
    exists 1, (Examples.session1 ty). done.
  - intros id1 id2 sid H1 H2.
    destruct (Hocc id1 sid H1) as [-> _], (Hocc id2 sid H2) as [-> _]. done.
Qed.

(** X25.  The active session of a station is well defined.  In a lounge
    where every running session sits on an ACTIVE station, every ACTIVE
    station has a running session and no station has two (which requests to
    open and to end sessions keep true when they are handled one after the
    other), the route answers a session for a station exactly when the
    station is ACTIVE, and the session it answers is the one ACTIVE session
    on that station, whichever order the rows come in; for every other
    station it answers 404. *)
Theorem X25_active_session_of_a_station (db : Db) (sid : Z) (st : Station.t) :
  Ledger.consistent db →
  stations db !! sid = Some st →
  (code (getActiveSession db sid) = 200 ↔ Station.status st = STATION_ACTIVE)
  ∧ (code (getActiveSession db sid) = 404 ↔ Station.status st ≠ STATION_ACTIVE)
  ∧ (∀ s, getActiveSession db sid = mkReply 200 (SessionJson s) ↔
          ∃ id, sessions db !! id = Some s
                ∧ Session.status s = SESSION_ACTIVE
                ∧ Session.stationId s = sid).
Proof.
  intros Hc Hst.
  destruct Hc as [_ Hra Har Hone].
  assert (Hcode : ∀ s, getActiveSessionByStationId db sid = Some s →
            Station.status st = STATION_ACTIVE).
  { intros s (id & Hocc & _)%getActiveSessionByStationId_Some.
    specialize (Hra id sid Hocc). rewrite Hst in Hra. by injection Hra. }
  assert (Hnone : getActiveSessionByStationId db sid = None →
            Station.status st ≠ STATION_ACTIVE).
  { intros Hn Hact. destruct (Har sid st Hst Hact) as [id Hocc].
    destruct (getActiveSessionByStationId_is_Some db id sid Hocc) as [s Hs]. congruence. }
  unfold getActiveSession.
  destruct (getActiveSessionByStationId db sid) as [s|] eqn:Hs; cbn [code].
  - specialize (Hcode s eq_refl).
    split; [done|]. split; [split; [done|by intros []]|].
    intros s'. split.
    + intros [= <-]. apply getActiveSessionByStationId_Some in Hs as (id & (s0 & H0 & Ha & Hsid) & Hid).
      exists id. assert (s0 = s) as -> by congruence. done.
    + intros (id' & Hs' & Ha' & Hsid').
      apply getActiveSessionByStationId_Some in Hs as (id & Hocc & Hid).
      assert (id' = id) as ->.
      { apply (Hone id' id sid); [by exists s'|done]. }
      congruence.
  - specialize (Hnone eq_refl).
    split; [split; [done|by intros ?]|]. split; [done|].
    intros s'. split; [done|]. intros (id' & Hs' & Ha' & Hsid').
    destruct (getActiveSessionByStationId_is_Some db id' sid) as [? ?];
      [by exists s'|congruence].
Qed.

Lemma X25_active_session_witness :
  let db := Examples.running HOURLY None in
  Ledger.consistent db
  ∧ getActiveSession db 1 = mkReply 200 (SessionJson (Examples.session1 HOURLY)).
Proof.
  intros db. split; [apply running_consistent|].
  destruct (X25_active_session_of_a_station db 1 (Examples.station1 STATION_ACTIVE None)
              (running_consistent HOURLY None) eq_refl)
    as (_ & _ & Hone).
  apply Hone. exists 1. split; [reflexivity|]. split; reflexivity.
Defined.

End ActiveSessionOfStation.

(** ** The platform selection of the game form *)

Section Platforms.
Import Games.

Lemma togglePlatform_elem q sel p :
  q ∈ togglePlatform sel p ↔ (q = p ∧ p ∉ sel) ∨ (q ≠ p ∧ q ∈ sel).
Proof.
  unfold togglePlatform. destruct (bool_decide_reflect (p ∈ sel)) as [Hin|Hnin].
  - rewrite list_elem_of_In, List.filter_In, <- list_elem_of_In.
    rewrite negb_true_iff, String.eqb_neq. split.
    + intros [Hq Hne]. by right.
    + intros [[-> Hn]|[Hne Hq]]; done.
  - rewrite elem_of_app, list_elem_of_singleton. split.
    + intros [Hq| ->]; [|by left]. right. split; [|done]. by intros ->.
    + intros [[-> _]|[_ Hq]]; [by right|by left].
Qed.

Lemma NoDup_List_filter {A} (f : A → bool) (l : list A) :
  NoDup l → NoDup (List.filter f l).
Proof.
  induction 1 as [|x l Hx Hl IH]; cbn; [constructor|].
  destruct (f x); [|done]. constructor; [|done].
  rewrite list_elem_of_In, List.filter_In, <- list_elem_of_In. by intros [? _].
Qed.

Lemma togglePlatform_NoDup sel p : NoDup sel → NoDup (togglePlatform sel p).
Proof.
  intros Hnd. unfold togglePlatform.
  destruct (bool_decide_reflect (p ∈ sel)) as [Hin|Hnin].
  - by apply NoDup_List_filter.
  - apply NoDup_app. split; [done|]. split; [|apply NoDup_singleton].
    intros x Hx ->%list_elem_of_singleton. done.
Qed.

Lemma togglePlatform_clicks sel clicks q :
  q ∈ fold_left togglePlatform clicks sel
  ↔ (if Nat.even (length (List.filter (String.eqb q) clicks)) then q ∈ sel else q ∉ sel).
Proof.
  induction clicks as [|p clicks IH] using rev_ind; [done|].
  rewrite fold_left_app, List.filter_app, length_app. cbn [fold_left List.filter].
  rewrite togglePlatform_elem.
  destruct (String.eqb_spec q p) as [<-|Hne]; cbn [length].
  - rewrite Nat.add_1_r, Nat.even_succ, <- Nat.negb_even.
    destruct (Nat.even (length (List.filter (String.eqb q) clicks))); cbn [negb].
    + rewrite <- IH. split; [by intros [[_ H]|[H _]]|]. intros H. by left.
    + split.
      * intros [[_ H]|[H _]]; [|done]. rewrite IH in H.
        by destruct (decide (q ∈ sel)).
      * intros H. left. split; [done|]. rewrite IH. by intros ?.
  - rewrite Nat.add_0_r, <- IH. split.
    + by intros [[H _]|[_ H]].
    + intros H. by right.
Qed.

(** X26.  Toggling platforms.  After any sequence of clicks on the
    platform buttons, a platform is selected exactly when it was selected
    before and has been clicked an even number of times, or was not
    selected and has been clicked an odd number of times; a selection
    without repetitions stays without repetitions; and clicking a platform
    that is not selected twice gives back the selection as it was. *)
Theorem X26_platform_is_selected_by_an_odd_number_of_clicks
    (sel : list string) (clicks : list string) (q : string) :
  let sel' := fold_left togglePlatform clicks sel in
  let n := length (List.filter (String.eqb q) clicks) in
  (Nat.even n = true → (q ∈ sel' ↔ q ∈ sel))
  ∧ (Nat.odd n = true → (q ∈ sel' ↔ q ∉ sel))
  ∧ (NoDup sel → NoDup sel')
  ∧ (q ∉ sel → togglePlatform (togglePlatform sel q) q = sel).
Proof.
  cbv zeta. pose proof (togglePlatform_clicks sel clicks q) as Hmem.
  split; [|split; [|split]].
  - intros Heven. by rewrite Heven in Hmem.
  - intros Hodd. rewrite <- Nat.negb_even in Hodd. apply negb_true_iff in Hodd.
    by rewrite Hodd in Hmem.
  - intros Hnd. clear Hmem. induction clicks as [|p clicks IH] using rev_ind; [done|].
    rewrite fold_left_app. cbn [fold_left]. by apply togglePlatform_NoDup.
  - intros Hq. unfold togglePlatform at 2. rewrite bool_decide_eq_false_2 by done.
    unfold togglePlatform.
    rewrite bool_decide_eq_true_2 by (apply elem_of_app; right; by apply list_elem_of_singleton).
    rewrite List.filter_app. cbn [List.filter]. rewrite String.eqb_refl. cbn [negb].
    rewrite app_nil_r. clear Hmem. induction sel as [|x sel IH]; [done|].
    cbn [List.filter]. apply not_elem_of_cons in Hq as [Hne Hq].
    destruct (String.eqb_spec x q) as [->|_]; [done|]. cbn [negb]. by rewrite IH.
Qed.

End Platforms.
